(** * The radargram digitizer: annotation, validation and submission

    A shallow embedding of the digitizing page's script (the functions
    [get_layer_classes], [validate_polyline], [change_layer_kind],
    [create_polyline], [split_polyline], [make_feature_save_json],
    [submit_digitized], [load_digitized_inner] and the submit button's
    click handler).

    Conventions of the embedding.
    - A JavaScript number that holds a coordinate or a scale is a rational
      ([Q]): comparisons are exact, and arithmetic is the exact arithmetic
      that the floating-point operations round.  Leaflet refuses NaN
      coordinates, and infinite ones are left out.
    - Leaflet layer objects live in a heap (a list indexed by allocation
      order); the map and the [drawn_items] feature group hold references
      (indices) to them, so that a mutation made through one reference is
      seen through the other.
    - A function that may throw runs in the monad [JS]: state changes made
      before an exception is thrown are kept, as in JavaScript.
    - Only own properties of objects are looked up (no prototype chain). *)

From Stdlib Require Import QArith ZArith String Ascii List Bool Lia DecimalString.
From stdpp Require Import base list.
Import ListNotations.

Local Open Scope string_scope.
Local Open Scope list_scope.

(** ** JavaScript values *)

(** The values a nullable string property can take: [meta.difficulty],
    [meta.comment], [result.message]. *)
Inductive JsVal : Type :=
| JUndefined
| JNull
| JString (s : string).

(** [v || null] *)
Definition or_null (v : JsVal) : JsVal :=
  match v with
  | JString s => if String.eqb s EmptyString then JNull else JString s
  | _ => JNull
  end.

(** [v === null] *)
Definition strictly_null (v : JsVal) : bool :=
  match v with
  | JNull => true
  | _ => false
  end.

(** [a < b] and [a <= b] on finite numbers *)
Definition Qltb (a b : Q) : bool := negb (Qle_bool b a).
Definition Qleb (a b : Q) : bool := Qle_bool a b.

(** Template-literal rendering of integers. *)
Definition string_of_nat (n : nat) : string :=
  NilEmpty.string_of_uint (Nat.to_uint n).
Definition string_of_Z (z : Z) : string :=
  NilEmpty.string_of_int (Z.to_int z).

Definition newline : string := String (ascii_of_nat 10) EmptyString.

(** [arr.join(sep)] *)
Fixpoint join (sep : string) (arr : list string) : string :=
  match arr with
  | [] => EmptyString
  | [s] => s
  | s :: rest => s ++ sep ++ join sep rest
  end.

(** ** Data *)

Record LatLng : Type := { lat : Q; lng : Q }.

(** An entry of the class table: [{name, color, key}]. *)
Record LayerClass : Type := {
  class_name : string;
  class_color : string;
  class_key : string
}.

(** [layer.properties]; [None] is an absent (undefined) property. *)
Record Properties : Type := {
  kind : option string;
  color : option string;
  name : option string;
  issues : option (list string)
}.

(** A Leaflet polyline with the fields the script reads and writes. *)
Record Layer : Type := {
  latlngs : list LatLng;
  properties : option Properties;
  style_color : option string;
  dashArray : option string;
  issue_markers : option (list LatLng)
}.

Record RadargramMeta : Type := {
  radar_key : string;
  width : Z;
  height : Z;
  xscale : Q;
  difficulty : JsVal;
  comment : JsVal
}.

(** A GeoJSON feature: [geometry.type], [geometry.coordinates] as
    [[x, y]] pairs, and [properties]. *)
Record GeoJSON : Type := {
  geometry_type : string;
  coordinates : list (Q * Q);
  feature_properties : option Properties
}.

(** The document that is saved, submitted and loaded. *)
Record PersistedDocument : Type := {
  date_modified : string;
  doc_height : Z;
  doc_width : Z;
  doc_difficulty : JsVal;
  doc_comment : JsVal;
  doc_radar_key : string;
  features : list GeoJSON
}.

(** One call of [user_message(message, feedback)]. *)
Record UserMessage : Type := {
  message : JsVal;
  feedback : option string
}.

(** The state of a digitizing session: the locals of [setup_map] that the
    handlers close over, and what the page has shown and sent. *)
Record World : Type := {
  heap : list Layer;
  map_layers : list nat;
  drawn_items : list nat;
  meta : RadargramMeta;
  data_saved : bool;
  messages : list UserMessage;
  alerts : list string;
  requests : list PersistedDocument
}.

Definition set_heap (h : list Layer) (w : World) : World :=
  {| heap := h; map_layers := map_layers w; drawn_items := drawn_items w;
     meta := meta w; data_saved := data_saved w; messages := messages w;
     alerts := alerts w; requests := requests w |}.

Definition set_map_layers (m : list nat) (w : World) : World :=
  {| heap := heap w; map_layers := m; drawn_items := drawn_items w;
     meta := meta w; data_saved := data_saved w; messages := messages w;
     alerts := alerts w; requests := requests w |}.

Definition set_drawn_items (d : list nat) (w : World) : World :=
  {| heap := heap w; map_layers := map_layers w; drawn_items := d;
     meta := meta w; data_saved := data_saved w; messages := messages w;
     alerts := alerts w; requests := requests w |}.

Definition set_meta (m : RadargramMeta) (w : World) : World :=
  {| heap := heap w; map_layers := map_layers w; drawn_items := drawn_items w;
     meta := m; data_saved := data_saved w; messages := messages w;
     alerts := alerts w; requests := requests w |}.

Definition set_data_saved (b : bool) (w : World) : World :=
  {| heap := heap w; map_layers := map_layers w; drawn_items := drawn_items w;
     meta := meta w; data_saved := b; messages := messages w;
     alerts := alerts w; requests := requests w |}.

Definition set_messages (ms : list UserMessage) (w : World) : World :=
  {| heap := heap w; map_layers := map_layers w; drawn_items := drawn_items w;
     meta := meta w; data_saved := data_saved w; messages := ms;
     alerts := alerts w; requests := requests w |}.

Definition set_alerts (al : list string) (w : World) : World :=
  {| heap := heap w; map_layers := map_layers w; drawn_items := drawn_items w;
     meta := meta w; data_saved := data_saved w; messages := messages w;
     alerts := al; requests := requests w |}.

Definition set_requests (rs : list PersistedDocument) (w : World) : World :=
  {| heap := heap w; map_layers := map_layers w; drawn_items := drawn_items w;
     meta := meta w; data_saved := data_saved w; messages := messages w;
     alerts := alerts w; requests := rs |}.

(** ** The monad of handlers: state and exceptions *)

Module JSMonad.

Inductive Exn : Type :=
| TypeError
| SyntaxError.

Inductive Completion (A : Type) : Type :=
| Ok (a : A)
| Throw (e : Exn).
Arguments Ok {A} a.
Arguments Throw {A} e.

Definition JS (A : Type) : Type := World -> Completion A * World.

Definition ret {A} (a : A) : JS A := fun w => (Ok a, w).

Definition throw {A} (e : Exn) : JS A := fun w => (Throw e, w).

Definition bind {A B} (m : JS A) (f : A -> JS B) : JS B :=
  fun w =>
    match m w with
    | (Ok a, w1) => f a w1
    | (Throw e, w1) => (Throw e, w1)
    end.

(** [try { body } catch (error) { handler }] *)
Definition try_catch {A} (body : JS A) (handler : Exn -> JS A) : JS A :=
  fun w =>
    match body w with
    | (Ok a, w1) => (Ok a, w1)
    | (Throw e, w1) => handler e w1
    end.

Definition get : JS World := fun w => (Ok w, w).
Definition modify (f : World -> World) : JS unit := fun w => (Ok tt, f w).

End JSMonad.
Export JSMonad.

Declare Scope js_scope.
Delimit Scope js_scope with js.
Notation "x <- m ;; k" := (bind m (fun x => k))
  (at level 100, m at next level, right associativity) : js_scope.
Notation "m ;;; k" := (bind m (fun _ => k))
  (at level 100, right associativity) : js_scope.
Local Open Scope js_scope.

(** Dereferencing a layer; a reference to no object is a [TypeError]. *)
Definition get_layer (id : nat) : JS Layer :=
  fun w =>
    match heap w !! id with
    | Some l => (Ok l, w)
    | None => (Throw TypeError, w)
    end.

(** Assigning to fields of a layer object. *)
Definition update_layer (id : nat) (f : Layer -> Layer) : JS unit :=
  fun w =>
    match heap w !! id with
    | Some l => (Ok tt, set_heap (<[id := f l]> (heap w)) w)
    | None => (Throw TypeError, w)
    end.

(** [new L.Polyline(...)]: a fresh object. *)
Definition new_layer (l : Layer) : JS nat :=
  fun w => (Ok (length (heap w)), set_heap (heap w ++ [l]) w).

(** [alert(text)] *)
Definition alert (text : string) : JS unit :=
  modify (fun w => set_alerts (alerts w ++ [text]) w).

(** ** The class table *)

Definition props : list (string * (string * string)) :=
  [ ("firn_ice_interface", ("Firn-ice interface", "#002EBD"));
    ("water_table", ("Water table", "#CE00FF"));
    ("crevasse", ("Crevasse", "#62F700"));
    ("hyperbola", ("Hyperbola", "red")) ].

Definition get_layer_classes : list (string * LayerClass) :=
  List.map (fun '(key, (n, c)) =>
              (key, {| class_name := n; class_color := c; class_key := key |}))
           props.

(** [classes[key]] for a key that may be undefined *)
Fixpoint lookup_class (classes : list (string * LayerClass)) (key : option string)
  : option LayerClass :=
  match classes, key with
  | [], _ => None
  | _, None => None
  | (k, c) :: rest, Some key' =>
      if String.eqb k key' then Some c else lookup_class rest key
  end.

(** ** Messages *)

(** [user_message(message, feedback = null)] *)
Definition user_message (msg : JsVal) (fb : option string) : JS unit :=
  modify (fun w =>
            set_messages (messages w ++ [{| message := msg; feedback := fb |}]) w).

(** ** The validator *)

Definition origin : LatLng := {| lat := 0; lng := 0 |}.

(** [latlngs[i]] *)
Definition vertex (vs : list LatLng) (i : nat) : LatLng := List.nth i vs origin.

(** The test of the loop body of [validate_polyline] at index [i]. *)
Definition overhang_at (vs : list LatLng) (increasing : bool) (i : nat) : bool :=
  (increasing && Qleb (lng (vertex vs i)) (lng (vertex vs (i - 1))))
  || (negb increasing && Qleb (lng (vertex vs (i - 1))) (lng (vertex vs i))).

Definition is_increasing (vs : list LatLng) : bool :=
  Qltb (lng (vertex vs 0)) (lng (vertex vs (length vs - 1))).

(** The indices [i] at which the loop pushes an issue (and a marker). *)
Definition overhang_vertices (vs : list LatLng) : list nat :=
  if (length vs <? 2)%nat then []
  else List.filter (overhang_at vs (is_increasing vs)) (seq 1 (length vs - 1)).

Definition overhang_message (i : nat) : string :=
  "Line contains an overhang (vertex " ++ string_of_nat i ++ ")".

(** The [issues] array that [validate_polyline] returns. *)
Definition polyline_issues (vs : list LatLng) : list string :=
  List.map overhang_message (overhang_vertices vs).

Definition set_issue_markers (ms : list LatLng) (l : Layer) : Layer :=
  {| latlngs := latlngs l; properties := properties l;
     style_color := style_color l; dashArray := dashArray l;
     issue_markers := Some ms |}.

Definition set_dashArray (d : string) (l : Layer) : Layer :=
  {| latlngs := latlngs l; properties := properties l;
     style_color := style_color l; dashArray := Some d;
     issue_markers := issue_markers l |}.

(** The text of the alert that lists the issues found. *)
Definition issues_alert (found : list string) : string :=
  string_of_nat (length found) ++ " issue(s) found. Please fix them!"
  ++ newline ++ join newline found.

(** [validate_polyline(map, polyline, skip_alert = false)].  The markers
    shown on the map are those recorded in the layers' [issue_markers];
    the delayed [setStyle] is recorded as done. *)
Definition validate_polyline (polyline : nat) (skip_alert : bool) : JS (list string) :=
  update_layer polyline (set_issue_markers []) ;;;
  l <- get_layer polyline ;;
  let vs := latlngs l in
  if (length vs <? 2)%nat then ret []
  else
    let flagged := overhang_vertices vs in
    let issues := polyline_issues vs in
    update_layer polyline
      (set_issue_markers (List.map (fun i => vertex vs (i - 1)) flagged)) ;;;
    (if (0 <? length issues)%nat && negb skip_alert
     then alert (issues_alert issues)
     else ret tt) ;;;
    update_layer polyline
      (set_dashArray (if (0 <? length issues)%nat then "3 6" else "none")) ;;;
    ret issues.

(** ** Reclassification and creation *)

Definition empty_properties : Properties :=
  {| kind := None; color := None; name := None; issues := None |}.

Definition set_properties (p : option Properties) (l : Layer) : Layer :=
  {| latlngs := latlngs l; properties := p;
     style_color := style_color l; dashArray := dashArray l;
     issue_markers := issue_markers l |}.

Definition set_style_color (c : string) (l : Layer) : Layer :=
  {| latlngs := latlngs l; properties := properties l;
     style_color := Some c; dashArray := dashArray l;
     issue_markers := issue_markers l |}.

Definition set_kind (k : option string) (p : Properties) : Properties :=
  {| kind := k; color := color p; name := name p; issues := issues p |}.

Definition set_color (c : option string) (p : Properties) : Properties :=
  {| kind := kind p; color := c; name := name p; issues := issues p |}.

Definition set_name (n : option string) (p : Properties) : Properties :=
  {| kind := kind p; color := color p; name := n; issues := issues p |}.

Definition set_issues (i : option (list string)) (p : Properties) : Properties :=
  {| kind := kind p; color := color p; name := name p; issues := i |}.

(** [layer.properties.f = v]: a [TypeError] when [layer.properties] is
    undefined. *)
Definition update_properties (id : nat) (f : Properties -> Properties) : JS unit :=
  l <- get_layer id ;;
  match properties l with
  | Some p => update_layer id (set_properties (Some (f p)))
  | None => throw TypeError
  end.

(** [change_layer_kind(layer, new_kind)].  Reading [class_props.color] of
    an undefined [class_props] throws, after [properties.kind] was
    assigned. *)
Definition change_layer_kind (layer : nat) (new_kind : option string) : JS unit :=
  let classes := get_layer_classes in
  let class_props := lookup_class classes new_kind in
  update_layer layer
    (fun l => set_properties
                (Some (match properties l with
                       | Some p => p
                       | None => empty_properties
                       end)) l) ;;;
  update_properties layer (set_kind new_kind) ;;;
  match class_props with
  | None => throw TypeError
  | Some cp =>
      update_properties layer (set_color (Some (class_color cp))) ;;;
      update_properties layer (set_name (Some (class_name cp))) ;;;
      update_layer layer (set_style_color (class_color cp))
  end.

(** [add_polyline_metadata(layer, kind, drawn_items)] (the popup that is
    bound to the layer is not part of the state). *)
Definition add_polyline_metadata (layer : nat) (k : option string) : JS unit :=
  change_layer_kind layer k ;;;
  found <- validate_polyline layer false ;;
  update_properties layer (set_issues (Some found)).

(** [group.addLayer(layer)] and [map.addLayer(layer)] do nothing for a
    layer that is already there. *)
Definition add_id (id : nat) (ids : list nat) : list nat :=
  if decide (id ∈ ids) then ids else ids ++ [id].

Definition remove_id (id : nat) (ids : list nat) : list nat :=
  List.filter (fun j => negb (Nat.eqb j id)) ids.

Definition map_addLayer (id : nat) : JS unit :=
  modify (fun w => set_map_layers (add_id id (map_layers w)) w).

(** The group is on the map, so it also shows the layer there. *)
Definition drawn_items_addLayer (id : nat) : JS unit :=
  modify (fun w =>
            if decide (id ∈ drawn_items w) then w
            else set_map_layers (add_id id (map_layers w))
                   (set_drawn_items (drawn_items w ++ [id]) w)).

(** [create_polyline(coords, drawn_items, kind)] *)
Definition create_polyline (coords : list LatLng) (k : option string) : JS nat :=
  match lookup_class get_layer_classes k with
  | None => throw TypeError
  | Some class_props =>
      layer <- new_layer {| latlngs := coords; properties := None;
                            style_color := Some (class_color class_props);
                            dashArray := None; issue_markers := None |} ;;
      add_polyline_metadata layer k ;;;
      map_addLayer layer ;;;
      drawn_items_addLayer layer ;;;
      ret layer
  end.

(** ** The split operator *)

(** The callback that [split_polyline] passes to [forEach], on the pair
    ([coords], [done]) it updates. *)
Definition split_step (i : nat) (x_coord y_coord : Q)
    (acc : list LatLng * bool) (pair : LatLng) : list LatLng * bool :=
  let '(coords, done) := acc in
  if ((i =? 0)%nat && Qltb x_coord (lng pair))
     || ((i =? 1)%nat && Qltb (lng pair) x_coord)
  then ((if done then coords
         else coords ++ [{| lat := y_coord; lng := x_coord |}]), true)
  else (coords ++ [pair], done).

Definition split_coords (i : nat) (x_coord y_coord : Q) (vs : list LatLng)
  : list LatLng :=
  fst (fold_left (split_step i x_coord y_coord) vs ([], false)).

Fixpoint for_each {A} (xs : list A) (body : A -> JS unit) : JS unit :=
  match xs with
  | [] => ret tt
  | x :: rest => body x ;;; for_each rest body
  end.

(** [map.removeLayer(layer)]: the map forgets the layer; a feature group
    that holds the layer is not told. *)
Definition map_removeLayer (id : nat) : JS unit :=
  modify (fun w => set_map_layers (remove_id id (map_layers w)) w).

(** [split_polyline(layer, x_coord, y_coord, drawn_items)].
    [layer._map] is null for a layer that is on no map. *)
Definition split_polyline (layer : nat) (x_coord y_coord : Q) : JS unit :=
  for_each [0%nat; 1%nat]
    (fun i =>
       l <- get_layer layer ;;
       let coords := split_coords i x_coord y_coord (latlngs l) in
       match properties l with
       | None => throw TypeError
       | Some p => create_polyline coords (kind p) ;;; ret tt
       end) ;;;
  w <- get ;;
  (if decide (layer ∈ map_layers w) then map_removeLayer layer
   else throw TypeError) ;;;
  (* layer.remove(): the layer is on no map any more *)
  ret tt.

(** ** The serializer *)

(** [layer.toGeoJSON()] of a polyline, with the layer's properties
    attached. *)
Definition toGeoJSON (l : Layer) : GeoJSON :=
  {| geometry_type := "LineString";
     coordinates := List.map (fun p => (lng p, lat p)) (latlngs l);
     feature_properties := properties l |}.

Definition set_coordinates (cs : list (Q * Q)) (f : GeoJSON) : GeoJSON :=
  {| geometry_type := geometry_type f; coordinates := cs;
     feature_properties := feature_properties f |}.

Fixpoint each_layer (ids : list nat) : JS (list Layer) :=
  match ids with
  | [] => ret []
  | id :: rest =>
      l <- get_layer id ;;
      ls <- each_layer rest ;;
      ret (l :: ls)
  end.

(** [make_feature_save_json(drawn_items, meta)]; [date] is
    [new Date().toJSON()]. *)
Definition make_feature_save_json (date : string) : JS PersistedDocument :=
  w <- get ;;
  layers <- each_layer (drawn_items w) ;;
  let m := meta w in
  let collected := List.map toGeoJSON layers in
  let scaled :=
    if negb (Qeq_bool (xscale m) 1)
    then List.map
           (fun feature =>
              set_coordinates
                (List.map (fun coords => (fst coords / xscale m, snd coords)%Q)
                          (coordinates feature))
                feature)
           collected
    else collected in
  ret {| date_modified := date;
         doc_height := height m;
         doc_width := width m;
         doc_difficulty := difficulty m;
         doc_comment := or_null (comment m);
         doc_radar_key := radar_key m;
         features := scaled |}.

Inductive Flow : Type :=
| Next
| Return.

(** A [for ... of] loop whose body may [return] from the function. *)
Fixpoint for_of {A} (xs : list A) (body : A -> JS Flow) : JS Flow :=
  match xs with
  | [] => ret Next
  | x :: rest =>
      fl <- body x ;;
      match fl with
      | Next => for_of rest body
      | Return => ret Return
      end
  end.

(** The three fields compared on load: the key, the document's value and
    the session's value as they are printed, and whether they differ. *)
Definition checked_keys (data : PersistedDocument) (m : RadargramMeta)
  : list (string * string * string * bool) :=
  [ ("radar_key", doc_radar_key data, radar_key m,
      negb (String.eqb (doc_radar_key data) (radar_key m)));
    ("width", string_of_Z (doc_width data), string_of_Z (width m),
      negb (Z.eqb (doc_width data) (width m)));
    ("height", string_of_Z (doc_height data), string_of_Z (height m),
      negb (Z.eqb (doc_height data) (height m))) ].

Definition set_comment_difficulty (c d : JsVal) (m : RadargramMeta) : RadargramMeta :=
  {| radar_key := radar_key m; width := width m; height := height m;
     xscale := xscale m; difficulty := d; comment := c |}.

(** [drawn_items.clearLayers()]: every layer of the group leaves the
    group and the map. *)
Definition clearLayers : JS unit :=
  modify (fun w =>
            set_drawn_items []
              (set_map_layers
                 (List.filter (fun j => negb (bool_decide (j ∈ drawn_items w)))
                              (map_layers w)) w)).

(** The lookup by name for features saved without a [kind]. *)
Fixpoint kind_by_name (classes : list (string * LayerClass)) (n : option string)
  : option string :=
  match classes, n with
  | [], _ => None
  | _, None => None
  | (kind_class, c) :: rest, Some n' =>
      if String.eqb (class_name c) n' then Some kind_class
      else kind_by_name rest n
  end.

(** The body of the loop over [data.features.features]. *)
Definition load_feature (feature_geojson : GeoJSON) : JS Flow :=
  let classes := get_layer_classes in
  match feature_properties feature_geojson with
  | None => throw TypeError
  | Some fp =>
      let k := match kind fp with
               | Some k => Some k
               | None => kind_by_name classes (name fp)
               end in
      if String.eqb (geometry_type feature_geojson) "LineString" then
        w <- get ;;
        let coords :=
          List.map (fun pair => {| lat := snd pair;
                                   lng := (fst pair * xscale (meta w))%Q |})
                   (coordinates feature_geojson) in
        layer <- create_polyline coords k ;;
        drawn_items_addLayer layer ;;;
        ret Next
      else
        user_message
          (JString "Skipped loading of one feature as it was the wrong type")
          (Some "error") ;;;
        ret Return
  end.

(** [load_digitized_inner(data, meta, drawn_items)] *)
Definition load_digitized_inner (data : PersistedDocument) : JS unit :=
  try_catch
    (w <- get ;;
     checked <- for_of (checked_keys data (meta w))
       (fun '(key, found, expected, differs) =>
          if (differs : bool) then
            user_message
              (JString ("Error loading data: " ++ key ++ " (" ++ found
                        ++ ") does not align with expected " ++ key
                        ++ " (" ++ expected ++ ")"))
              (Some "error") ;;;
            ret Return
          else ret Next) ;;
     match checked with
     | Return => ret tt
     | Next =>
         modify (fun w => set_meta
                            (set_comment_difficulty (doc_comment data)
                               (doc_difficulty data) (meta w)) w) ;;;
         w <- get ;;
         (if (0 <? length (drawn_items w))%nat then clearLayers else ret tt) ;;;
         loaded <- for_of (features data) load_feature ;;
         match loaded with
         | Return => ret tt
         | Next =>
             w <- get ;;
             user_message
               (JString ("Loaded " ++ string_of_nat (length (drawn_items w))
                         ++ " line(s)"))
               None
         end
     end)
    (fun _ =>
       user_message (JString "Error parsing data. Please check your file")
                    (Some "error")).

(** ** The submission client *)

(** What [await response.json()] yields. *)
Inductive ResponseBody : Type :=
| NotJSON
| JSONNull
| JSONObject (result_message : JsVal).

(** How the [fetch] of [/submit-digitized] settles. *)
Inductive FetchResult : Type :=
| NetworkFailure
| HttpResponse (status : nat) (body : ResponseBody).

(** [submit_digitized(data)] up to its first [await]: the request is
    sent. *)
Definition submit_digitized (data : PersistedDocument) : JS unit :=
  modify (fun w => set_requests (requests w ++ [data]) w).

(** [submit_digitized] from its first [await] on, once the request has
    settled with [r]. *)
Definition submit_digitized_settled (r : FetchResult) : JS unit :=
  try_catch
    (match r with
     | NetworkFailure => throw TypeError
     | HttpResponse status body =>
         if (status =? 401)%nat then
           user_message
             (JString "Not logged in! Please save the data, log in, and try again.")
             (Some "error")
         else
           match body with
           | NotJSON => throw SyntaxError
           | JSONNull => throw TypeError
           | JSONObject result_message =>
               user_message result_message (Some "success")
           end
     end)
    (fun _ =>
       user_message (JString "An erorr occurred submitting!") (Some "error")).

(** ** The submit button *)

Fixpoint count_lines_with_issues (ids : list nat) (n_lines_with_issues : nat)
  : JS nat :=
  match ids with
  | [] => ret n_lines_with_issues
  | layer :: rest =>
      found <- validate_polyline layer true ;;
      count_lines_with_issues rest
        (if (0 <? length found)%nat then n_lines_with_issues + 1
         else n_lines_with_issues)%nat
  end.

(** [submit_button.onclick]; [confirmed] is the user's answer to the
    confirmation dialog, should it be shown, and [date] the time of the
    click. *)
Definition submit_button_onclick (confirmed : bool) (date : string) : JS unit :=
  w <- get ;;
  if strictly_null (difficulty (meta w)) then
    user_message (JString "Please choose a difficulty before submitting")
                 (Some "error")
  else if (length (drawn_items w) =? 0)%nat then
    user_message (JString "Submit failed: project is empty") (Some "error")
  else
    n_lines_with_issues <- count_lines_with_issues (drawn_items w) 0 ;;
    if (0 <? n_lines_with_issues)%nat then
      user_message
        (JString ("Submit failed: " ++ string_of_nat n_lines_with_issues
                  ++ " line(s) have unfixed issues. Please look for the red circles."))
        (Some "error")
    else if negb confirmed then ret tt
    else
      output <- make_feature_save_json date ;;
      submit_digitized output ;;;
      modify (set_data_saved true).

(** A whole submission: the click, then the settling of the request it
    sent, if it sent one. *)
Definition submit_and_settle (confirmed : bool) (date : string) (r : FetchResult)
  : JS unit :=
  w0 <- get ;;
  submit_button_onclick confirmed date ;;;
  w1 <- get ;;
  if (length (requests w0) <? length (requests w1))%nat
  then submit_digitized_settled r
  else ret tt.

(** ** Vocabulary of the properties *)

(** The pair of vertices [a], [b] moves in the horizontal direction of the
    displacement from [first] to [last]: both to the right, or both to the
    left. *)
Definition moves_with (first last a b : LatLng) : Prop :=
  (lng first < lng last /\ lng a < lng b)%Q
  \/ (lng last < lng first /\ lng b < lng a)%Q.

(** Every consecutive pair of [vs] moves with the displacement from the
    first vertex to the last. *)
Definition monotonic (vs : list LatLng) : Prop :=
  forall i, (1 <= i < length vs)%nat ->
    moves_with (vertex vs 0) (vertex vs (length vs - 1))
               (vertex vs (i - 1)) (vertex vs i).

(** The layer that [validate_polyline] leaves behind. *)
Definition validated (l : Layer) : Layer :=
  if (length (latlngs l) <? 2)%nat then set_issue_markers [] l
  else
    set_dashArray
      (if (0 <? length (polyline_issues (latlngs l)))%nat then "3 6" else "none")
      (set_issue_markers
         (List.map (fun i => vertex (latlngs l) (i - 1))
                   (overhang_vertices (latlngs l))) l).

(** The alerts that [validate_polyline] raises. *)
Definition validate_alerts (l : Layer) (skip_alert : bool) : list string :=
  if (0 <? length (polyline_issues (latlngs l)))%nat && negb skip_alert
  then [issues_alert (polyline_issues (latlngs l))]
  else [].

(** The test with which pass [i] of [split_polyline] leaves a vertex
    out. *)
Definition skipped (x_coord : Q) (i : nat) (pair : LatLng) : bool :=
  ((i =? 0)%nat && Qltb x_coord (lng pair))
  || ((i =? 1)%nat && Qltb (lng pair) x_coord).

(** A kind that the class table knows. *)
Definition registered (k : option string) : Prop :=
  is_Some (lookup_class get_layer_classes k).

(** The layer that a successful [change_layer_kind] leaves behind. *)
Definition reclassified (k : option string) (cp : LayerClass) (l : Layer) : Layer :=
  set_style_color (class_color cp)
    (set_properties
       (Some (set_name (Some (class_name cp))
                (set_color (Some (class_color cp))
                   (set_kind k (match properties l with
                                | Some p => p
                                | None => empty_properties
                                end))))) l).

(** The layer that [change_layer_kind] leaves behind when it throws. *)
Definition misclassified (k : option string) (l : Layer) : Layer :=
  set_properties
    (Some (set_kind k (match properties l with
                       | Some p => p
                       | None => empty_properties
                       end))) l.

(** The layer that [add_polyline_metadata] leaves behind. *)
Definition annotated (k : option string) (cp : LayerClass) (l : Layer) : Layer :=
  let l1 := validated (reclassified k cp l) in
  match properties l1 with
  | Some p =>
      set_properties (Some (set_issues (Some (polyline_issues (latlngs l))) p)) l1
  | None => l1
  end.

(** The layer that [create_polyline] builds. *)
Definition created (coords : list LatLng) (k : option string) (cp : LayerClass)
  : Layer :=
  {| latlngs := coords;
     properties := Some {| kind := k; color := Some (class_color cp);
                           name := Some (class_name cp);
                           issues := Some (polyline_issues coords) |};
     style_color := Some (class_color cp);
     dashArray := if (length coords <? 2)%nat then None
                  else Some (if (0 <? length (polyline_issues coords))%nat
                             then "3 6" else "none");
     issue_markers := Some (List.map (fun i => vertex coords (i - 1))
                                     (overhang_vertices coords)) |}.

(** The features of the session: the layers of [drawn_items]. *)
Definition annotation_set (w : World) : list Layer :=
  omap (fun id => heap w !! id) (drawn_items w).

(** A feature of the data model: a layer of the group with a kind of the
    class table. *)
Definition is_feature (w : World) (id : nat) (l : Layer) (p : Properties) : Prop :=
  heap w !! id = Some l /\ properties l = Some p /\ registered (kind p).



Definition kind_of (l : Layer) : option string :=
  match properties l with
  | Some p => kind p
  | None => None
  end.



Definition color_of (l : Layer) : option string :=
  match properties l with
  | Some p => color p
  | None => None
  end.


Definition issues_of (l : Layer) : option (list string) :=
  match properties l with
  | Some p => issues p
  | None => None
  end.

(** ** Sessions used as examples *)

Definition point (x y : Q) : LatLng := {| lat := y; lng := x |}.

Definition example_meta : RadargramMeta :=
  {| radar_key := "amundsenisen-profile-2025-1"; width := 1000; height := 500;
     xscale := 2; difficulty := JString "medium"; comment := JUndefined |}.

(** A session with nothing drawn. *)
Definition new_session (m : RadargramMeta) : World :=
  {| heap := []; map_layers := []; drawn_items := []; meta := m;
     data_saved := true; messages := []; alerts := []; requests := [] |}.

(** A session that holds one line of kind [k] and has unsaved changes. *)
Definition drawn (m : RadargramMeta) (coords : list LatLng) (k : string) : World :=
  set_data_saved false (snd (create_polyline coords (Some k) (new_session m))).

Definition scenario_A : World :=
  drawn example_meta [point 0 0; point 5 0] "water_table".

Definition scenario_B : World :=
  drawn example_meta [point 0 0; point 5 0; point 3 0] "water_table".

Definition scenario_D : World :=
  drawn example_meta [point 0 0; point 2 0; point 4 0; point 6 0] "crevasse".

(** The line of Scenario D as a layer, and its properties. *)
Definition parent_D : Layer :=
  created [point 0 0; point 2 0; point 4 0; point 6 0] (Some "crevasse")
    {| class_name := "Crevasse"; class_color := "#62F700"; class_key := "crevasse" |}.

Definition props_D : Properties :=
  {| kind := Some "crevasse"; color := Some "#62F700"; name := Some "Crevasse";
     issues := Some [] |}.

(** A document for the session of [example_meta] with a line, a point
    and another line. *)
Definition line_feature (cs : list (Q * Q)) (k : string) : GeoJSON :=
  {| geometry_type := "LineString"; coordinates := cs;
     feature_properties :=
       Some {| kind := Some k; color := None; name := None; issues := None |} |}.

Definition point_feature : GeoJSON :=
  {| geometry_type := "Point"; coordinates := [];
     feature_properties :=
       Some {| kind := Some "crevasse"; color := None; name := None;
               issues := None |} |}.

Definition mixed_document : PersistedDocument :=
  {| date_modified := "2025-04-05T10:00:00.000Z";
     doc_height := 500; doc_width := 1000;
     doc_difficulty := JString "hard"; doc_comment := JNull;
     doc_radar_key := "amundsenisen-profile-2025-1";
     features := [ line_feature [(0, 10); (5, 10)]%Q "water_table";
                   point_feature;
                   line_feature [(0, 20); (5, 20)]%Q "crevasse" ] |}.

Definition skipped_message : UserMessage :=
  {| message := JString "Skipped loading of one feature as it was the wrong type";
     feedback := Some "error" |}.

Definition not_logged_in_message : UserMessage :=
  {| message := JString "Not logged in! Please save the data, log in, and try again.";
     feedback := Some "error" |}.

Definition submit_error_message : UserMessage :=
  {| message := JString "An erorr occurred submitting!";
     feedback := Some "error" |}.

(** Every reference of the group is to a layer. *)
Definition resolves (w : World) : Prop :=
  forall id, id ∈ drawn_items w -> is_Some (heap w !! id).


(** The feature that [make_feature_save_json] writes for a layer when
    the scale is [s]. *)
Definition export_feature (s : Q) (l : Layer) : GeoJSON :=
  if negb (Qeq_bool s 1)
  then set_coordinates
         (List.map (fun coords => (fst coords / s, snd coords)%Q)
                   (coordinates (toGeoJSON l)))
         (toGeoJSON l)
  else toGeoJSON l.

(** The document that [make_feature_save_json] builds. *)
Definition saved_document (date : string) (w : World) : PersistedDocument :=
  {| date_modified := date;
     doc_height := height (meta w);
     doc_width := width (meta w);
     doc_difficulty := difficulty (meta w);
     doc_comment := or_null (comment (meta w));
     doc_radar_key := radar_key (meta w);
     features := List.map (export_feature (xscale (meta w))) (annotation_set w) |}.



(** No layer's vertices change from [w] to [w']. *)
Definition geometry_kept (w w' : World) : Prop :=
  forall id l, heap w !! id = Some l ->
    exists l', heap w' !! id = Some l' /\ latlngs l' = latlngs l.

(** ** The rest of the digitizing page *)

(** [v == undefined] and [v == null] (loose: true of undefined and of
    null) *)
Definition loosely_null (v : JsVal) : bool :=
  match v with
  | JString _ => false
  | _ => true
  end.

Definition set_difficulty (d : JsVal) (m : RadargramMeta) : RadargramMeta :=
  {| radar_key := radar_key m; width := width m; height := height m;
     xscale := xscale m; difficulty := d; comment := comment m |}.

Definition set_comment (c : JsVal) (m : RadargramMeta) : RadargramMeta :=
  {| radar_key := radar_key m; width := width m; height := height m;
     xscale := xscale m; difficulty := difficulty m; comment := c |}.

Definition set_latlngs (vs : list LatLng) (l : Layer) : Layer :=
  {| latlngs := vs; properties := properties l;
     style_color := style_color l; dashArray := dashArray l;
     issue_markers := issue_markers l |}.

(** What [/radargram_meta/<key>.json] holds of the fields of the
    session's metadata; [None] is an absent (or null) [xscale]. *)
Record FetchedMeta : Type := {
  fetched_width : Z;
  fetched_height : Z;
  fetched_xscale : option Q;
  fetched_difficulty : JsVal;
  fetched_comment : JsVal
}.

(** [get_metadata()], for the key in the page's [meta] tag and the
    fetched object. *)
Definition get_metadata (page_radar_key : string) (fetched : FetchedMeta)
  : RadargramMeta :=
  {| radar_key := page_radar_key;
     width := fetched_width fetched;
     height := fetched_height fetched;
     xscale := match fetched_xscale fetched with
               | Some s => s
               | None => 1
               end;
     difficulty := fetched_difficulty fetched;
     comment := fetched_comment fetched |}.

(** A radio input. *)
Record Radio : Type := {
  radio_value : string;
  radio_checked : bool
}.

(** The value of the first checked radio. *)
Fixpoint first_checked (radios : list Radio) : option string :=
  match radios with
  | [] => None
  | radio :: rest =>
      if radio_checked radio then Some (radio_value radio)
      else first_checked rest
  end.

(** [get_user_difficulty()] *)
Definition get_user_difficulty (radios : list Radio) : JsVal :=
  match first_checked radios with
  | Some v => JString v
  | None => JNull
  end.

(** [radio.value == difficulty] *)
Definition value_equals (v : string) (d : JsVal) : bool :=
  match d with
  | JString s => String.eqb v s
  | _ => false
  end.

(** [set_user_difficulty(difficulty)] *)
Definition set_user_difficulty (d : JsVal) (radios : list Radio) : list Radio :=
  List.map (fun radio => {| radio_value := radio_value radio;
                            radio_checked := value_equals (radio_value radio) d |})
           radios.

(** The two tests of [setup_map] that follow [load_latest]. *)
Definition setup_difficulty (m : RadargramMeta) (radios : list Radio)
  : RadargramMeta * list Radio :=
  let m1 := if loosely_null (difficulty m)
            then set_difficulty (get_user_difficulty radios) m
            else m in
  let radios1 := if negb (loosely_null (difficulty m1))
                 then set_user_difficulty (difficulty m1) radios
                 else radios in
  (m1, radios1).

(** The radios that [make_color_selector] creates. *)
Definition make_color_selector : list Radio :=
  List.map (fun '(key, _) => {| radio_value := key;
                                radio_checked := String.eqb key "water_table" |})
           get_layer_classes.

(** [get_current_kind()]: reading [value] of no checked input throws. *)
Definition get_current_kind (selector : list Radio) : JS string :=
  match first_checked selector with
  | Some v => ret v
  | None => throw TypeError
  end.

(** The listeners of [L.Draw.Event.CREATED], in the order in which they
    were registered; the drawing tool has made the polyline with the
    color of its options. *)
Definition on_created (coords : list LatLng) (draw_color : option string)
    (selector : list Radio) : JS unit :=
  layer <- new_layer {| latlngs := coords; properties := None;
                        style_color := draw_color;
                        dashArray := None; issue_markers := None |} ;;
  k <- get_current_kind selector ;;
  add_polyline_metadata layer (Some k) ;;;
  drawn_items_addLayer layer ;;;
  modify (set_data_saved false).

(** The listeners of [L.Draw.Event.EDITED] for the layers that were
    edited. *)
Definition on_edited (layers : list nat) : JS unit :=
  for_each layers
    (fun layer =>
       found <- validate_polyline layer false ;;
       update_properties layer (set_issues (Some found))) ;;;
  modify (set_data_saved false).

(** An editing session of the drawing tool: it moves the vertices of
    layers and then fires the event for those layers. *)
Definition edit_layers (changes : list (nat * list LatLng)) : JS unit :=
  for_each changes (fun '(layer, vs) => update_layer layer (set_latlngs vs)) ;;;
  on_edited (List.map fst changes).

(** [drawn_items.removeLayer(layer)]: the layer leaves the group and the
    map. *)
Definition drawn_items_removeLayer (id : nat) : JS unit :=
  modify (fun w =>
            if decide (id ∈ drawn_items w)
            then set_map_layers (remove_id id (map_layers w))
                   (set_drawn_items (remove_id id (drawn_items w)) w)
            else w).

(** The listeners of [L.Draw.Event.DELETED] for the layers that were
    deleted. *)
Definition on_deleted (layers : list nat) : JS unit :=
  for_each layers
    (fun layer =>
       l <- get_layer layer ;;
       match issue_markers l with
       | Some _ => update_layer layer (set_issue_markers [])
       | None => ret tt
       end) ;;;
  modify (set_data_saved false).

(** A deletion with the drawing tool: it removes the layers from the
    group and then fires the event for them. *)
Definition delete_layers (layers : list nat) : JS unit :=
  for_each layers drawn_items_removeLayer ;;;
  on_deleted layers.

(** The click handler of an entry of the popup's class list;
    [target_key] is [event.target.key], undefined when the click lands
    on the color patch inside the entry. *)
Definition class_item_onclick (layer : nat) (target_key : option string)
  : JS unit :=
  change_layer_kind layer target_key.

(** The click handler of the popup's split button, at the popup's
    location. *)
Definition split_line_button_onclick (layer : nat) (x_coord y_coord : Q)
    (confirmed : bool) : JS unit :=
  if negb confirmed then ret tt
  else split_polyline layer x_coord y_coord.

(** How the fetch of the latest submission settles. *)
Inductive LatestSubmission : Type :=
| LatestFailed
| LatestEmpty
| LatestDocument (latest : PersistedDocument).

(** [load_latest(meta, drawn_items)] *)
Definition load_latest (fetched : LatestSubmission) : JS unit :=
  try_catch
    (match fetched with
     | LatestFailed => throw SyntaxError
     | LatestEmpty => ret tt
     | LatestDocument latest =>
         load_digitized_inner latest ;;;
         w <- get ;;
         user_message
           (JString ("Loaded the last submission ("
                     ++ string_of_nat (length (drawn_items w)) ++ " line(s))"))
           None
     end)
    (fun _ => ret tt).

(** What the file input and the file reader deliver. *)
Inductive ChosenFile : Type :=
| NoFile
| UnreadableFile
| UnparsableFile
| DocumentFile (data : PersistedDocument).

(** [load_digitized(event, meta, drawn_items)] with the events of the
    reader it starts. *)
Definition load_digitized (file : ChosenFile) : JS unit :=
  match file with
  | NoFile => ret tt
  | UnreadableFile =>
      user_message (JString "Error reading file. Please try again") (Some "error")
  | UnparsableFile =>
      user_message (JString "Error parsing loaded JSON. Please check your file")
                   (Some "error")
  | DocumentFile data => load_digitized_inner data
  end.

(** The change listener of the load button: [load_digitized] returns
    when the read has started, the flag is set, and the reader's events
    follow. *)
Definition load_button_change (file : ChosenFile) : JS unit :=
  modify (set_data_saved false) ;;;
  load_digitized file.

(** The change listeners of the comment field and of the difficulty
    form. *)
Definition user_comment_change (value : string) : JS unit :=
  modify (fun w => set_meta (set_comment (JString value) (meta w)) w).

Definition difficulty_form_change (radios : list Radio) : JS unit :=
  modify (fun w => set_meta (set_difficulty (get_user_difficulty radios) (meta w)) w).

(** [s.replaceAll(a, b)] for one-character strings. *)
Fixpoint replaceAll (a b : ascii) (s : string) : string :=
  match s with
  | EmptyString => EmptyString
  | String c rest =>
      String (if Ascii.eqb c a then b else c) (replaceAll a b rest)
  end.

(** The name of the file that the save button downloads. *)
Definition save_filename (output : PersistedDocument) : string :=
  let date_str := replaceAll "-" "_" (replaceAll ":" "-" (date_modified output)) in
  "digitized_" ++ doc_radar_key output ++ "-" ++ date_str ++ ".json".

Record Download : Type := {
  download_name : string;
  download_body : PersistedDocument
}.

(** The page: the session, the difficulty radios, the text and color of
    the response line, and the files downloaded. *)
Record Page : Type := {
  session : World;
  difficulty_radios : list Radio;
  response_text : JsVal;
  response_color : string;
  downloads : list Download
}.

(** The color that [user_message] gives the response line. *)
Definition message_color (fb : option string) : string :=
  match fb with
  | None => "#333"
  | Some f =>
      if String.eqb f "success" then "green"
      else if String.eqb f "error" then "red"
      else "#333"
  end.

(** A handler of the session run on the page: the response line shows
    the last message that the handler gave. *)
Definition in_session {A} (m : JS A) (p : Page) : Completion A * Page :=
  let '(r, w') := m (session p) in
  let shown := List.fold_left
                 (fun (d : JsVal * string) msg =>
                    (message msg, message_color (feedback msg)))
                 (skipn (length (messages (session p))) (messages w'))
                 (response_text p, response_color p) in
  (r, {| session := w'; difficulty_radios := difficulty_radios p;
         response_text := fst shown; response_color := snd shown;
         downloads := downloads p |}).

(** [save-button.onclick]; [date] is the time of the click. *)
Definition save_button_onclick (date : string) (p : Page) : Completion unit * Page :=
  if (length (drawn_items (session p)) =? 0)%nat then
    (Ok tt, {| session := session p; difficulty_radios := difficulty_radios p;
               response_text := JString "Save failed: project is empty";
               response_color := response_color p;
               downloads := downloads p |})
  else
    match make_feature_save_json date (session p) with
    | (Ok output, w1) =>
        (Ok tt, {| session := set_data_saved true w1;
                   difficulty_radios := difficulty_radios p;
                   response_text := response_text p;
                   response_color := response_color p;
                   downloads := downloads p
                                ++ [{| download_name := save_filename output;
                                       download_body := output |}] |})
    | (Throw e, w1) =>
        (Throw e, {| session := w1; difficulty_radios := difficulty_radios p;
                     response_text := response_text p;
                     response_color := response_color p;
                     downloads := downloads p |})
    end.

(** What the user and the network do to the page. *)
Inductive Event : Type :=
| Drawn (coords : list LatLng) (draw_color : option string) (selector : list Radio)
| Edited (changes : list (nat * list LatLng))
| Deleted (layers : list nat)
| ClassItemClicked (layer : nat) (target_key : option string)
| SplitClicked (layer : nat) (x_coord y_coord : Q) (confirmed : bool)
| FileChosen (file : ChosenFile)
| SaveClicked (date : string)
| SubmitClicked (confirmed : bool) (date : string)
| RequestSettled (r : FetchResult)
| CommentChanged (value : string)
| DifficultyChosen (radios : list Radio).

(** The handler of an event; an exception that a handler does not catch
    ends the handler and nothing else. *)
Definition handle (e : Event) (p : Page) : Page :=
  match e with
  | Drawn coords draw_color selector =>
      snd (in_session (on_created coords draw_color selector) p)
  | Edited changes => snd (in_session (edit_layers changes) p)
  | Deleted layers => snd (in_session (delete_layers layers) p)
  | ClassItemClicked layer target_key =>
      snd (in_session (class_item_onclick layer target_key) p)
  | SplitClicked layer x_coord y_coord confirmed =>
      snd (in_session (split_line_button_onclick layer x_coord y_coord confirmed) p)
  | FileChosen file => snd (in_session (load_button_change file) p)
  | SaveClicked date => snd (save_button_onclick date p)
  | SubmitClicked confirmed date =>
      snd (in_session (submit_button_onclick confirmed date) p)
  | RequestSettled r => snd (in_session (submit_digitized_settled r) p)
  | CommentChanged value => snd (in_session (user_comment_change value) p)
  | DifficultyChosen radios =>
      snd (in_session (difficulty_form_change radios)
             {| session := session p; difficulty_radios := radios;
                response_text := response_text p;
                response_color := response_color p;
                downloads := downloads p |})
  end.

(** The events that the page can deliver in a session: the class
    selector and the popup's class list offer the keys of the class
    table, and the drawing tool edits layers of its group. *)
Definition offered (selector : list Radio) : Prop :=
  forall radio, In radio selector -> registered (Some (radio_value radio)).

Definition deliverable (p : Page) (e : Event) : Prop :=
  match e with
  | Drawn _ _ selector => offered selector
  | Edited changes =>
      forall change, In change changes -> fst change ∈ drawn_items (session p)
  | ClassItemClicked _ target_key => target_key = None \/ registered target_key
  | _ => True
  end.

(** The page as [setup_map] leaves it: the metadata are fetched, the
    latest submission is loaded, and the difficulty is settled. *)
Definition setup_map (page_radar_key : string) (fetched : FetchedMeta)
    (radios : list Radio) (latest : LatestSubmission)
    (text : JsVal) (text_color : string) : Page :=
  let p0 := {| session := new_session (get_metadata page_radar_key fetched);
               difficulty_radios := radios;
               response_text := text; response_color := text_color;
               downloads := [] |} in
  let p1 := snd (in_session (load_latest latest) p0) in
  let '(m, radios1) := setup_difficulty (meta (session p1)) (difficulty_radios p1) in
  {| session := set_meta m (session p1); difficulty_radios := radios1;
     response_text := response_text p1; response_color := response_color p1;
     downloads := downloads p1 |}.

(** The pages that a run of events reaches. *)
Inductive reachable : Page -> Prop :=
| reachable_setup page_radar_key fetched radios latest text text_color :
    reachable (setup_map page_radar_key fetched radios latest text text_color)
| reachable_handle p e :
    reachable p -> deliverable p e -> reachable (handle e p).

(** A layer whose color, name and line color are those of one class of
    the table, whose kind is that class's key or undefined, and whose
    recorded issues are those of its vertices. *)
Definition styled (l : Layer) : Prop :=
  exists p cp,
    properties l = Some p
    /\ lookup_class get_layer_classes (Some (class_key cp)) = Some cp
    /\ (kind p = Some (class_key cp) \/ kind p = None)
    /\ color p = Some (class_color cp)
    /\ name p = Some (class_name cp)
    /\ style_color l = Some (class_color cp)
    /\ issues p = Some (polyline_issues (latlngs l)).

(** What the handlers keep true of a session. *)
Definition kept (w : World) : Prop :=
  (forall id, id ∈ map_layers w -> id ∈ drawn_items w)
  /\ (forall id, id ∈ drawn_items w -> exists l, heap w !! id = Some l /\ styled l).

(** ** Radargram keys *)

(** [s.split(sep)] for a one-character separator. *)
Fixpoint split_on (sep : ascii) (s : string) : list string :=
  match s with
  | EmptyString => [EmptyString]
  | String c rest =>
      if Ascii.eqb c sep then EmptyString :: split_on sep rest
      else match split_on sep rest with
           | [] => [String c EmptyString]
           | part :: parts => String c part :: parts
           end
  end.

(** [radar_key.split("-").slice(0, 3).join("-")] *)
Definition series_of (key : string) : string :=
  join "-" (firstn 3 (split_on "-" key)).

(** The test with which the overview of the digitizing page keeps a
    radargram of [all_radargrams]: it is another radargram of the same
    series. *)
Definition is_neighbour (own other : string) : bool :=
  negb (String.eqb other own)
  && String.eqb (series_of other) (series_of own).

(** [`${parts[i]}`] *)
Definition part_text (parts : list string) (i : nat) : string :=
  match nth_error parts i with
  | Some part => part
  | None => "undefined"
  end.

(** The location key that [add_overview_map] computes from a radar
    key. *)
Definition location_key (key : string) : string :=
  let parts := split_on "-" key in
  part_text parts 0 ++ "_" ++ part_text parts 2.

(** ** Loading, step by step *)

(** The session in which the features of an accepted document are
    loaded: the comment and the difficulty are the document's, and the
    group is empty. *)
Definition accepted (data : PersistedDocument) (w : World) : World :=
  let w1 := set_meta (set_comment_difficulty (doc_comment data)
                        (doc_difficulty data) (meta w)) w in
  if (0 <? length (drawn_items w1))%nat
  then set_drawn_items []
         (set_map_layers
            (List.filter (fun j => negb (bool_decide (j ∈ drawn_items w1)))
                         (map_layers w1)) w1)
  else w1.

(** How [load_digitized_inner] ends, given how the loop over the
    features ended. *)
Definition loaded (outcome : Completion Flow * World) : Completion unit * World :=
  match outcome with
  | (Ok Next, w) =>
      (Ok tt,
       set_messages
         (messages w
          ++ [{| message := JString ("Loaded "
                                     ++ string_of_nat (length (drawn_items w))
                                     ++ " line(s)");
                 feedback := None |}]) w)
  | (Ok Return, w) => (Ok tt, w)
  | (Throw _, w) =>
      (Ok tt,
       set_messages
         (messages w
          ++ [{| message := JString "Error parsing data. Please check your file";
                 feedback := Some "error" |}]) w)
  end.

(** The document's three checked fields are the session's. *)
Definition matches (data : PersistedDocument) (w : World) : Prop :=
  doc_radar_key data = radar_key (meta w)
  /\ doc_width data = width (meta w)
  /\ doc_height data = height (meta w).


(** ** What handlers keep *)

(** A handler that keeps [kept], however it ends. *)
Definition keeps {A} (m : JS A) : Prop :=
  forall w, kept w -> kept (snd (m w)).

(** A layer that is [styled] but for its recorded issues, which may be
    those of vertices it no longer has. *)
Definition stale (l : Layer) : Prop :=
  exists p cp,
    properties l = Some p
    /\ lookup_class get_layer_classes (Some (class_key cp)) = Some cp
    /\ (kind p = Some (class_key cp) \/ kind p = None)
    /\ color p = Some (class_color cp)
    /\ name p = Some (class_name cp)
    /\ style_color l = Some (class_color cp).

(** [kept], but for the recorded issues of the layers that are
    [pending]. *)
Definition kept_but (pending : nat -> Prop) (w : World) : Prop :=
  (forall id, id ∈ map_layers w -> id ∈ drawn_items w)
  /\ (forall id, id ∈ drawn_items w ->
        exists l, heap w !! id = Some l /\ stale l /\ (~ pending id -> styled l)).

(** ** A run of the page, as an example *)

Definition example_fetched : FetchedMeta :=
  {| fetched_width := 1000; fetched_height := 500; fetched_xscale := None;
     fetched_difficulty := JUndefined; fetched_comment := JUndefined |}.

Definition example_radios : list Radio :=
  [ {| radio_value := "easy"; radio_checked := false |};
    {| radio_value := "medium"; radio_checked := false |};
    {| radio_value := "hard"; radio_checked := false |} ].

Definition example_page : Page :=
  setup_map "amundsenisen-profile-2025-1" example_fetched example_radios
    LatestEmpty JUndefined "#333".

(** A line is drawn, a vertex is added to it that doubles back, and a
    click on a color patch of the class list loses its kind. *)
Definition example_page_drawn : Page :=
  handle (Drawn [point 0 0; point 5 0] None make_color_selector) example_page.

Definition example_page_edited : Page :=
  handle (Edited [(0%nat, [point 0 0; point 5 0; point 3 0])]) example_page_drawn.


(** The feature has no recorded issue. *)
Definition no_recorded_issues (l : Layer) : bool :=
  match issues_of l with
  | Some [] => true
  | _ => false
  end.

(** The click on the submit button sends a document. *)
Definition submits (confirmed : bool) (w : World) : bool :=
  confirmed
  && negb (strictly_null (difficulty (meta w)))
  && negb (length (drawn_items w) =? 0)%nat
  && forallb no_recorded_issues (annotation_set w).

(** No layer's vertices or properties change from [w] to [w']. *)
Definition features_kept (w w' : World) : Prop :=
  forall id l, heap w !! id = Some l ->
    exists l', heap w' !! id = Some l'
               /\ latlngs l' = latlngs l /\ properties l' = properties l.


(** ** What loading leaves alone *)

(** From [w] to [w'] messages were only added, and the flag, the
    requests and the checked fields of the metadata are as they were;
    the layers of [w] are still there, and what was added to the group
    and to the map are new layers. *)
Definition loading_frame (w w' : World) : Prop :=
  (exists added, messages w' = messages w ++ added)
  /\ data_saved w' = data_saved w
  /\ requests w' = requests w
  /\ radar_key (meta w') = radar_key (meta w)
  /\ width (meta w') = width (meta w)
  /\ height (meta w') = height (meta w)
  /\ xscale (meta w') = xscale (meta w)
  /\ (length (heap w) <= length (heap w'))%nat.

(** A handler whose every run is within the relation [R]. *)
Definition within (R : World -> World -> Prop) {A} (m : JS A) : Prop :=
  forall w, R w (snd (m w)).


(** The message that [load_latest] gives after a document was handed
    to [load_digitized_inner]. *)
Definition latest_loaded_message (w : World) : UserMessage :=
  {| message := JString ("Loaded the last submission ("
                         ++ string_of_nat (length (drawn_items w))
                         ++ " line(s))");
     feedback := None |}.

(** The character that the date part of a file name has for [c]. *)
Definition underscored (c : ascii) : ascii :=
  if Ascii.eqb c ":" || Ascii.eqb c "-" then "_"%char else c.


(** From [w] to [w'] the metadata are as they were, no layer was taken
    away, and what joined the group or the map are layers made since. *)
Definition grown (w w' : World) : Prop :=
  meta w' = meta w
  /\ (length (heap w) <= length (heap w'))%nat
  /\ (forall id, id ∈ drawn_items w' ->
        id ∈ drawn_items w \/ (length (heap w) <= id)%nat)
  /\ (forall id, id ∈ map_layers w' ->
        id ∈ map_layers w \/ (length (heap w) <= id)%nat).

(** A line feature as documents had it before features were saved with
    their kind: the name of the class only. *)
Definition legacy_feature (cs : list (Q * Q)) (n : string) : GeoJSON :=
  {| geometry_type := "LineString"; coordinates := cs;
     feature_properties :=
       Some {| kind := None; color := None; name := Some n; issues := None |} |}.

(** A document for the session of [example_meta] whose second line has
    a kind that is not in the class table. *)
Definition unknown_kind_document : PersistedDocument :=
  {| date_modified := "2025-04-05T10:00:00.000Z";
     doc_height := 500; doc_width := 1000;
     doc_difficulty := JString "hard"; doc_comment := JString "two lines";
     doc_radar_key := "amundsenisen-profile-2025-1";
     features := [ line_feature [(0, 10); (5, 10)]%Q "water_table";
                   line_feature [(0, 15); (5, 15)]%Q "moraine";
                   line_feature [(0, 20); (5, 20)]%Q "crevasse" ] |}.

(** * Properties *)

Section Numbers.

Lemma Qltb_lt a b : Qltb a b = true <-> (a < b)%Q.
Proof.
  unfold Qltb. rewrite negb_true_iff, <- not_true_iff_false, Qle_bool_iff.
  split; [apply Qnot_le_lt | apply Qlt_not_le].
Qed.

Lemma Qltb_ge a b : Qltb a b = false <-> (b <= a)%Q.
Proof.
  unfold Qltb. rewrite negb_false_iff. apply Qle_bool_iff.
Qed.

Lemma Qleb_le a b : Qleb a b = true <-> (a <= b)%Q.
Proof. apply Qle_bool_iff. Qed.

Lemma Qleb_gt a b : Qleb a b = false <-> (b < a)%Q.
Proof.
  unfold Qleb. rewrite <- not_true_iff_false, Qle_bool_iff.
  split; [apply Qnot_le_lt | apply Qlt_not_le].
Qed.

End Numbers.

Section Validator.

Implicit Types vs : list LatLng.

Lemma overhang_at_false vs i :
  overhang_at vs (is_increasing vs) i = false <->
  ((lng (vertex vs 0) < lng (vertex vs (length vs - 1))
    /\ lng (vertex vs (i - 1)) < lng (vertex vs i))
   \/ (lng (vertex vs (length vs - 1)) <= lng (vertex vs 0)
       /\ lng (vertex vs i) < lng (vertex vs (i - 1))))%Q.
Proof.
  unfold overhang_at.
  destruct (is_increasing vs) eqn:Hinc; unfold is_increasing in Hinc; simpl.
  - apply Qltb_lt in Hinc. rewrite orb_false_r, Qleb_gt. split.
    + intros H. left. split; assumption.
    + intros [[_ H] | [H _]]; [assumption |].
      exfalso. exact (Qlt_not_le _ _ Hinc H).
  - apply Qltb_ge in Hinc. rewrite Qleb_gt. split.
    + intros H. right. split; assumption.
    + intros [[H _] | [_ H]]; [| assumption].
      exfalso. exact (Qlt_not_le _ _ H Hinc).
Qed.

(** A run of vertices that all step to the left ends to the left of its
    start. *)
Lemma decreasing_chain vs :
  (forall i, (1 <= i < length vs)%nat ->
             (lng (vertex vs i) < lng (vertex vs (i - 1)))%Q) ->
  forall j, (1 <= j < length vs)%nat ->
            (lng (vertex vs j) < lng (vertex vs 0))%Q.
Proof.
  intros Hstep j. induction j as [| j IH]; intros Hj; [lia |].
  destruct (Nat.eq_dec j 0) as [-> | Hne].
  - apply (Hstep 1%nat). lia.
  - apply Qlt_trans with (lng (vertex vs j)).
    + specialize (Hstep (S j) Hj). simpl in Hstep.
      rewrite Nat.sub_0_r in Hstep. exact Hstep.
    + apply IH. lia.
Qed.

Lemma overhang_vertices_short vs :
  (length vs < 2)%nat -> overhang_vertices vs = [].
Proof.
  intros H. unfold overhang_vertices.
  destruct (Nat.ltb_spec (length vs) 2); [reflexivity | lia].
Qed.

Lemma overhang_vertices_spec vs i :
  In i (overhang_vertices vs) <->
  (1 <= i < length vs)%nat /\ overhang_at vs (is_increasing vs) i = true.
Proof.
  unfold overhang_vertices.
  destruct (Nat.ltb_spec (length vs) 2) as [Hlt | Hge].
  - simpl. split; [tauto | intros [H _]; lia].
  - rewrite filter_In, in_seq. split; intros [H1 H2]; split; trivial; lia.
Qed.

Lemma overhang_vertices_nil vs :
  overhang_vertices vs = [] <-> monotonic vs.
Proof.
  split.
  - intros Hnil i Hi.
    assert (Hall : forall j, (1 <= j < length vs)%nat ->
                     overhang_at vs (is_increasing vs) j = false).
    { intros j Hj. apply not_true_iff_false. intros Hov.
      assert (Hin : In j (overhang_vertices vs))
        by (apply overhang_vertices_spec; split; assumption).
      rewrite Hnil in Hin. destruct Hin. }
    unfold moves_with.
    destruct (proj1 (overhang_at_false vs i) (Hall i Hi)) as [H | [Hle Hstep]];
      [left; exact H |].
    right. split; [| exact Hstep].
    apply decreasing_chain; [| lia].
    intros j Hj.
    destruct (proj1 (overhang_at_false vs j) (Hall j Hj)) as [[Hinc _] | [_ H]];
      [| exact H].
    exfalso. exact (Qlt_not_le _ _ Hinc Hle).
  - intros Hmono.
    destruct (overhang_vertices vs) as [| i rest] eqn:E; [reflexivity |].
    exfalso.
    assert (Hin : In i (overhang_vertices vs)) by (rewrite E; left; reflexivity).
    apply overhang_vertices_spec in Hin. destruct Hin as [Hi Hov].
    assert (Hf : overhang_at vs (is_increasing vs) i = false).
    { apply overhang_at_false.
      destruct (Hmono i Hi) as [H | [H1 H2]]; [left; exact H |].
      right. split; [apply Qlt_le_weak; exact H1 | exact H2]. }
    congruence.
Qed.

Lemma polyline_issues_nil vs :
  polyline_issues vs = [] <-> overhang_vertices vs = [].
Proof.
  unfold polyline_issues. split.
  - intros H. destruct (overhang_vertices vs); [reflexivity | discriminate].
  - intros ->. reflexivity.
Qed.

End Validator.

Section Runs.

Lemma bind_ok {A B} (m : JS A) (f : A -> JS B) w a w1 :
  m w = (Ok a, w1) -> bind m f w = f a w1.
Proof. intros H. unfold bind. rewrite H. reflexivity. Qed.

Lemma bind_throw {A B} (m : JS A) (f : A -> JS B) w e w1 :
  m w = (Throw e, w1) -> bind m f w = (Throw e, w1).
Proof. intros H. unfold bind. rewrite H. reflexivity. Qed.

Lemma get_layer_run w id l :
  heap w !! id = Some l -> get_layer id w = (Ok l, w).
Proof. intros H. unfold get_layer. rewrite H. reflexivity. Qed.

Lemma update_layer_run w id l f :
  heap w !! id = Some l ->
  update_layer id f w = (Ok tt, set_heap (<[id := f l]> (heap w)) w).
Proof. intros H. unfold update_layer. rewrite H. reflexivity. Qed.

Lemma lookup_updated (h : list Layer) id l x :
  h !! id = Some l -> <[id := x]> h !! id = Some x.
Proof. intros H. apply list_lookup_insert_eq. eapply lookup_lt_Some, H. Qed.

Lemma validate_polyline_run w id l skip :
  heap w !! id = Some l ->
  validate_polyline id skip w =
    (Ok (polyline_issues (latlngs l)),
     set_alerts (alerts w ++ validate_alerts l skip)
       (set_heap (<[id := validated l]> (heap w)) w)).
Proof.
  intros H. unfold validate_polyline.
  rewrite (bind_ok _ _ _ _ _ (update_layer_run w id l _ H)).
  pose proof (lookup_updated _ _ _ (set_issue_markers [] l) H) as H1.
  rewrite (bind_ok _ _ _ _ _ (get_layer_run (set_heap _ w) id _ H1)).
  unfold validated, validate_alerts. cbn [latlngs set_issue_markers].
  destruct (Nat.ltb_spec (length (latlngs l)) 2) as [Hshort | Hlong].
  - unfold polyline_issues. rewrite (overhang_vertices_short _ Hshort). simpl.
    unfold ret, set_alerts, set_heap. simpl. rewrite app_nil_r. reflexivity.
  - rewrite (bind_ok _ _ _ _ _ (update_layer_run (set_heap _ w) id _ _ H1)).
    simpl heap. rewrite list_insert_insert_eq.
    set (found := polyline_issues (latlngs l)).
    set (marks := List.map _ (overhang_vertices (latlngs l))).
    pose proof (lookup_updated _ _ _ (set_issue_markers marks (set_issue_markers [] l)) H) as H2.
    destruct ((0 <? length found)%nat && negb skip) eqn:Hal.
    + unfold alert at 1, modify at 1, bind at 1.
      match goal with |- context [update_layer id ?f] =>
        rewrite (bind_ok _ _ _ _ _ (update_layer_run (set_alerts _ (set_heap _ w)) id _ f H2)) end.
      unfold ret, set_alerts, set_heap. simpl. rewrite list_insert_insert_eq.
      reflexivity.
    + unfold ret at 1, bind at 1.
      match goal with |- context [update_layer id ?f] =>
        rewrite (bind_ok _ _ _ _ _ (update_layer_run (set_heap _ w) id _ f H2)) end.
      unfold ret, set_alerts, set_heap. simpl. rewrite list_insert_insert_eq, app_nil_r.
      reflexivity.
Qed.


Lemma update_properties_run w id l p f :
  heap w !! id = Some l -> properties l = Some p ->
  update_properties id f w =
    (Ok tt, set_heap (<[id := set_properties (Some (f p)) l]> (heap w)) w).
Proof.
  intros H Hp. unfold update_properties.
  rewrite (bind_ok _ _ _ _ _ (get_layer_run w id l H)), Hp.
  apply update_layer_run, H.
Qed.

Lemma change_layer_kind_run w id l k cp :
  heap w !! id = Some l ->
  lookup_class get_layer_classes k = Some cp ->
  change_layer_kind id k w =
    (Ok tt, set_heap (<[id := reclassified k cp l]> (heap w)) w).
Proof.
  intros H Hk. unfold change_layer_kind. rewrite Hk.
  rewrite (bind_ok _ _ _ _ _ (update_layer_run w id l _ H)).
  set (p0 := match properties l with Some p => p | None => empty_properties end).
  pose proof (lookup_updated _ _ _ (set_properties (Some p0) l) H) as H1.
  rewrite (bind_ok _ _ _ _ _
             (update_properties_run (set_heap _ w) id _ p0 _ H1 eq_refl)).
  cbn [heap set_heap]. rewrite list_insert_insert_eq.
  match goal with |- context [<[id := ?x]> (heap w)] =>
    pose proof (lookup_updated _ _ _ x H) as H2 end.
  rewrite (bind_ok _ _ _ _ _
             (update_properties_run (set_heap _ _) id _ _ _ H2 eq_refl)).
  cbn [heap set_heap]. rewrite list_insert_insert_eq.
  match goal with |- context [<[id := ?x]> (heap w)] =>
    pose proof (lookup_updated _ _ _ x H) as H3 end.
  rewrite (bind_ok _ _ _ _ _
             (update_properties_run (set_heap _ _) id _ _ _ H3 eq_refl)).
  cbn [heap set_heap]. rewrite list_insert_insert_eq.
  match goal with |- context [<[id := ?x]> (heap w)] =>
    pose proof (lookup_updated _ _ _ x H) as H4 end.
  rewrite (update_layer_run (set_heap _ _) id _ _ H4).
  cbn [heap set_heap]. rewrite list_insert_insert_eq.
  reflexivity.
Qed.

Lemma change_layer_kind_throws w id l k :
  heap w !! id = Some l ->
  lookup_class get_layer_classes k = None ->
  change_layer_kind id k w =
    (Throw TypeError, set_heap (<[id := misclassified k l]> (heap w)) w).
Proof.
  intros H Hk. unfold change_layer_kind. rewrite Hk.
  rewrite (bind_ok _ _ _ _ _ (update_layer_run w id l _ H)).
  set (p0 := match properties l with Some p => p | None => empty_properties end).
  pose proof (lookup_updated _ _ _ (set_properties (Some p0) l) H) as H1.
  rewrite (bind_ok _ _ _ _ _
             (update_properties_run (set_heap _ w) id _ p0 _ H1 eq_refl)).
  cbn [heap set_heap]. rewrite list_insert_insert_eq.
  reflexivity.
Qed.

Lemma lookup_last (h : list Layer) x : (h ++ [x]) !! length h = Some x.
Proof.
  rewrite lookup_app_r by lia. rewrite Nat.sub_diag. reflexivity.
Qed.

Lemma insert_last (h : list Layer) x y :
  <[length h := y]> (h ++ [x]) = h ++ [y].
Proof.
  rewrite <- (Nat.add_0_r (length h)) at 1. rewrite insert_app_r. reflexivity.
Qed.

Lemma add_id_in id ids : id ∈ ids -> add_id id ids = ids.
Proof.
  intros H. unfold add_id. destruct (decide (id ∈ ids)); [reflexivity | contradiction].
Qed.

Lemma add_id_out id ids : id ∉ ids -> add_id id ids = ids ++ [id].
Proof.
  intros H. unfold add_id. destruct (decide (id ∈ ids)); [contradiction | reflexivity].
Qed.

Lemma elem_of_add_id id j ids : j ∈ add_id id ids <-> j = id \/ j ∈ ids.
Proof.
  unfold add_id. destruct (decide (id ∈ ids)) as [Hin | Hout].
  - split; [tauto | intros [-> | H]; assumption].
  - rewrite !list_elem_of_In, in_app_iff. simpl. split.
    + intros [H | [H | []]]; [right | left]; auto.
    + intros [H | H]; [right; left | left]; auto.
Qed.

Lemma add_id_idem id ids : add_id id (add_id id ids) = add_id id ids.
Proof.
  apply add_id_in, elem_of_add_id. left. reflexivity.
Qed.

Lemma validated_latlngs l : latlngs (validated l) = latlngs l.
Proof. unfold validated. destruct (length _ <? 2)%nat; reflexivity. Qed.

Lemma validated_properties l : properties (validated l) = properties l.
Proof. unfold validated. destruct (length _ <? 2)%nat; reflexivity. Qed.

Lemma add_polyline_metadata_run w id l k cp :
  heap w !! id = Some l ->
  lookup_class get_layer_classes k = Some cp ->
  add_polyline_metadata id k w =
    (Ok tt,
     set_alerts (alerts w ++ validate_alerts l false)
       (set_heap (<[id := annotated k cp l]> (heap w)) w)).
Proof.
  intros H Hk. unfold add_polyline_metadata.
  rewrite (bind_ok _ _ _ _ _ (change_layer_kind_run w id l k cp H Hk)).
  pose proof (lookup_updated _ _ _ (reclassified k cp l) H) as H1.
  rewrite (bind_ok _ _ _ _ _
             (validate_polyline_run (set_heap _ w) id _ false H1)).
  cbn [heap set_heap alerts]. rewrite list_insert_insert_eq.
  pose proof (lookup_updated _ _ _ (validated (reclassified k cp l)) H) as H2.
  rewrite (update_properties_run (set_alerts _ (set_heap _ _)) id _ _ _ H2
             (validated_properties _)).
  cbn [heap set_heap set_alerts]. rewrite list_insert_insert_eq.
  unfold annotated. rewrite validated_properties.
  reflexivity.
Qed.

Lemma annotated_new coords k cp :
  annotated k cp {| latlngs := coords; properties := None;
                    style_color := Some (class_color cp);
                    dashArray := None; issue_markers := None |}
  = created coords k cp.
Proof.
  unfold annotated, created, validated. cbn [latlngs reclassified set_style_color
    set_properties properties].
  destruct (Nat.ltb_spec (length coords) 2) as [Hshort | Hlong]; [| reflexivity].
  rewrite (overhang_vertices_short _ Hshort). reflexivity.
Qed.

(** What [create_polyline] does to a session. *)
Lemma create_polyline_run w coords k cp :
  lookup_class get_layer_classes k = Some cp ->
  exists w',
    create_polyline coords k w = (Ok (length (heap w)), w')
    /\ heap w' = heap w ++ [created coords k cp]
    /\ map_layers w' = add_id (length (heap w)) (map_layers w)
    /\ drawn_items w' = add_id (length (heap w)) (drawn_items w)
    /\ meta w' = meta w /\ data_saved w' = data_saved w
    /\ messages w' = messages w /\ requests w' = requests w.
Proof.
  intros Hk. unfold create_polyline. rewrite Hk.
  set (l0 := {| latlngs := coords; properties := None;
                style_color := Some (class_color cp);
                dashArray := None; issue_markers := None |}).
  assert (Hnew : new_layer l0 w = (Ok (length (heap w)), set_heap (heap w ++ [l0]) w))
    by reflexivity.
  rewrite (bind_ok _ _ _ _ _ Hnew).
  pose proof (lookup_last (heap w) l0) as H0.
  rewrite (bind_ok _ _ _ _ _
             (add_polyline_metadata_run (set_heap _ w) _ l0 k cp H0 Hk)).
  cbn [heap set_heap alerts]. rewrite insert_last. unfold l0. rewrite annotated_new.
  unfold bind, map_addLayer, drawn_items_addLayer, modify, ret.
  cbn [heap set_heap set_alerts set_map_layers set_drawn_items
       map_layers drawn_items].
  eexists. split; [reflexivity |].
  destruct (decide (length (heap w) ∈ drawn_items w)) as [Hin | Hout];
    cbn [heap set_heap set_alerts set_map_layers set_drawn_items
         map_layers drawn_items meta data_saved messages requests].
  - repeat split; try reflexivity.
    symmetry. apply add_id_in, Hin.
  - repeat split; try reflexivity.
    + apply add_id_idem.
    + symmetry. apply add_id_out, Hout.
Qed.

End Runs.

Section Split.

Variables (x_coord y_coord : Q).

Lemma split_fold_in i vs : forall acc (done : bool) v,
  In v (fst (fold_left (split_step i x_coord y_coord) vs (acc, done))) <->
  In v acc
  \/ (In v vs /\ skipped x_coord i v = false)
  \/ (v = {| lat := y_coord; lng := x_coord |} /\ done = false /\ exists u, In u vs /\ skipped x_coord i u = true).
Proof.
  induction vs as [| pair vs IH]; intros acc done v.
  - simpl. split; [tauto |].
    intros [H | [[[] _] | (_ & _ & u & [] & _)]]. exact H.
  - cbn [fold_left]. unfold split_step at 2. fold (skipped x_coord i pair).
    destruct (skipped x_coord i pair) eqn:Hs.
    + rewrite IH. destruct done.
      * split.
        -- intros [H | [[H1 H2] | (_ & H & _)]]; [tauto | | discriminate].
           right. left. split; [right; exact H1 | exact H2].
        -- intros [H | [[[-> | H1] H2] | (_ & H & _)]];
             [tauto | congruence | | discriminate].
           right. left. tauto.
      * rewrite in_app_iff. simpl. split.
        -- intros [[H | [<- | []]] | [[H1 H2] | (_ & H & _)]];
             [tauto | | | discriminate].
           ++ right. right. split; [reflexivity |]. split; [reflexivity |].
              exists pair. split; [left; reflexivity | exact Hs].
           ++ right. left. split; [right; exact H1 | exact H2].
        -- intros [H | [[[-> | H1] H2] | (-> & _ & _)]];
             [tauto | congruence | | ].
           ++ right. left. tauto.
           ++ left. right. left. reflexivity.
    + rewrite IH, in_app_iff. simpl. split.
      * intros [[H | [<- | []]] | [[H1 H2] | (Hv & Hd & u & Hu & Hsu)]].
        -- tauto.
        -- right. left. split; [left; reflexivity | exact Hs].
        -- right. left. split; [right; exact H1 | exact H2].
        -- right. right. split; [exact Hv |]. split; [exact Hd |].
           exists u. split; [right; exact Hu | exact Hsu].
      * intros [H | [[[<- | H1] H2] | (Hv & Hd & u & [<- | Hu] & Hsu)]].
        -- tauto.
        -- left. right. left. reflexivity.
        -- right. left. tauto.
        -- congruence.
        -- right. right. split; [exact Hv |]. split; [exact Hd |].
           exists u. tauto.
Qed.

Lemma split_coords_in i vs v :
  In v (split_coords i x_coord y_coord vs) <->
  (In v vs /\ skipped x_coord i v = false)
  \/ (v = {| lat := y_coord; lng := x_coord |} /\ exists u, In u vs /\ skipped x_coord i u = true).
Proof.
  unfold split_coords. rewrite split_fold_in. simpl. split.
  - intros [[] | [H | (H1 & _ & H2)]]; [left; exact H | right; tauto].
  - intros [H | [H1 H2]]; [right; left; exact H |].
    right. right. tauto.
Qed.

Lemma skipped_0 pair : skipped x_coord 0 pair = Qltb x_coord (lng pair).
Proof. unfold skipped. simpl. apply orb_false_r. Qed.

Lemma skipped_1 pair : skipped x_coord 1 pair = Qltb (lng pair) x_coord.
Proof. unfold skipped. reflexivity. Qed.

(** Every vertex of the line is in a child, and a child holds nothing
    but vertices of the line and the cut point. *)
Lemma split_coords_cover vs v :
  (In v vs ->
   In v (split_coords 0 x_coord y_coord vs)
   \/ In v (split_coords 1 x_coord y_coord vs))
  /\ (In v (split_coords 0 x_coord y_coord vs ++ split_coords 1 x_coord y_coord vs) ->
      In v vs \/ v = {| lat := y_coord; lng := x_coord |}).
Proof.
  split.
  - intros Hin. rewrite !split_coords_in, skipped_0, skipped_1.
    destruct (Qltb x_coord (lng v)) eqn:E0; [| left; left; tauto].
    right. left. split; [exact Hin |].
    apply Qltb_ge. apply Qlt_le_weak. apply Qltb_lt. exact E0.
  - rewrite in_app_iff, !split_coords_in. tauto.
Qed.


Lemma split_fold_kept i vs : forall acc (done : bool),
  (forall v, In v vs -> skipped x_coord i v = false) ->
  fold_left (split_step i x_coord y_coord) vs (acc, done) = (acc ++ vs, done).
Proof.
  induction vs as [| pair vs IH]; intros acc done Hkept.
  - simpl. rewrite app_nil_r. reflexivity.
  - cbn [fold_left]. unfold split_step at 2. fold (skipped x_coord i pair).
    rewrite (Hkept pair (or_introl eq_refl)).
    rewrite IH by (intros v Hv; apply Hkept; right; exact Hv).
    rewrite <- app_assoc. reflexivity.
Qed.

Lemma split_fold_skipped i vs : forall acc,
  (forall v, In v vs -> skipped x_coord i v = true) ->
  fold_left (split_step i x_coord y_coord) vs (acc, true) = (acc, true).
Proof.
  induction vs as [| pair vs IH]; intros acc Hskip; [reflexivity |].
  cbn [fold_left]. unfold split_step at 2. fold (skipped x_coord i pair).
  rewrite (Hskip pair (or_introl eq_refl)).
  apply IH. intros v Hv. apply Hskip. right. exact Hv.
Qed.

(** A line that runs from the left of the cut to the right of it is
    split into its part on the left followed by the cut point, and the
    cut point followed by its part on the right. *)
Lemma split_coords_between before after :
  before <> [] -> after <> [] ->
  (forall v, In v before -> (lng v < x_coord)%Q) ->
  (forall v, In v after -> (x_coord < lng v)%Q) ->
  split_coords 0 x_coord y_coord (before ++ after)
  = before ++ [{| lat := y_coord; lng := x_coord |}]
  /\ split_coords 1 x_coord y_coord (before ++ after)
     = {| lat := y_coord; lng := x_coord |} :: after.
Proof.
  intros Hb Ha Hleft Hright. unfold split_coords. rewrite !fold_left_app. split.
  - rewrite split_fold_kept.
    2:{ intros v Hv. rewrite skipped_0. apply Qltb_ge, Qlt_le_weak, Hleft, Hv. }
    destruct after as [| a after]; [contradiction |].
    cbn [fold_left app]. unfold split_step at 2. fold (skipped x_coord 0 a).
    rewrite skipped_0, (proj2 (Qltb_lt _ _) (Hright a (or_introl eq_refl))).
    rewrite split_fold_skipped; [reflexivity |].
    intros v Hv. rewrite skipped_0. apply Qltb_lt, Hright. right. exact Hv.
  - destruct before as [| b before]; [contradiction |].
    cbn [fold_left app]. unfold split_step at 3. fold (skipped x_coord 1 b).
    rewrite skipped_1, (proj2 (Qltb_lt _ _) (Hleft b (or_introl eq_refl))).
    rewrite split_fold_skipped.
    2:{ intros v Hv. rewrite skipped_1. apply Qltb_lt, Hleft. right. exact Hv. }
    rewrite split_fold_kept; [reflexivity |].
    intros v Hv. rewrite skipped_1. apply Qltb_ge, Qlt_le_weak, Hright, Hv.
Qed.

End Split.

Section SplitOperator.

Lemma remove_id_spec id j ids : j ∈ remove_id id ids <-> j ∈ ids /\ j <> id.
Proof.
  unfold remove_id. rewrite !list_elem_of_In, filter_In, negb_true_iff, Nat.eqb_neq.
  reflexivity.
Qed.

(** What [split_polyline] does to a session that holds the feature. *)
Lemma split_polyline_run w id l p cp x_coord y_coord :
  heap w !! id = Some l ->
  properties l = Some p ->
  lookup_class get_layer_classes (kind p) = Some cp ->
  id ∈ map_layers w ->
  exists w',
    split_polyline id x_coord y_coord w = (Ok tt, w')
    /\ heap w' = heap w
                 ++ [created (split_coords 0 x_coord y_coord (latlngs l)) (kind p) cp;
                     created (split_coords 1 x_coord y_coord (latlngs l)) (kind p) cp]
    /\ map_layers w' = remove_id id (add_id (S (length (heap w)))
                                      (add_id (length (heap w)) (map_layers w)))
    /\ drawn_items w' = add_id (S (length (heap w)))
                          (add_id (length (heap w)) (drawn_items w))
    /\ meta w' = meta w /\ data_saved w' = data_saved w
    /\ messages w' = messages w /\ requests w' = requests w.
Proof.
  intros H Hp Hk Hmap. unfold split_polyline, for_each.
  destruct (create_polyline_run w (split_coords 0 x_coord y_coord (latlngs l))
              (kind p) cp Hk)
    as (w1 & Hc1 & Hh1 & Hm1 & Hd1 & Hme1 & Hs1 & Hms1 & Hr1).
  destruct (create_polyline_run w1 (split_coords 1 x_coord y_coord (latlngs l))
              (kind p) cp Hk)
    as (w2 & Hc2 & Hh2 & Hm2 & Hd2 & Hme2 & Hs2 & Hms2 & Hr2).
  assert (Hl1 : heap w1 !! id = Some l)
    by (rewrite Hh1; apply lookup_app_l_Some, H).
  assert (Hlen : length (heap w1) = S (length (heap w)))
    by (rewrite Hh1, length_app; simpl; lia).
  rewrite Hlen in Hm2, Hd2.
  assert (Hloop :
    (bind (bind (get_layer id)
       (fun l0 => match properties l0 with
                  | Some p0 =>
                      bind (create_polyline
                              (split_coords 0 x_coord y_coord (latlngs l0)) (kind p0))
                           (fun _ => ret tt)
                  | None => throw TypeError
                  end))
       (fun _ =>
          bind (bind (get_layer id)
            (fun l0 => match properties l0 with
                       | Some p0 =>
                           bind (create_polyline
                                   (split_coords 1 x_coord y_coord (latlngs l0))
                                   (kind p0))
                                (fun _ => ret tt)
                       | None => throw TypeError
                       end))
            (fun _ => ret tt))) w = (Ok tt, w2)).
  { erewrite bind_ok.
    2:{ rewrite (bind_ok _ _ _ _ _ (get_layer_run w id l H)), Hp.
        rewrite (bind_ok _ _ _ _ _ Hc1). reflexivity. }
    erewrite bind_ok.
    2:{ rewrite (bind_ok _ _ _ _ _ (get_layer_run w1 id l Hl1)), Hp.
        rewrite (bind_ok _ _ _ _ _ Hc2). reflexivity. }
    reflexivity. }
  rewrite (bind_ok _ _ _ _ _ Hloop).
  unfold get at 1, bind at 1.
  assert (Hin : id ∈ map_layers w2).
  { rewrite Hm2, Hm1. apply elem_of_add_id. right. apply elem_of_add_id.
    right. exact Hmap. }
  destruct (decide (id ∈ map_layers w2)) as [_ | Hout]; [| contradiction].
  unfold map_removeLayer, modify, bind, ret.
  eexists. split; [reflexivity |].
  cbn [heap map_layers drawn_items meta data_saved messages requests set_map_layers].
  rewrite Hh2, Hh1, <- app_assoc, Hm2, Hm1, Hd2, Hd1.
  repeat split; congruence.
Qed.

End SplitOperator.

Section Claims_Validator.



(** Scenario A: a line drawn left to right validates clean. *)
Example validate_scenario_A :
  fst (validate_polyline 0 false scenario_A) = Ok [].
Proof. reflexivity. Qed.

(** A line whose first and last vertex have the same horizontal position
    is always flagged: no pair can move with a displacement that has no
    direction. *)
Lemma zero_displacement_flagged vs :
  (2 <= length vs)%nat ->
  (lng (vertex vs 0) == lng (vertex vs (length vs - 1)))%Q ->
  polyline_issues vs <> [].
Proof.
  intros Hlen Heq Hnil. apply polyline_issues_nil, overhang_vertices_nil in Hnil.
  destruct (Hnil 1%nat ltac:(lia)) as [[H _] | [H _]];
    rewrite Heq in H; exact (Qlt_irrefl _ H).
Qed.

End Claims_Validator.

Section Claims_Split.

Lemma created_latlngs coords k cp : latlngs (created coords k cp) = coords.
Proof. reflexivity. Qed.

Lemma created_kind coords k cp : kind_of (created coords k cp) = k.
Proof. reflexivity. Qed.



(** The children of a split: two new layers of the parent's kind, in the
    group and on the map, that between them hold every vertex of the
    parent and, besides those, only the cut point; the parent leaves the
    map. *)
Lemma split_polyline_children w id l p x_coord y_coord :
  is_feature w id l p -> id ∈ map_layers w ->
  exists w' a b,
    split_polyline id x_coord y_coord w = (Ok tt, w')
    /\ heap w' = heap w ++ [a; b]
    /\ latlngs a = split_coords 0 x_coord y_coord (latlngs l)
    /\ latlngs b = split_coords 1 x_coord y_coord (latlngs l)
    /\ kind_of a = kind p /\ kind_of b = kind p
    /\ (forall v, In v (latlngs l) -> In v (latlngs a) \/ In v (latlngs b))
    /\ (forall v, In v (latlngs a ++ latlngs b) ->
          In v (latlngs l) \/ v = {| lat := y_coord; lng := x_coord |})
    /\ length (heap w) ∈ drawn_items w' /\ S (length (heap w)) ∈ drawn_items w'
    /\ length (heap w) ∈ map_layers w' /\ S (length (heap w)) ∈ map_layers w'
    /\ id ∉ map_layers w'.
Proof.
  intros (H & Hp & [cp Hk]) Hmap.
  destruct (split_polyline_run w id l p cp x_coord y_coord H Hp Hk Hmap)
    as (w' & Hrun & Hh & Hm & Hd & _).
  assert (Hid : (id < length (heap w))%nat) by (eapply lookup_lt_Some, H).
  exists w', (created (split_coords 0 x_coord y_coord (latlngs l)) (kind p) cp),
         (created (split_coords 1 x_coord y_coord (latlngs l)) (kind p) cp).
  rewrite !created_latlngs, !created_kind.
  repeat split; try assumption; try reflexivity.
  - intros v. apply (split_coords_cover x_coord y_coord (latlngs l) v).
  - intros v. apply (split_coords_cover x_coord y_coord (latlngs l) v).
  - rewrite Hd. apply elem_of_add_id. right. apply elem_of_add_id. left. reflexivity.
  - rewrite Hd. apply elem_of_add_id. left. reflexivity.
  - rewrite Hm. apply remove_id_spec. split; [| lia].
    apply elem_of_add_id. right. apply elem_of_add_id. left. reflexivity.
  - rewrite Hm. apply remove_id_spec. split; [| lia].
    apply elem_of_add_id. left. reflexivity.
  - rewrite Hm. intros Hin. apply remove_id_spec in Hin. destruct Hin as [_ Hne].
    apply Hne. reflexivity.
Qed.

(** The split code takes the parent off the map only: a parent that is
    in the feature group stays in it. *)
Lemma split_polyline_keeps_parent_in_group w id l p x_coord y_coord :
  is_feature w id l p -> id ∈ map_layers w -> id ∈ drawn_items w ->
  exists w',
    split_polyline id x_coord y_coord w = (Ok tt, w')
    /\ id ∈ drawn_items w'
    /\ heap w' !! id = Some l.
Proof.
  intros (H & Hp & [cp Hk]) Hmap Hgroup.
  destruct (split_polyline_run w id l p cp x_coord y_coord H Hp Hk Hmap)
    as (w' & Hrun & Hh & Hm & Hd & _).
  exists w'. split; [exact Hrun |]. split.
  - rewrite Hd. apply elem_of_add_id. right. apply elem_of_add_id. right.
    exact Hgroup.
  - rewrite Hh. apply lookup_app_l_Some, H.
Qed.

(** C5 (the code departs from the claim).  Splitting the line of
    Scenario D at x = 3 creates the two children of the claim, with the
    parent's kind, and takes the parent off the map; but the parent is
    still a layer of [drawn_items], so that the session holds three
    features and a later save or submission writes the parent next to
    its children. *)
Theorem split_scenario_D_parent_stays :
  exists w',
    split_polyline 0 3 0 scenario_D = (Ok tt, w')
    /\ List.map latlngs (annotation_set w')
       = [ [point 0 0; point 2 0; point 4 0; point 6 0];
           [point 0 0; point 2 0; point 3 0];
           [point 3 0; point 4 0; point 6 0] ]
    /\ List.map kind_of (annotation_set w')
       = [Some "crevasse"; Some "crevasse"; Some "crevasse"]
    /\ drawn_items w' = [0; 1; 2]%nat
    /\ map_layers w' = [1; 2]%nat
    /\ List.map (fun f => List.length (coordinates f))
         (match fst (make_feature_save_json "2025-04-05T10:00:00.000Z" w') with
          | Ok doc => features doc
          | Throw _ => []
          end)
       = [4; 3; 3]%nat.
Proof.
  eexists. split; [vm_compute; reflexivity |].
  repeat split; vm_compute; reflexivity.
Qed.


End Claims_Split.

Section Claims_Split_Witness.


End Claims_Split_Witness.

Section Claims_Reclassify.




End Claims_Reclassify.

Section Claims_Load.

(** C2.  Loading a document whose [radar_key], [width] or [height]
    differs from the session's reports an error and changes nothing
    else: the layers, the group, the map and the metadata (comment and
    difficulty included) are as they were. *)
Theorem load_digitized_inner_mismatch data w :
  doc_radar_key data <> radar_key (meta w)
  \/ doc_width data <> width (meta w)
  \/ doc_height data <> height (meta w) ->
  exists text,
    load_digitized_inner data w
    = (Ok tt,
       set_messages
         (messages w ++ [{| message := JString text; feedback := Some "error" |}])
         w)
    /\ annotation_set (snd (load_digitized_inner data w)) = annotation_set w
    /\ comment (meta (snd (load_digitized_inner data w))) = comment (meta w)
    /\ difficulty (meta (snd (load_digitized_inner data w))) = difficulty (meta w).
Proof.
  intros Hdiff.
  assert (Hrun : exists text,
    load_digitized_inner data w
    = (Ok tt,
       set_messages
         (messages w ++ [{| message := JString text; feedback := Some "error" |}])
         w)).
  { unfold load_digitized_inner, try_catch.
    unfold bind at 1, get at 1. unfold checked_keys. cbn [for_of].
    destruct (String.eqb_spec (doc_radar_key data) (radar_key (meta w)))
      as [E1 | N1]; cbn [negb];
      [| eexists; cbv [bind ret user_message modify]; reflexivity].
    destruct (Z.eqb_spec (doc_width data) (width (meta w))) as [E2 | N2];
      cbn [negb];
      [| eexists; cbv [bind ret user_message modify]; reflexivity].
    destruct (Z.eqb_spec (doc_height data) (height (meta w))) as [E3 | N3];
      cbn [negb];
      [| eexists; cbv [bind ret user_message modify]; reflexivity].
    exfalso. destruct Hdiff as [H | [H | H]]; contradiction. }
  destruct Hrun as [text Hrun]. exists text. rewrite Hrun.
  repeat split; reflexivity.
Qed.

(** Scenario C as an instance of C2: a document for radargram "a" is
    loaded into a session on another radargram. *)
Lemma load_digitized_inner_mismatch_witness :
  (doc_radar_key
     {| date_modified := "2025-04-05T10:00:00.000Z"; doc_height := 500;
        doc_width := 1000; doc_difficulty := JString "hard"; doc_comment := JNull;
        doc_radar_key := "a"; features := [] |}
   <> radar_key (meta scenario_D))
  /\ exists text,
       load_digitized_inner
         {| date_modified := "2025-04-05T10:00:00.000Z"; doc_height := 500;
            doc_width := 1000; doc_difficulty := JString "hard";
            doc_comment := JNull; doc_radar_key := "a"; features := [] |}
         scenario_D
       = (Ok tt,
          set_messages
            (messages scenario_D
             ++ [{| message := JString text; feedback := Some "error" |}])
            scenario_D).
Proof.
  assert (Hne : "a" <> radar_key (meta scenario_D)) by discriminate.
  split; [exact Hne |].
  destruct (load_digitized_inner_mismatch
              {| date_modified := "2025-04-05T10:00:00.000Z"; doc_height := 500;
                 doc_width := 1000; doc_difficulty := JString "hard";
                 doc_comment := JNull; doc_radar_key := "a"; features := [] |}
              scenario_D (or_introl Hne))
    as (text & Hrun & _).
  exists text. exact Hrun.
Defined.

(** The loop over the features of a document ends at the first feature
    that is not a line: the features after it are not looked at. *)
Lemma load_stops_at_wrong_type before f after w w1 fp :
  for_of before load_feature w = (Ok Next, w1) ->
  feature_properties f = Some fp ->
  String.eqb (geometry_type f) "LineString" = false ->
  for_of (before ++ f :: after) load_feature w
  = (Ok Return, set_messages (messages w1 ++ [skipped_message]) w1).
Proof.
  revert w. induction before as [| g before IH]; intros w Hbefore Hfp Hty.
  - simpl in Hbefore. injection Hbefore as <-.
    cbn [app for_of]. unfold bind at 1, load_feature. rewrite Hfp, Hty.
    reflexivity.
  - cbn [app for_of] in *. unfold bind at 1 in Hbefore. unfold bind at 1.
    destruct (load_feature g w) as [[[] | e] w0]; try discriminate.
    apply IH; assumption.
Qed.

(** C6 (the code departs from the claim).  Loading a document with a
    line, a point and another line reports the point once as skipped,
    but the loading ends there: the line after the point is not loaded,
    and the session holds the first line only. *)
Theorem load_mixed_document_drops_rest :
  exists w',
    load_digitized_inner mixed_document (new_session example_meta) = (Ok tt, w')
    /\ List.map latlngs (annotation_set w') = [[point 0 10; point 10 10]]
    /\ List.map kind_of (annotation_set w') = [Some "water_table"]
    /\ messages w' = [skipped_message]
    /\ List.length (features mixed_document) = 3%nat.
Proof.
  eexists. split; [vm_compute; reflexivity |].
  repeat split; vm_compute; reflexivity.
Qed.

End Claims_Load.

Section Claims_Submit.

(** On a 401 response the client only tells the user to log in. *)
Lemma submit_digitized_settled_401 w body :
  submit_digitized_settled (HttpResponse 401 body) w
  = (Ok tt, set_messages (messages w ++ [not_logged_in_message]) w).
Proof. reflexivity. Qed.

(** A response with a JSON object is shown as a success whatever its
    status, 401 apart. *)
Lemma submit_digitized_settled_json w status result_message :
  status <> 401%nat ->
  submit_digitized_settled (HttpResponse status (JSONObject result_message)) w
  = (Ok tt,
     set_messages
       (messages w ++ [{| message := result_message; feedback := Some "success" |}])
       w).
Proof.
  intros Hs. unfold submit_digitized_settled, try_catch.
  destruct (Nat.eqb_spec status 401) as [-> | _]; [contradiction |].
  reflexivity.
Qed.

(** A request that fails, or a response that is not a JSON object, is
    reported as an error. *)
Lemma submit_digitized_settled_transport w r :
  r = NetworkFailure
  \/ (exists status, status <> 401%nat
                     /\ (r = HttpResponse status NotJSON
                         \/ r = HttpResponse status JSONNull)) ->
  submit_digitized_settled r w
  = (Ok tt, set_messages (messages w ++ [submit_error_message]) w).
Proof.
  intros [-> | (status & Hs & [-> | ->])]; unfold submit_digitized_settled, try_catch;
    try reflexivity;
    destruct (Nat.eqb_spec status 401) as [-> | _]; try contradiction; reflexivity.
Qed.

(** C7 (the code departs from the claim).  The session of Scenario A has
    unsaved changes.  A confirmed click on the submit button sends the
    document; the server answers 401.  The features are as before, the
    user is told to log in, nothing is sent again, but the session counts
    as saved: the click handler sets [data_saved] as soon as the request
    is sent, whatever the answer will be. *)
Theorem submit_401_marks_saved :
  exists w',
    submit_and_settle true "2025-04-05T10:00:00.000Z" (HttpResponse 401 NotJSON)
      scenario_A
    = (Ok tt, w')
    /\ data_saved scenario_A = false
    /\ data_saved w' = true
    /\ heap w' = heap scenario_A
    /\ drawn_items w' = drawn_items scenario_A
    /\ messages w' = [not_logged_in_message]
    /\ List.length (requests w') = 1%nat.
Proof.
  eexists. split; [vm_compute; reflexivity |].
  repeat split; vm_compute; reflexivity.
Qed.

(** C8 (the code departs from the claim).  A response with status 500
    and a JSON body is reported with the styling of a success. *)
Theorem submit_500_reported_as_success :
  submit_digitized_settled
    (HttpResponse 500 (JSONObject (JString "Internal Server Error")))
    (new_session example_meta)
  = (Ok tt,
     set_messages
       [{| message := JString "Internal Server Error";
           feedback := Some "success" |}]
       (new_session example_meta)).
Proof. reflexivity. Qed.

End Claims_Submit.

Section Serializer.

Lemma each_layer_run w ids :
  (forall id, id ∈ ids -> is_Some (heap w !! id)) ->
  each_layer ids w = (Ok (omap (fun id => heap w !! id) ids), w).
Proof.
  induction ids as [| id ids IH]; intros Hres; [reflexivity |].
  cbn [each_layer].
  destruct (Hres id) as [l Hl]; [apply elem_of_cons; left; reflexivity |].
  rewrite (bind_ok _ _ _ _ _ (get_layer_run w id l Hl)).
  rewrite (bind_ok _ _ _ _ _
             (IH (fun j Hj => Hres j (proj2 (elem_of_cons _ _ _) (or_intror Hj))))).
  simpl. rewrite Hl. reflexivity.
Qed.

Lemma make_feature_save_json_run w date :
  resolves w ->
  make_feature_save_json date w = (Ok (saved_document date w), w).
Proof.
  intros Hres. unfold make_feature_save_json.
  unfold get at 1, bind at 1.
  rewrite (bind_ok _ _ _ _ _ (each_layer_run w (drawn_items w) Hres)).
  unfold ret, saved_document. fold (annotation_set w).
  do 3 f_equal. unfold export_feature.
  destruct (negb (Qeq_bool (xscale (meta w)) 1)).
  - rewrite List.map_map. reflexivity.
  - reflexivity.
Qed.







Lemma seq_snoc_shift n m : [n] ++ seq (S n) m = seq n (S m).
Proof. reflexivity. Qed.





End Serializer.

Section Claims_Roundtrip.

Lemma checks_pass data w :
  doc_radar_key data = radar_key (meta w) ->
  doc_width data = width (meta w) ->
  doc_height data = height (meta w) ->
  for_of (checked_keys data (meta w))
    (fun '(key, found, expected, differs) =>
       if (differs : bool) then
         user_message
           (JString ("Error loading data: " ++ key ++ " (" ++ found
                     ++ ") does not align with expected " ++ key
                     ++ " (" ++ expected ++ ")"))
           (Some "error") ;;;
         ret Return
       else ret Next) w
  = (Ok Next, w).
Proof.
  intros H1 H2 H3. unfold checked_keys. rewrite H1, H2, H3.
  rewrite String.eqb_refl, !Z.eqb_refl. reflexivity.
Qed.






End Claims_Roundtrip.

Section Claims_Gate.

Lemma validate_polyline_cases id skip w :
  (exists l, heap w !! id = Some l
             /\ validate_polyline id skip w
                = (Ok (polyline_issues (latlngs l)),
                   set_alerts (alerts w ++ validate_alerts l skip)
                     (set_heap (<[id := validated l]> (heap w)) w)))
  \/ validate_polyline id skip w = (Throw TypeError, w).
Proof.
  destruct (heap w !! id) as [l |] eqn:E.
  - left. exists l. split; [reflexivity | apply validate_polyline_run, E].
  - right. unfold validate_polyline, bind, update_layer. rewrite E. reflexivity.
Qed.

Lemma geometry_kept_refl w : geometry_kept w w.
Proof. intros id l H. exists l. split; [exact H | reflexivity]. Qed.

Lemma geometry_kept_trans w1 w2 w3 :
  geometry_kept w1 w2 -> geometry_kept w2 w3 -> geometry_kept w1 w3.
Proof.
  intros H12 H23 id l H. destruct (H12 id l H) as (l2 & H2 & E2).
  destruct (H23 id l2 H2) as (l3 & H3 & E3).
  exists l3. split; [exact H3 | congruence].
Qed.

Lemma geometry_kept_validated w id l al :
  heap w !! id = Some l ->
  geometry_kept w (set_alerts al (set_heap (<[id := validated l]> (heap w)) w)).
Proof.
  intros H j lj Hj. cbn [heap set_alerts set_heap].
  destruct (decide (j = id)) as [-> | Hne].
  - exists (validated l). split; [apply (lookup_updated _ _ _ _ H) |].
    rewrite validated_latlngs. congruence.
  - exists lj. split; [| reflexivity].
    rewrite list_lookup_insert_ne by congruence. exact Hj.
Qed.

(** The count of lines with issues sends nothing, and counts a line
    whose vertices, as they are now, have an issue. *)
Lemma count_lines_with_issues_spec ids : forall n w,
  match count_lines_with_issues ids n w with
  | (Ok m, w') =>
      requests w' = requests w /\ data_saved w' = data_saved w
      /\ (n <= m)%nat
      /\ ((exists id l, id ∈ ids /\ heap w !! id = Some l
                        /\ polyline_issues (latlngs l) <> []) -> (n < m)%nat)
  | (Throw _, w') => requests w' = requests w /\ data_saved w' = data_saved w
  end.
Proof.
  induction ids as [| id ids IH]; intros n w.
  - simpl. repeat split; try lia.
    intros (id & l & Hin & _). apply elem_of_nil in Hin. destruct Hin.
  - cbn [count_lines_with_issues].
    destruct (validate_polyline_cases id true w) as [(l & Hl & Hrun) | Hrun].
    + rewrite (bind_ok _ _ _ _ _ Hrun).
      set (w1 := set_alerts _ _).
      set (n1 := if (0 <? length (polyline_issues (latlngs l)))%nat
                 then (n + 1)%nat else n).
      specialize (IH n1 w1).
      destruct (count_lines_with_issues ids n1 w1) as [[m | e] w'].
      * destruct IH as (Hr & Hs & Hle & Hbad).
        assert (Hn1 : (n <= n1)%nat) by (unfold n1; destruct (0 <? _)%nat; lia).
        split; [exact Hr |]. split; [exact Hs |]. split; [lia |].
        intros (j & lj & Hin & Hj & Hiss).
        apply elem_of_cons in Hin. destruct Hin as [-> | Hin].
        -- assert (lj = l) by congruence. subst lj.
           assert (Hpos : (0 <? length (polyline_issues (latlngs l)))%nat = true).
           { apply Nat.ltb_lt. destruct (polyline_issues (latlngs l));
               [contradiction | simpl; lia]. }
           unfold n1 in Hle. rewrite Hpos in Hle. lia.
        -- destruct (geometry_kept_validated w id l
                       (alerts w ++ validate_alerts l true) Hl j lj Hj)
             as (lj' & Hj' & Elj).
           assert (n1 < m)%nat; [| lia].
           apply Hbad. exists j, lj'. split; [exact Hin |].
           split; [exact Hj' | rewrite Elj; exact Hiss].
      * exact IH.
    + rewrite (bind_throw _ _ _ _ _ Hrun). split; reflexivity.
Qed.



(** Lines that validate clean are not counted, and validating them
    moves no vertex. *)
Lemma count_lines_clean ids : forall n w,
  (forall id, id ∈ ids -> exists l, heap w !! id = Some l
                                    /\ polyline_issues (latlngs l) = []) ->
  exists w',
    count_lines_with_issues ids n w = (Ok n, w')
    /\ geometry_kept w w' /\ drawn_items w' = drawn_items w
    /\ requests w' = requests w /\ meta w' = meta w.
Proof.
  induction ids as [| id ids IH]; intros n w Hclean.
  - exists w. repeat split. apply geometry_kept_refl.
  - cbn [count_lines_with_issues].
    destruct (Hclean id) as (l & Hl & Hiss); [apply elem_of_cons; left; reflexivity |].
    rewrite (bind_ok _ _ _ _ _ (validate_polyline_run w id l true Hl)).
    rewrite Hiss. cbn [length Nat.ltb Nat.leb].
    pose proof (geometry_kept_validated w id l (alerts w ++ validate_alerts l true) Hl)
      as Hkept.
    set (w1 := set_alerts _ _) in *.
    destruct (IH n w1) as (w' & Hrun & Hk & Hd & Hr & Hm).
    { intros j Hj.
      destruct (Hclean j) as (lj & Hlj & Hissj); [apply elem_of_cons; right; exact Hj |].
      destruct (Hkept j lj Hlj) as (lj' & Hlj' & E).
      exists lj'. split; [exact Hlj' | rewrite E; exact Hissj]. }
    exists w'. split; [exact Hrun |].
    split; [exact (geometry_kept_trans _ _ _ Hkept Hk) |].
    repeat split; assumption.
Qed.

(** The submit gate reads the difficulty and the vertices only: with a
    difficulty other than null, a group that is not empty and whose
    lines validate clean now, a confirmed click sends the document and
    marks the session as saved. *)
Lemma submit_gate_passes w date :
  difficulty (meta w) <> JNull ->
  drawn_items w <> [] ->
  (forall id, id ∈ drawn_items w ->
     exists l, heap w !! id = Some l /\ polyline_issues (latlngs l) = []) ->
  exists doc w',
    submit_button_onclick true date w = (Ok tt, w')
    /\ requests w' = requests w ++ [doc]
    /\ data_saved w' = true.
Proof.
  intros Hdiff Hne Hclean. unfold submit_button_onclick.
  unfold get at 1, bind at 1.
  destruct (difficulty (meta w)) eqn:Ed; [| contradiction |]; cbn [strictly_null].
  all: destruct (Nat.eqb_spec (length (drawn_items w)) 0) as [Hempty | _];
    [destruct (drawn_items w); [contradiction | discriminate] |].
  all: destruct (count_lines_clean (drawn_items w) 0 w Hclean)
         as (w1 & Hrun & Hk & Hd & Hr & Hm).
  all: rewrite (bind_ok _ _ _ _ _ Hrun); cbn [Nat.ltb Nat.leb negb].
  all: assert (Hres : resolves w1)
         by (intros id Hin; rewrite Hd in Hin;
             destruct (Hclean id Hin) as (l & Hl & _);
             destruct (Hk id l Hl) as (l' & Hl' & _); exists l'; exact Hl').
  all: rewrite (bind_ok _ _ _ _ _ (make_feature_save_json_run w1 date Hres)).
  all: eexists _, _; split; [reflexivity |].
  all: cbn [requests data_saved set_requests set_data_saved].
  all: rewrite Hr; split; reflexivity.
Qed.

End Claims_Gate.

Section More_Difficulty.

Lemma first_checked_set s radios :
  first_checked (set_user_difficulty (JString s) radios)
  = if existsb (fun radio => String.eqb (radio_value radio) s) radios
    then Some s else None.
Proof.
  induction radios as [| radio radios IH]; [reflexivity |].
  cbn [set_user_difficulty List.map first_checked existsb radio_checked
       radio_value value_equals].
  destruct (String.eqb_spec (radio_value radio) s) as [-> | Hne]; [reflexivity |].
  exact IH.
Qed.

Lemma first_checked_unset d radios :
  loosely_null d = true -> first_checked (set_user_difficulty d radios) = None.
Proof.
  intros Hd. induction radios as [| radio radios IH]; [reflexivity |].
  destruct d; try discriminate; exact IH.
Qed.

Lemma radios_read_back d radios :
  get_user_difficulty (set_user_difficulty d radios)
  = match d with
    | JString s =>
        if existsb (fun radio => String.eqb (radio_value radio) s) radios
        then JString s else JNull
    | _ => JNull
    end.
Proof.
  unfold get_user_difficulty. destruct d as [| | s].
  - rewrite first_checked_unset; reflexivity.
  - rewrite first_checked_unset; reflexivity.
  - rewrite first_checked_set. destruct (existsb _ radios); reflexivity.
Qed.

(** X1.  Setting the difficulty radios and reading them back gives the
    difficulty when a radio carries it, and null otherwise (for a null or
    undefined difficulty as well). *)
Theorem get_set_user_difficulty d radios :
  get_user_difficulty (set_user_difficulty d radios)
  = match d with
    | JString s =>
        if existsb (fun radio => String.eqb (radio_value radio) s) radios
        then JString s else JNull
    | _ => JNull
    end.
Proof. apply radios_read_back. Qed.

Lemma first_checked_offered radios v :
  first_checked radios = Some v ->
  existsb (fun radio => String.eqb (radio_value radio) v) radios = true.
Proof.
  induction radios as [| radio radios IH]; [discriminate |].
  cbn [first_checked existsb]. destruct (radio_checked radio).
  - intros [= <-]. rewrite String.eqb_refl. reflexivity.
  - intros H. rewrite (IH H). apply orb_true_r.
Qed.

Lemma get_user_difficulty_cases radios :
  get_user_difficulty radios = JNull
  \/ exists v, get_user_difficulty radios = JString v
                /\ existsb (fun radio => String.eqb (radio_value radio) v) radios
                   = true.
Proof.
  unfold get_user_difficulty.
  destruct (first_checked radios) as [v |] eqn:Ef; [| left; reflexivity].
  right. exists v. split; [reflexivity | apply first_checked_offered, Ef].
Qed.

(** X2.  The difficulty that [setup_map] settles after the latest
    submission is loaded is never undefined: a difficulty that was loaded
    is kept, and otherwise the checked radio (or null) is taken; nothing
    else of the metadata changes.  The radios then show the difficulty,
    unless it is a loaded one that no radio carries: then no radio is
    checked although the session has a difficulty. *)
Theorem setup_difficulty_settles m radios :
  let m1 := fst (setup_difficulty m radios) in
  let radios1 := snd (setup_difficulty m radios) in
  difficulty m1 <> JUndefined
  /\ (forall s, difficulty m = JString s -> difficulty m1 = JString s)
  /\ (loosely_null (difficulty m) = true ->
      difficulty m1 = get_user_difficulty radios)
  /\ radar_key m1 = radar_key m /\ width m1 = width m /\ height m1 = height m
  /\ xscale m1 = xscale m /\ comment m1 = comment m
  /\ (get_user_difficulty radios1 = difficulty m1
      \/ exists s, difficulty m = JString s
                   /\ existsb (fun radio => String.eqb (radio_value radio) s) radios
                      = false
                   /\ get_user_difficulty radios1 = JNull).
Proof.
  unfold setup_difficulty. cbn [fst snd].
  destruct (loosely_null (difficulty m)) eqn:En.
  - cbn [difficulty set_difficulty radar_key width height xscale comment].
    destruct (get_user_difficulty_cases radios) as [Eg | (v & Eg & Ex)];
      rewrite Eg; cbn [loosely_null negb].
    + repeat split; try discriminate; try reflexivity.
      * intros s Hs. rewrite Hs in En. discriminate.
      * left. exact Eg.
    + repeat split; try discriminate; try reflexivity.
      * intros s Hs. rewrite Hs in En. discriminate.
      * left. rewrite radios_read_back, Ex. reflexivity.
  - rewrite En. cbn [negb].
    destruct (difficulty m) as [| | s] eqn:Ed; try discriminate.
    repeat split; try discriminate; try reflexivity; try (intros; assumption).
    rewrite radios_read_back.
    destruct (existsb _ radios) eqn:Ex; [left; reflexivity |].
    right. exists s. repeat split; try reflexivity; exact Ex.
Qed.

End More_Difficulty.

Section More_Validator.

Lemma validated_again l : validated (validated l) = validated l.
Proof.
  unfold validated at 1. rewrite validated_latlngs.
  unfold validated. destruct (length (latlngs l) <? 2)%nat; reflexivity.
Qed.

Lemma validated_markers l :
  issue_markers (validated l)
  = Some (List.map (fun i => vertex (latlngs l) (i - 1))
                   (overhang_vertices (latlngs l))).
Proof.
  unfold validated.
  destruct (Nat.ltb_spec (length (latlngs l)) 2) as [Hshort | Hlong];
    [| reflexivity].
  rewrite (overhang_vertices_short _ Hshort). reflexivity.
Qed.

(** X3.  [validate_polyline] leaves the vertices, the properties and
    the line color of the layer alone, and leaves one marker for each
    issue, at the vertex before the one that the issue names.  Run again,
    with or without alerts, it returns the same issues and leaves the
    layers as the first run left them: markers do not pile up. *)
Theorem validate_polyline_again w id l skip1 skip2 :
  heap w !! id = Some l ->
  exists w1 w2 l1,
    validate_polyline id skip1 w = (Ok (polyline_issues (latlngs l)), w1)
    /\ validate_polyline id skip2 w1 = (Ok (polyline_issues (latlngs l)), w2)
    /\ heap w2 = heap w1
    /\ heap w1 !! id = Some l1
    /\ latlngs l1 = latlngs l
    /\ properties l1 = properties l
    /\ style_color l1 = style_color l
    /\ issue_markers l1
       = Some (List.map (fun i => vertex (latlngs l) (i - 1))
                        (overhang_vertices (latlngs l)))
    /\ (forall j, j <> id -> heap w1 !! j = heap w !! j).
Proof.
  intros H.
  pose proof (validate_polyline_run w id l skip1 H) as Hrun1.
  set (w1 := set_alerts (alerts w ++ validate_alerts l skip1)
               (set_heap (<[id := validated l]> (heap w)) w)) in *.
  assert (H1 : heap w1 !! id = Some (validated l))
    by (apply (lookup_updated _ _ _ _ H)).
  pose proof (validate_polyline_run w1 id (validated l) skip2 H1) as Hrun2.
  rewrite validated_latlngs in Hrun2.
  eexists w1, _, (validated l).
  split; [exact Hrun1 |]. split; [exact Hrun2 |].
  split.
  { cbn [heap set_alerts set_heap w1].
    rewrite list_insert_insert_eq, validated_again. reflexivity. }
  split; [exact H1 |].
  split; [apply validated_latlngs |].
  split; [apply validated_properties |].
  split; [unfold validated; destruct (length _ <? 2)%nat; reflexivity |].
  split; [apply validated_markers |].
  intros j Hj. cbn [heap set_alerts set_heap w1].
  apply list_lookup_insert_ne. congruence.
Qed.

(** The doubling-back line of Scenario B as an instance of X3. *)
Lemma validate_polyline_again_witness :
  exists l w1 w2 l1,
    heap scenario_B !! 0%nat = Some l
    /\ validate_polyline 0 false scenario_B = (Ok (polyline_issues (latlngs l)), w1)
    /\ validate_polyline 0 true w1 = (Ok (polyline_issues (latlngs l)), w2)
    /\ heap w2 = heap w1
    /\ heap w1 !! 0%nat = Some l1
    /\ issue_markers l1 = Some [point 5 0].
Proof.
  destruct (validate_polyline_again scenario_B 0 _ false true eq_refl)
    as (w1 & w2 & l1 & H1 & H2 & H3 & H4 & _ & _ & _ & H5 & _).
  eexists _, w1, w2, l1. split; [reflexivity |].
  repeat split; try assumption.
Defined.

End More_Validator.

Section More_Submit.

(** X4.  Whatever the outcome of the request, [submit_digitized] ends
    without an exception, gives exactly one message and changes nothing
    else of the session; the message has the styling of a success
    exactly when the response has a status other than 401 and a JSON
    object as its body. *)
Theorem submit_digitized_settled_one_message r w :
  exists msg,
    submit_digitized_settled r w
    = (Ok tt, set_messages (messages w ++ [msg]) w)
    /\ (feedback msg = Some "success" <->
        exists status result_message,
          status <> 401%nat
          /\ r = HttpResponse status (JSONObject result_message)).
Proof.
  unfold submit_digitized_settled, try_catch.
  destruct r as [| status body].
  - eexists. split; [reflexivity |]. cbn [feedback]. split; [discriminate |].
    intros (? & ? & _ & ?). discriminate.
  - destruct (Nat.eqb_spec status 401) as [-> | Hs].
    + eexists. split; [reflexivity |]. cbn [feedback]. split; [discriminate |].
      intros (? & ? & Hne & [= <- _]). contradiction.
    + destruct body as [| | result_message].
      * eexists. split; [reflexivity |]. cbn [feedback]. split; [discriminate |].
        intros (? & ? & _ & ?). discriminate.
      * eexists. split; [reflexivity |]. cbn [feedback]. split; [discriminate |].
        intros (? & ? & _ & ?). discriminate.
      * eexists. split; [reflexivity |]. cbn [feedback]. split; [| reflexivity].
        intros _. exists status, result_message. split; [exact Hs | reflexivity].
Qed.

End More_Submit.

Section More_Split.

(** X5.  A line that lies wholly to the left of the cut is not cut: the
    first child has the vertices of the line, without the cut point, and
    the second child is the cut point alone. *)
Theorem split_polyline_left_of_cut w id l p x_coord y_coord :
  is_feature w id l p -> id ∈ map_layers w ->
  latlngs l <> [] ->
  (forall v, In v (latlngs l) -> (lng v < x_coord)%Q) ->
  exists w' a b,
    split_polyline id x_coord y_coord w = (Ok tt, w')
    /\ heap w' = heap w ++ [a; b]
    /\ latlngs a = latlngs l
    /\ latlngs b = [{| lat := y_coord; lng := x_coord |}]
    /\ kind_of a = kind p /\ kind_of b = kind p.
Proof.
  intros (H & Hp & [cp Hk]) Hmap Hne Hleft.
  destruct (split_polyline_run w id l p cp x_coord y_coord H Hp Hk Hmap)
    as (w' & Hrun & Hh & _).
  eexists w', _, _. split; [exact Hrun |]. split; [exact Hh |].
  rewrite !created_latlngs, !created_kind. repeat split.
  - unfold split_coords. rewrite split_fold_kept; [reflexivity |].
    intros v Hv. rewrite skipped_0. apply Qltb_ge, Qlt_le_weak, Hleft, Hv.
  - unfold split_coords. destruct (latlngs l) as [| v vs]; [contradiction |].
    cbn [fold_left]. unfold split_step at 2. fold (skipped x_coord 1 v).
    rewrite skipped_1, (proj2 (Qltb_lt _ _) (Hleft v (or_introl eq_refl))).
    rewrite split_fold_skipped; [reflexivity |].
    intros u Hu. rewrite skipped_1. apply Qltb_lt, Hleft. right. exact Hu.
Qed.

(** The line of Scenario D, cut at x = 10. *)
Lemma split_polyline_left_of_cut_witness :
  is_feature scenario_D 0 parent_D props_D
  /\ 0%nat ∈ map_layers scenario_D
  /\ latlngs parent_D <> []
  /\ (forall v, In v (latlngs parent_D) -> (lng v < 10)%Q)
  /\ exists w' a b,
       split_polyline 0 10 0 scenario_D = (Ok tt, w')
       /\ heap w' = heap scenario_D ++ [a; b]
       /\ latlngs a = latlngs parent_D
       /\ latlngs b = [point 10 0].
Proof.
  assert (Hf : is_feature scenario_D 0 parent_D props_D).
  { split; [reflexivity |]. split; [reflexivity |]. eexists. reflexivity. }
  assert (Hm : 0%nat ∈ map_layers scenario_D).
  { apply list_elem_of_In. left. reflexivity. }
  assert (Hne : latlngs parent_D <> []) by discriminate.
  assert (Hleft : forall v, In v (latlngs parent_D) -> (lng v < 10)%Q).
  { intros v [<- | [<- | [<- | [<- | []]]]]; reflexivity. }
  split; [exact Hf |]. split; [exact Hm |]. split; [exact Hne |].
  split; [exact Hleft |].
  destruct (split_polyline_left_of_cut scenario_D 0 parent_D props_D 10 0
              Hf Hm Hne Hleft) as (w' & a & b & H1 & H2 & H3 & H4 & _).
  exists w', a, b. repeat split; assumption.
Defined.


End More_Split.

Section Outcomes.

Lemma lookup_class_key k cp :
  lookup_class get_layer_classes k = Some cp -> k = Some (class_key cp).
Proof.
  unfold get_layer_classes. generalize props. intros tbl.
  induction tbl as [| [key [n c]] tbl IH].
  - simpl. destruct k; discriminate.
  - simpl. destruct k as [k |]; [| discriminate].
    destruct (String.eqb_spec key k) as [-> | Hne].
    + intros [= <-]. reflexivity.
    + exact IH.
Qed.

(** [create_polyline] throws before it makes anything, or makes the
    layer and adds it to the map and to the group. *)
Lemma create_polyline_cases w coords k :
  (lookup_class get_layer_classes k = None
   /\ create_polyline coords k w = (Throw TypeError, w))
  \/ (exists cp w',
        lookup_class get_layer_classes k = Some cp
        /\ create_polyline coords k w = (Ok (length (heap w)), w')
        /\ heap w' = heap w ++ [created coords k cp]
        /\ map_layers w' = add_id (length (heap w)) (map_layers w)
        /\ drawn_items w' = add_id (length (heap w)) (drawn_items w)
        /\ meta w' = meta w /\ data_saved w' = data_saved w
        /\ messages w' = messages w /\ requests w' = requests w).
Proof.
  destruct (lookup_class get_layer_classes k) as [cp |] eqn:Hk.
  - right. destruct (create_polyline_run w coords k cp Hk) as (w' & H).
    exists cp, w'. split; [reflexivity | exact H].
  - left. split; [reflexivity |]. unfold create_polyline. rewrite Hk. reflexivity.
Qed.

Lemma drawn_items_addLayer_member id w :
  id ∈ drawn_items w -> drawn_items_addLayer id w = (Ok tt, w).
Proof.
  intros Hin. unfold drawn_items_addLayer, modify.
  destruct (decide (id ∈ drawn_items w)); [reflexivity | contradiction].
Qed.

(** The three ways in which the loading of one feature ends. *)
Lemma load_feature_cases f w :
  load_feature f w = (Throw TypeError, w)
  \/ (String.eqb (geometry_type f) "LineString" = false
      /\ load_feature f w
         = (Ok Return, set_messages (messages w ++ [skipped_message]) w))
  \/ (exists fp k cp w',
        feature_properties f = Some fp
        /\ k = match kind fp with
               | Some k => Some k
               | None => kind_by_name get_layer_classes (name fp)
               end
        /\ lookup_class get_layer_classes k = Some cp
        /\ load_feature f w = (Ok Next, w')
        /\ heap w' = heap w
                     ++ [created
                           (List.map (fun pair => {| lat := snd pair;
                                                     lng := (fst pair * xscale (meta w))%Q |})
                                     (coordinates f)) k cp]
        /\ map_layers w' = add_id (length (heap w)) (map_layers w)
        /\ drawn_items w' = add_id (length (heap w)) (drawn_items w)
        /\ meta w' = meta w /\ data_saved w' = data_saved w
        /\ messages w' = messages w /\ requests w' = requests w).
Proof.
  destruct (feature_properties f) as [fp |] eqn:Hfp;
    [| left; unfold load_feature; rewrite Hfp; reflexivity].
  set (k := match kind fp with
            | Some k => Some k
            | None => kind_by_name get_layer_classes (name fp)
            end).
  destruct (String.eqb (geometry_type f) "LineString") eqn:Hty.
  - set (coords := List.map (fun pair => {| lat := snd pair;
                                            lng := (fst pair * xscale (meta w))%Q |})
                            (coordinates f)).
    assert (Hbody : load_feature f w
                    = bind (create_polyline coords k)
                        (fun layer =>
                           bind (drawn_items_addLayer layer) (fun _ => ret Next)) w)
      by (unfold load_feature; rewrite Hfp, Hty; reflexivity).
    destruct (create_polyline_cases w coords k)
      as [[Hk Hrun] | (cp & w' & Hk & Hrun & Hh & Hm & Hd & Hrest)].
    + left. rewrite Hbody, (bind_throw _ _ _ _ _ Hrun). reflexivity.
    + right. right. exists fp, k, cp, w'.
      split; [reflexivity |]. split; [reflexivity |]. split; [exact Hk |].
      split.
      { rewrite Hbody, (bind_ok _ _ _ _ _ Hrun).
        rewrite (bind_ok _ _ _ _ _ (drawn_items_addLayer_member _ w'
                   ltac:(rewrite Hd; apply elem_of_add_id; left; reflexivity))).
        reflexivity. }
      split; [exact Hh |]. split; [exact Hm |]. split; [exact Hd |]. exact Hrest.
  - right. left. split; [reflexivity |].
    unfold load_feature. rewrite Hfp, Hty. reflexivity.
Qed.

(** An accepted document is loaded into the emptied session. *)
Lemma load_digitized_inner_accepted data w :
  matches data w ->
  load_digitized_inner data w
  = loaded (for_of (features data) load_feature (accepted data w)).
Proof.
  intros (H1 & H2 & H3). unfold load_digitized_inner, try_catch.
  unfold get at 1, bind at 1.
  rewrite (bind_ok _ _ _ _ _ (checks_pass data w H1 H2 H3)).
  unfold modify at 1, bind at 1. unfold get at 1, bind at 1.
  unfold accepted. cbn zeta.
  destruct (0 <? length (drawn_items (set_meta _ w)))%nat.
  - unfold clearLayers at 1, modify at 1, bind at 1.
    unfold bind at 1.
    destruct (for_of (features data) load_feature _) as [[[] | e] w'];
      reflexivity.
  - unfold ret at 1, bind at 1. unfold bind at 1.
    destruct (for_of (features data) load_feature _) as [[[] | e] w'];
      reflexivity.
Qed.

End Outcomes.

Section Kept.

Lemma kept_same w w' :
  heap w' = heap w -> map_layers w' = map_layers w ->
  drawn_items w' = drawn_items w ->
  kept w -> kept w'.
Proof.
  intros Hh Hm Hd [Ha Hb]. unfold kept. rewrite Hh, Hm, Hd. split; assumption.
Qed.

Lemma kept_set_layer w w' id l l' :
  kept w -> heap w !! id = Some l -> (styled l -> styled l') ->
  heap w' = <[id := l']> (heap w) ->
  map_layers w' = map_layers w -> drawn_items w' = drawn_items w ->
  kept w'.
Proof.
  intros [Ha Hb] Hl Hst Hh Hm Hd. unfold kept. rewrite Hh, Hm, Hd.
  split; [exact Ha |]. intros j Hj.
  destruct (Hb j Hj) as (lj & Hlj & Hsj).
  destruct (decide (j = id)) as [-> | Hne].
  - exists l'. split; [apply (lookup_updated _ _ _ _ Hl) |].
    apply Hst. congruence.
  - exists lj. split; [| exact Hsj].
    rewrite list_lookup_insert_ne by congruence. exact Hlj.
Qed.

Lemma kept_grown w w' news :
  kept w -> heap w' = heap w ++ news ->
  map_layers w' = map_layers w -> drawn_items w' = drawn_items w ->
  kept w'.
Proof.
  intros [Ha Hb] Hh Hm Hd. unfold kept. rewrite Hh, Hm, Hd.
  split; [exact Ha |]. intros j Hj.
  destruct (Hb j Hj) as (lj & Hlj & Hsj).
  exists lj. split; [apply lookup_app_l_Some, Hlj | exact Hsj].
Qed.

(** A new styled layer joins the group and the map. *)
Lemma kept_joined w w' l :
  kept w -> styled l -> heap w' = heap w ++ [l] ->
  map_layers w' = add_id (length (heap w)) (map_layers w) ->
  drawn_items w' = add_id (length (heap w)) (drawn_items w) ->
  kept w'.
Proof.
  intros [Ha Hb] Hst Hh Hm Hd. unfold kept. rewrite Hh, Hm, Hd. split.
  - intros j Hj. apply elem_of_add_id in Hj. apply elem_of_add_id.
    destruct Hj as [-> | Hj]; [left; reflexivity | right; apply Ha, Hj].
  - intros j Hj. apply elem_of_add_id in Hj. destruct Hj as [-> | Hj].
    + exists l. split; [apply lookup_last | exact Hst].
    + destruct (Hb j Hj) as (lj & Hlj & Hsj).
      exists lj. split; [apply lookup_app_l_Some, Hlj | exact Hsj].
Qed.

Lemma styled_stale l : styled l -> stale l.
Proof.
  intros (p & cp & H1 & H2 & H3 & H4 & H5 & H6 & _).
  exists p, cp. repeat split; assumption.
Qed.

Lemma styled_validated l : styled l -> styled (validated l).
Proof.
  intros (p & cp & H1 & H2 & H3 & H4 & H5 & H6 & H7).
  exists p, cp. rewrite validated_properties, validated_latlngs.
  repeat split; try assumption.
  unfold validated. destruct (length _ <? 2)%nat; exact H6.
Qed.

Lemma stale_validated l : stale l -> stale (validated l).
Proof.
  intros (p & cp & H1 & H2 & H3 & H4 & H5 & H6).
  exists p, cp. rewrite validated_properties.
  repeat split; try assumption.
  unfold validated. destruct (length _ <? 2)%nat; exact H6.
Qed.

Lemma styled_created coords k cp :
  lookup_class get_layer_classes k = Some cp -> styled (created coords k cp).
Proof.
  intros Hk. pose proof (lookup_class_key k cp Hk) as ->.
  eexists _, cp. split; [reflexivity |].
  repeat split; try reflexivity; try assumption. left. reflexivity.
Qed.

Lemma styled_annotated l k cp :
  lookup_class get_layer_classes k = Some cp -> styled (annotated k cp l).
Proof.
  intros Hk. pose proof (lookup_class_key k cp Hk) as ->.
  unfold annotated. rewrite validated_properties.
  cbn [properties reclassified set_style_color set_properties].
  eexists _, cp. split; [reflexivity |].
  cbn [kind color name issues set_issues set_name set_color set_kind
       latlngs set_properties style_color].
  rewrite validated_latlngs.
  repeat split; try reflexivity; try assumption.
  - left. reflexivity.
  - unfold validated. destruct (length _ <? 2)%nat; reflexivity.
Qed.

Lemma styled_reclassified l k cp :
  lookup_class get_layer_classes k = Some cp ->
  styled l -> styled (reclassified k cp l).
Proof.
  intros Hk (p & cp0 & H1 & _ & _ & _ & _ & _ & H7).
  pose proof (lookup_class_key k cp Hk) as ->.
  unfold reclassified. rewrite H1.
  eexists _, cp. split; [reflexivity |].
  repeat split; try reflexivity; try assumption. left. reflexivity.
Qed.

Lemma styled_misclassified l : styled l -> styled (misclassified None l).
Proof.
  intros (p & cp & H1 & H2 & H3 & H4 & H5 & H6 & H7).
  unfold misclassified. rewrite H1.
  eexists _, cp. split; [reflexivity |].
  repeat split; try assumption. right. reflexivity.
Qed.

Lemma styled_unmarked l : styled l -> styled (set_issue_markers [] l).
Proof.
  intros (p & cp & H). exists p, cp. exact H.
Qed.

(** *** Handlers built from handlers that keep *)

Lemma keeps_ret {A} (a : A) : keeps (ret a).
Proof. intros w H. exact H. Qed.

Lemma keeps_throw {A} e : keeps (@throw A e).
Proof. intros w H. exact H. Qed.

Lemma keeps_get : keeps get.
Proof. intros w H. exact H. Qed.

Lemma keeps_bind {A B} (m : JS A) (f : A -> JS B) :
  keeps m -> (forall a, keeps (f a)) -> keeps (bind m f).
Proof.
  intros Hm Hf w H. specialize (Hm w H). unfold bind.
  destruct (m w) as [[a | e] w1]; [apply Hf, Hm | exact Hm].
Qed.

Lemma keeps_try_catch {A} (body : JS A) handler :
  keeps body -> (forall e, keeps (handler e)) -> keeps (try_catch body handler).
Proof.
  intros Hm Hf w H. specialize (Hm w H). unfold try_catch.
  destruct (body w) as [[a | e] w1]; [exact Hm | apply Hf, Hm].
Qed.

Lemma keeps_modify f :
  (forall w, heap (f w) = heap w /\ map_layers (f w) = map_layers w
             /\ drawn_items (f w) = drawn_items w) ->
  keeps (modify f).
Proof.
  intros Hf w H. destruct (Hf w) as (H1 & H2 & H3).
  exact (kept_same w (f w) H1 H2 H3 H).
Qed.

Lemma keeps_for_each {A} (xs : list A) body :
  (forall x, keeps (body x)) -> keeps (for_each xs body).
Proof.
  intros Hb. induction xs as [| x xs IH]; [apply keeps_ret |].
  apply keeps_bind; [apply Hb | intros _; exact IH].
Qed.

Lemma keeps_for_of {A} (xs : list A) body :
  (forall x, keeps (body x)) -> keeps (for_of xs body).
Proof.
  intros Hb. induction xs as [| x xs IH]; [apply keeps_ret |].
  apply keeps_bind; [apply Hb |]. intros []; [exact IH | apply keeps_ret].
Qed.

Lemma keeps_user_message msg fb : keeps (user_message msg fb).
Proof. apply keeps_modify. intros w. repeat split. Qed.

Lemma keeps_get_layer id : keeps (get_layer id).
Proof.
  intros w H. unfold get_layer. destruct (heap w !! id); exact H.
Qed.

Lemma keeps_update_layer id f :
  (forall l, styled l -> styled (f l)) -> keeps (update_layer id f).
Proof.
  intros Hf w H. unfold update_layer.
  destruct (heap w !! id) as [l |] eqn:Hl; [| exact H].
  apply (kept_set_layer w _ id l (f l) H Hl (Hf l)); reflexivity.
Qed.

Lemma keeps_validate_polyline id skip : keeps (validate_polyline id skip).
Proof.
  intros w H.
  destruct (validate_polyline_cases id skip w) as [(l & Hl & Hrun) | Hrun];
    rewrite Hrun; [| exact H].
  apply (kept_set_layer w _ id l (validated l) H Hl (styled_validated l)); reflexivity.
Qed.

Lemma change_layer_kind_dangling w id k :
  heap w !! id = None -> change_layer_kind id k w = (Throw TypeError, w).
Proof.
  intros H. unfold change_layer_kind, bind, update_layer. rewrite H. reflexivity.
Qed.

Lemma keeps_change_layer_kind id k :
  k = None \/ registered k -> keeps (change_layer_kind id k).
Proof.
  intros Hk w H.
  destruct (heap w !! id) as [l |] eqn:Hl;
    [| rewrite (change_layer_kind_dangling w id k Hl); exact H].
  destruct (lookup_class get_layer_classes k) as [cp |] eqn:Hc.
  - rewrite (change_layer_kind_run w id l k cp Hl Hc).
    apply (kept_set_layer w _ id l _ H Hl (styled_reclassified l k cp Hc)); reflexivity.
  - rewrite (change_layer_kind_throws w id l k Hl Hc).
    destruct Hk as [-> | [cp Hcp]]; [| congruence].
    apply (kept_set_layer w _ id l _ H Hl (styled_misclassified l)); reflexivity.
Qed.

Lemma keeps_create_polyline coords k : keeps (create_polyline coords k).
Proof.
  intros w H.
  destruct (create_polyline_cases w coords k)
    as [[_ Hrun] | (cp & w' & Hk & Hrun & Hh & Hm & Hd & _)]; rewrite Hrun;
    [exact H |].
  exact (kept_joined w w' _ H (styled_created coords k cp Hk) Hh Hm Hd).
Qed.

Lemma keeps_load_feature f : keeps (load_feature f).
Proof.
  intros w H.
  destruct (load_feature_cases f w)
    as [Hrun | [[_ Hrun] | (fp & k & cp & w' & _ & _ & Hk & Hrun & Hh & Hm & Hd & _)]];
    rewrite Hrun; [exact H | exact H |].
  exact (kept_joined w w' _ H (styled_created _ k cp Hk) Hh Hm Hd).
Qed.

Lemma keeps_map_removeLayer id : keeps (map_removeLayer id).
Proof.
  intros w [Ha Hb]. split; [| exact Hb].
  intros j Hj. apply remove_id_spec in Hj. apply Ha, Hj.
Qed.

Lemma keeps_split_polyline id x_coord y_coord :
  keeps (split_polyline id x_coord y_coord).
Proof.
  unfold split_polyline.
  apply keeps_bind.
  - apply keeps_for_each. intros i.
    apply keeps_bind; [apply keeps_get_layer |]. intros l.
    destruct (properties l); [| apply keeps_throw].
    apply keeps_bind; [apply keeps_create_polyline | intros _; apply keeps_ret].
  - intros _. apply keeps_bind; [apply keeps_get |]. intros w0.
    apply keeps_bind; [| intros _; apply keeps_ret].
    destruct (decide (id ∈ map_layers w0));
      [apply keeps_map_removeLayer | apply keeps_throw].
Qed.

Lemma keeps_clearLayers : keeps clearLayers.
Proof.
  intros w [Ha Hb]. split.
  - intros j Hj. cbn in Hj. apply list_elem_of_In, filter_In in Hj.
    destruct Hj as [Hj Hout]. apply list_elem_of_In, Ha in Hj.
    apply negb_true_iff, bool_decide_eq_false in Hout. contradiction.
  - intros j Hj. cbn in Hj. apply elem_of_nil in Hj. destruct Hj.
Qed.

Lemma keeps_load_digitized_inner data : keeps (load_digitized_inner data).
Proof.
  unfold load_digitized_inner.
  apply keeps_try_catch; [| intros _; apply keeps_user_message].
  apply keeps_bind; [apply keeps_get |]. intros w0.
  apply keeps_bind.
  - apply keeps_for_of. intros [[[key found] expected] differs].
    destruct differs; [| apply keeps_ret].
    apply keeps_bind; [apply keeps_user_message | intros _; apply keeps_ret].
  - intros []; [| apply keeps_ret].
    apply keeps_bind; [apply keeps_modify; intros w; repeat split |]. intros _.
    apply keeps_bind; [apply keeps_get |]. intros w1.
    apply keeps_bind.
    { destruct (0 <? length (drawn_items w1))%nat;
        [apply keeps_clearLayers | apply keeps_ret]. }
    intros _. apply keeps_bind; [apply keeps_for_of, keeps_load_feature |].
    intros []; [| apply keeps_ret].
    apply keeps_bind; [apply keeps_get | intros w2; apply keeps_user_message].
Qed.

End Kept.

Section Kept_Handlers.

Lemma first_checked_In radios v :
  first_checked radios = Some v ->
  exists radio, In radio radios /\ radio_value radio = v.
Proof.
  induction radios as [| radio radios IH]; [discriminate |].
  cbn [first_checked]. destruct (radio_checked radio).
  - intros [= <-]. exists radio. split; [left |]; reflexivity.
  - intros H. destruct (IH H) as (r & Hr & Hv). exists r. split; [right |]; assumption.
Qed.

(** What the listeners for a drawn line do when a class is selected. *)
Lemma on_created_run w coords draw_color selector k cp :
  first_checked selector = Some k ->
  lookup_class get_layer_classes (Some k) = Some cp ->
  on_created coords draw_color selector w
  = (Ok tt,
     set_data_saved false
       (snd (drawn_items_addLayer (length (heap w))
          (set_alerts
             (alerts w
              ++ validate_alerts {| latlngs := coords; properties := None;
                                    style_color := draw_color;
                                    dashArray := None; issue_markers := None |}
                   false)
             (set_heap (heap w ++ [created coords (Some k) cp]) w))))).
Proof.
  intros Hsel Hk. unfold on_created.
  set (l0 := {| latlngs := coords; properties := None; style_color := draw_color;
                dashArray := None; issue_markers := None |}).
  assert (Hnew : new_layer l0 w = (Ok (length (heap w)), set_heap (heap w ++ [l0]) w))
    by reflexivity.
  rewrite (bind_ok _ _ _ _ _ Hnew).
  unfold get_current_kind. rewrite Hsel. unfold ret at 1, bind at 1.
  pose proof (lookup_last (heap w) l0) as H0.
  rewrite (bind_ok _ _ _ _ _
             (add_polyline_metadata_run (set_heap _ w) _ l0 (Some k) cp H0 Hk)).
  cbn [heap set_heap alerts]. rewrite insert_last.
  assert (Ha : annotated (Some k) cp l0 = created coords (Some k) cp).
  { unfold annotated, created, validated.
    cbn [latlngs reclassified set_style_color set_properties properties l0].
    destruct (Nat.ltb_spec (length coords) 2) as [Hshort | Hlong]; [| reflexivity].
    rewrite (overhang_vertices_short _ Hshort). reflexivity. }
  rewrite Ha. unfold bind, modify, drawn_items_addLayer. reflexivity.
Qed.

Lemma keeps_on_created coords draw_color selector :
  offered selector -> keeps (on_created coords draw_color selector).
Proof.
  intros Hoff w H.
  destruct (first_checked selector) as [k |] eqn:Hsel.
  - destruct (first_checked_In _ _ Hsel) as (radio & Hin & Hv).
    destruct (Hoff radio Hin) as [cp Hk]. rewrite Hv in Hk.
    rewrite (on_created_run w coords draw_color selector k cp Hsel Hk).
    cbn [snd]. unfold drawn_items_addLayer, modify. cbn [snd].
    set (w1 := set_alerts _ _).
    assert (Hgrown : kept w1)
      by (apply (kept_grown w w1 [created coords (Some k) cp] H); reflexivity).
    destruct (decide (length (heap w) ∈ drawn_items w1)) as [Hin' | Hout].
    + apply (kept_same w1); try reflexivity. exact Hgrown.
    + eapply (kept_joined w _ _ H (styled_created coords (Some k) cp Hk)).
      * reflexivity.
      * cbn [map_layers set_data_saved set_map_layers set_drawn_items w1
             set_alerts set_heap]. reflexivity.
      * cbn [drawn_items set_data_saved set_map_layers set_drawn_items w1
             set_alerts set_heap]. symmetry. apply add_id_out. exact Hout.
  - unfold on_created, get_current_kind. rewrite Hsel.
    unfold new_layer, bind, throw. cbn [snd].
    eapply (kept_grown w _ [_] H); reflexivity.
Qed.

(** *** Editing *)

Lemma kept_kept_but w : kept w -> kept_but (fun _ => False) w.
Proof.
  intros [Ha Hb]. split; [exact Ha |]. intros id Hid.
  destruct (Hb id Hid) as (l & Hl & Hs).
  exists l. split; [exact Hl |]. split; [apply styled_stale, Hs | intros _; exact Hs].
Qed.

Lemma kept_but_kept w : kept_but (fun _ => False) w -> kept w.
Proof.
  intros [Ha Hb]. split; [exact Ha |]. intros id Hid.
  destruct (Hb id Hid) as (l & Hl & _ & Hs).
  exists l. split; [exact Hl | apply Hs; tauto].
Qed.

(** The drawing tool moves the vertices of layers of the group. *)
Lemma move_vertices_run changes : forall w pending,
  kept_but pending w ->
  (forall change, In change changes -> fst change ∈ drawn_items w) ->
  exists w',
    for_each changes (fun '(layer, vs) => update_layer layer (set_latlngs vs)) w
    = (Ok tt, w')
    /\ kept_but (fun id => pending id \/ In id (List.map fst changes)) w'
    /\ drawn_items w' = drawn_items w
    /\ alerts w' = alerts w /\ meta w' = meta w /\ requests w' = requests w.
Proof.
  induction changes as [| [id vs] changes IH]; intros w pending Hk Hin.
  - exists w. split; [reflexivity |]. split; [| repeat split].
    destruct Hk as [Ha Hb]. split; [exact Ha |]. intros id Hid.
    destruct (Hb id Hid) as (l & Hl & Hst & Hs).
    exists l. split; [exact Hl |]. split; [exact Hst |].
    intros Hn. apply Hs. intros Hp. apply Hn. left. exact Hp.
  - cbn [for_each].
    destruct Hk as [Ha Hb].
    destruct (Hb id (Hin (id, vs) (or_introl eq_refl))) as (l & Hl & Hst & _).
    rewrite (bind_ok _ _ _ _ _ (update_layer_run w id l (set_latlngs vs) Hl)).
    set (w1 := set_heap _ w).
    assert (Hk1 : kept_but (fun j => pending j \/ j = id) w1).
    { split; [exact Ha |]. intros j Hj.
      destruct (Hb j Hj) as (lj & Hlj & Hstj & Hsj).
      destruct (decide (j = id)) as [-> | Hne].
      - exists (set_latlngs vs l).
        split; [apply (lookup_updated _ _ _ _ Hl) |].
        split; [| intros Hn; exfalso; apply Hn; right; reflexivity].
        destruct Hst as (p & cp & H). exists p, cp. exact H.
      - exists lj. split; [cbn; rewrite list_lookup_insert_ne by congruence; exact Hlj |].
        split; [exact Hstj |]. intros Hn. apply Hsj. tauto. }
    destruct (IH w1 _ Hk1 (fun c Hc => Hin c (or_intror Hc)))
      as (w' & Hrun & Hk' & Hd & Hrest).
    exists w'. split; [exact Hrun |]. split; [| split; [exact Hd | exact Hrest]].
    destruct Hk' as [Ha' Hb']. split; [exact Ha' |]. intros j Hj.
    destruct (Hb' j Hj) as (lj & Hlj & Hstj & Hsj).
    exists lj. split; [exact Hlj |]. split; [exact Hstj |].
    intros Hn. apply Hsj. intros [[Hp | ->] | Hi]; apply Hn.
    + left. exact Hp.
    + right. left. reflexivity.
    + right. right. exact Hi.
Qed.

(** The listener of the edit event validates each layer and records its
    issues. *)
Lemma revalidate_run layers : forall w pending,
  kept_but (fun id => pending id \/ In id layers) w ->
  (forall id, In id layers -> id ∈ drawn_items w) ->
  exists w',
    for_each layers
      (fun layer =>
         found <- validate_polyline layer false ;;
         update_properties layer (set_issues (Some found))) w
    = (Ok tt, w')
    /\ kept_but pending w'
    /\ drawn_items w' = drawn_items w
    /\ meta w' = meta w /\ requests w' = requests w.
Proof.
  induction layers as [| id layers IH]; intros w pending Hk Hin.
  - exists w. split; [reflexivity |]. split; [| repeat split].
    destruct Hk as [Ha Hb]. split; [exact Ha |]. intros id Hid.
    destruct (Hb id Hid) as (l & Hl & Hst & Hs).
    exists l. split; [exact Hl |]. split; [exact Hst |].
    intros Hn. apply Hs. intros [Hp | []]. exact (Hn Hp).
  - cbn [for_each].
    destruct Hk as [Ha Hb].
    destruct (Hb id (Hin id (or_introl eq_refl))) as (l & Hl & Hst & _).
    destruct Hst as (p & cp & Hp & Hc & Hkind & Hcol & Hname & Hsty).
    assert (Hbody :
      bind (validate_polyline id false)
        (fun found => update_properties id (set_issues (Some found))) w
      = (Ok tt,
         set_alerts (alerts w ++ validate_alerts l false)
           (set_heap
              (<[id := set_properties
                         (Some (set_issues (Some (polyline_issues (latlngs l))) p))
                         (validated l)]> (heap w)) w))).
    { rewrite (bind_ok _ _ _ _ _ (validate_polyline_run w id l false Hl)).
      pose proof (lookup_updated _ _ _ (validated l) Hl) as H1.
      rewrite (update_properties_run (set_alerts _ (set_heap _ w)) id _ p _ H1
                 ltac:(rewrite validated_properties; exact Hp)).
      cbn [heap set_heap set_alerts]. rewrite list_insert_insert_eq. reflexivity. }
    rewrite (bind_ok _ _ _ _ _ Hbody).
    set (l' := set_properties _ (validated l)).
    set (w1 := set_alerts _ _).
    assert (Hl' : styled l').
    { exists (set_issues (Some (polyline_issues (latlngs l))) p), cp.
      unfold l'. cbn [properties set_properties kind color name issues set_issues
                      latlngs style_color].
      rewrite validated_latlngs.
      repeat split; try assumption.
      unfold validated. destruct (length _ <? 2)%nat; exact Hsty. }
    assert (Hk1 : kept_but (fun j => pending j \/ In j layers) w1).
    { split; [exact Ha |]. intros j Hj.
      destruct (Hb j Hj) as (lj & Hlj & Hstj & Hsj).
      destruct (decide (j = id)) as [-> | Hne].
      - exists l'. split; [apply (lookup_updated _ _ _ _ Hl) |].
        split; [apply styled_stale, Hl' | intros _; exact Hl'].
      - exists lj.
        split; [cbn; rewrite list_lookup_insert_ne by congruence; exact Hlj |].
        split; [exact Hstj |]. intros Hn. apply Hsj.
        intros [Hp' | [He | Hi]]; [| congruence |]; apply Hn; tauto. }
    destruct (IH w1 pending Hk1 (fun j Hj => Hin j (or_intror Hj)))
      as (w' & Hrun & Hk' & Hd & Hrest).
    exists w'. split; [exact Hrun |]. split; [exact Hk' |].
    split; [exact Hd | exact Hrest].
Qed.

(** What an editing session does to a kept session. *)
Lemma edit_layers_run w changes :
  kept w ->
  (forall change, In change changes -> fst change ∈ drawn_items w) ->
  exists w',
    edit_layers changes w = (Ok tt, w')
    /\ kept w' /\ data_saved w' = false
    /\ drawn_items w' = drawn_items w /\ meta w' = meta w
    /\ requests w' = requests w.
Proof.
  intros Hk Hin. unfold edit_layers.
  destruct (move_vertices_run changes w _ (kept_kept_but w Hk) Hin)
    as (w1 & Hrun1 & Hk1 & Hd1 & _ & Hm1 & Hr1).
  rewrite (bind_ok _ _ _ _ _ Hrun1). unfold on_edited.
  destruct (revalidate_run (List.map fst changes) w1 (fun _ => False) Hk1)
    as (w2 & Hrun2 & Hk2 & Hd2 & Hm2 & Hr2).
  { intros id Hid. apply in_map_iff in Hid. destruct Hid as (c & <- & Hc).
    rewrite Hd1. apply Hin, Hc. }
  rewrite (bind_ok _ _ _ _ _ Hrun2). unfold modify.
  eexists. split; [reflexivity |].
  split; [apply (kept_same w2); try reflexivity; apply kept_but_kept, Hk2 |].
  cbn [data_saved drawn_items meta requests set_data_saved].
  repeat split; congruence.
Qed.

Lemma keeps_drawn_items_removeLayer id : keeps (drawn_items_removeLayer id).
Proof.
  intros w [Ha Hb]. unfold drawn_items_removeLayer, modify. cbn [snd].
  destruct (decide (id ∈ drawn_items w)); [| split; assumption].
  split.
  - intros j Hj. cbn in Hj. apply remove_id_spec in Hj. destruct Hj as [Hj Hne].
    apply remove_id_spec. split; [apply Ha, Hj | exact Hne].
  - intros j Hj. cbn in Hj. apply remove_id_spec in Hj. destruct Hj as [Hj _].
    apply Hb, Hj.
Qed.

Lemma keeps_delete_layers layers : keeps (delete_layers layers).
Proof.
  unfold delete_layers, on_deleted.
  apply keeps_bind; [apply keeps_for_each, keeps_drawn_items_removeLayer |].
  intros _. apply keeps_bind; [| intros _; apply keeps_modify; intros w; repeat split].
  apply keeps_for_each. intros layer.
  apply keeps_bind; [apply keeps_get_layer |]. intros l.
  destruct (issue_markers l); [| apply keeps_ret].
  apply keeps_update_layer, styled_unmarked.
Qed.

Lemma keeps_count_lines_with_issues ids : forall n,
  keeps (count_lines_with_issues ids n).
Proof.
  induction ids as [| id ids IH]; intros n; [apply keeps_ret |].
  cbn [count_lines_with_issues].
  apply keeps_bind; [apply keeps_validate_polyline | intros found; apply IH].
Qed.

Lemma keeps_each_layer ids : keeps (each_layer ids).
Proof.
  induction ids as [| id ids IH]; [apply keeps_ret |].
  cbn [each_layer]. apply keeps_bind; [apply keeps_get_layer |]. intros l.
  apply keeps_bind; [exact IH | intros ls; apply keeps_ret].
Qed.

Lemma keeps_make_feature_save_json date : keeps (make_feature_save_json date).
Proof.
  unfold make_feature_save_json.
  apply keeps_bind; [apply keeps_get |]. intros w0.
  apply keeps_bind; [apply keeps_each_layer | intros ls; apply keeps_ret].
Qed.

Lemma keeps_submit_button_onclick confirmed date :
  keeps (submit_button_onclick confirmed date).
Proof.
  unfold submit_button_onclick.
  apply keeps_bind; [apply keeps_get |]. intros w0.
  destruct (strictly_null _); [apply keeps_user_message |].
  destruct (_ =? 0)%nat; [apply keeps_user_message |].
  apply keeps_bind; [apply keeps_count_lines_with_issues |]. intros n.
  destruct (0 <? n)%nat; [apply keeps_user_message |].
  destruct (negb confirmed); [apply keeps_ret |].
  apply keeps_bind; [apply keeps_make_feature_save_json |]. intros output.
  apply keeps_bind; [apply keeps_modify; intros w; repeat split |].
  intros _. apply keeps_modify. intros w. repeat split.
Qed.

Lemma keeps_submit_digitized_settled r : keeps (submit_digitized_settled r).
Proof.
  unfold submit_digitized_settled.
  apply keeps_try_catch; [| intros _; apply keeps_user_message].
  destruct r as [| status body]; [apply keeps_throw |].
  destruct (status =? 401)%nat; [apply keeps_user_message |].
  destruct body; [apply keeps_throw | apply keeps_throw | apply keeps_user_message].
Qed.

Lemma keeps_load_latest fetched : keeps (load_latest fetched).
Proof.
  unfold load_latest. apply keeps_try_catch; [| intros _; apply keeps_ret].
  destruct fetched as [| | latest]; [apply keeps_throw | apply keeps_ret |].
  apply keeps_bind; [apply keeps_load_digitized_inner |]. intros _.
  apply keeps_bind; [apply keeps_get | intros w0; apply keeps_user_message].
Qed.

Lemma keeps_load_button_change file : keeps (load_button_change file).
Proof.
  unfold load_button_change, load_digitized.
  apply keeps_bind; [apply keeps_modify; intros w; repeat split |]. intros _.
  destruct file; [apply keeps_ret | apply keeps_user_message
                  | apply keeps_user_message | apply keeps_load_digitized_inner].
Qed.

End Kept_Handlers.

Section Kept_Page.

Lemma in_session_session {A} (m : JS A) p :
  session (snd (in_session m p)) = snd (m (session p)).
Proof.
  unfold in_session. destruct (m (session p)) as [r w']. reflexivity.
Qed.

Lemma kept_new_session m : kept (new_session m).
Proof.
  split; intros id Hid; cbn in Hid; apply elem_of_nil in Hid; destruct Hid.
Qed.

Lemma offered_make_color_selector : offered make_color_selector.
Proof.
  intros radio Hin. unfold make_color_selector, get_layer_classes, props in Hin.
  cbn [List.map] in Hin.
  destruct Hin as [<- | [<- | [<- | [<- | []]]]]; eexists; reflexivity.
Qed.

(** The induction over the run of events. *)
Lemma reachable_keeps p : reachable p -> kept (session p).
Proof.
  induction 1 as [key fetched radios latest text text_color | p e Hreach IH Hdel].
  - unfold setup_map.
    set (p1 := snd (in_session (load_latest latest) _)).
    assert (Hp1 : kept (session p1)).
    { unfold p1. rewrite in_session_session. apply keeps_load_latest.
      apply kept_new_session. }
    destruct (setup_difficulty (meta (session p1)) (difficulty_radios p1))
      as [m radios1].
    cbn [session]. apply (kept_same (session p1)); try reflexivity. exact Hp1.
  - destruct e as [coords draw_color selector | changes | layers
                   | layer target_key | layer x_coord y_coord confirmed
                   | file | date | confirmed date | r | value | radios];
      cbn [handle]; try rewrite in_session_session.
    + apply keeps_on_created; [exact Hdel | exact IH].
    + destruct (edit_layers_run (session p) changes IH Hdel) as (w' & Hrun & Hk & _).
      rewrite Hrun. exact Hk.
    + apply keeps_delete_layers, IH.
    + apply keeps_change_layer_kind; [exact Hdel | exact IH].
    + unfold split_line_button_onclick.
      destruct (negb confirmed); [exact IH | apply keeps_split_polyline, IH].
    + apply keeps_load_button_change, IH.
    + unfold save_button_onclick.
      destruct (_ =? 0)%nat; [exact IH |].
      pose proof (keeps_make_feature_save_json date (session p) IH) as Hk.
      destruct (make_feature_save_json date (session p)) as [[output | e] w1];
        cbn [snd session] in *; [| exact Hk].
      apply (kept_same w1); try reflexivity. exact Hk.
    + apply keeps_submit_button_onclick, IH.
    + apply keeps_submit_digitized_settled, IH.
    + apply (kept_same (session p)); try reflexivity. exact IH.
    + apply (kept_same (session p)); try reflexivity. exact IH.
Qed.



End Kept_Page.

Section Gate_On_Kept.

Lemma features_kept_refl w : features_kept w w.
Proof. intros id l H. exists l. repeat split. exact H. Qed.

Lemma features_kept_trans w1 w2 w3 :
  features_kept w1 w2 -> features_kept w2 w3 -> features_kept w1 w3.
Proof.
  intros H12 H23 id l H. destruct (H12 id l H) as (l2 & H2 & E2 & P2).
  destruct (H23 id l2 H2) as (l3 & H3 & E3 & P3).
  exists l3. split; [exact H3 |]. split; congruence.
Qed.

Lemma features_kept_validated w id l al :
  heap w !! id = Some l ->
  features_kept w (set_alerts al (set_heap (<[id := validated l]> (heap w)) w)).
Proof.
  intros H j lj Hj. cbn [heap set_alerts set_heap].
  destruct (decide (j = id)) as [-> | Hne].
  - exists (validated l). split; [apply (lookup_updated _ _ _ _ H) |].
    rewrite validated_latlngs, validated_properties. split; congruence.
  - exists lj. split; [| split; reflexivity].
    rewrite list_lookup_insert_ne by congruence. exact Hj.
Qed.

(** Counting lines that validate clean changes no feature. *)
Lemma count_clean_features ids : forall n w,
  (forall id, id ∈ ids -> exists l, heap w !! id = Some l
                                    /\ polyline_issues (latlngs l) = []) ->
  exists w',
    count_lines_with_issues ids n w = (Ok n, w')
    /\ features_kept w w' /\ drawn_items w' = drawn_items w
    /\ requests w' = requests w /\ meta w' = meta w
    /\ data_saved w' = data_saved w.
Proof.
  induction ids as [| id ids IH]; intros n w Hclean.
  - exists w. repeat split. apply features_kept_refl.
  - cbn [count_lines_with_issues].
    destruct (Hclean id) as (l & Hl & Hiss); [apply elem_of_cons; left; reflexivity |].
    rewrite (bind_ok _ _ _ _ _ (validate_polyline_run w id l true Hl)).
    rewrite Hiss. cbn [length Nat.ltb Nat.leb].
    pose proof (features_kept_validated w id l (alerts w ++ validate_alerts l true) Hl)
      as Hkept.
    set (w1 := set_alerts _ _) in *.
    destruct (IH n w1) as (w' & Hrun & Hk & Hd & Hr & Hm & Hs).
    { intros j Hj.
      destruct (Hclean j) as (lj & Hlj & Hissj); [apply elem_of_cons; right; exact Hj |].
      destruct (Hkept j lj Hlj) as (lj' & Hlj' & E & _).
      exists lj'. split; [exact Hlj' | rewrite E; exact Hissj]. }
    exists w'. split; [exact Hrun |].
    split; [exact (features_kept_trans _ _ _ Hkept Hk) |].
    repeat split; assumption.
Qed.

Lemma export_feature_same s l l' :
  latlngs l' = latlngs l -> properties l' = properties l ->
  export_feature s l' = export_feature s l.
Proof.
  intros Hv Hp. unfold export_feature, toGeoJSON. rewrite Hv, Hp. reflexivity.
Qed.

Lemma saved_document_same w w' date :
  features_kept w w' -> drawn_items w' = drawn_items w -> meta w' = meta w ->
  resolves w ->
  saved_document date w' = saved_document date w.
Proof.
  intros Hk Hd Hm Hres. unfold saved_document, annotation_set.
  rewrite Hm, Hd. f_equal.
  unfold resolves in Hres. revert Hres. generalize (drawn_items w). intros ids.
  induction ids as [| id ids IH]; intros Hres; [reflexivity |].
  destruct (Hres id) as [l Hl]; [apply elem_of_cons; left; reflexivity |].
  destruct (Hk id l Hl) as (l' & Hl' & Ev & Ep).
  cbn [omap list_omap]. rewrite Hl, Hl'. cbn [List.map].
  rewrite (export_feature_same _ l l' Ev Ep).
  rewrite IH; [reflexivity |].
  intros j Hj. apply Hres. apply elem_of_cons. right. exact Hj.
Qed.

(** On styled layers the recorded issues tell whether the vertices
    validate clean. *)
Lemma recorded_issues_found w ids :
  (forall id, id ∈ ids -> exists l, heap w !! id = Some l /\ styled l) ->
  if forallb no_recorded_issues (omap (fun id => heap w !! id) ids)
  then forall id, id ∈ ids ->
         exists l, heap w !! id = Some l /\ polyline_issues (latlngs l) = []
  else exists id l, id ∈ ids /\ heap w !! id = Some l
                    /\ polyline_issues (latlngs l) <> [].
Proof.
  induction ids as [| id ids IH]; intros Hst.
  - simpl. intros id Hid. apply elem_of_nil in Hid. destruct Hid.
  - destruct (Hst id) as (l & Hl & p & cp & Hp & _ & _ & _ & _ & _ & Hiss);
      [apply elem_of_cons; left; reflexivity |].
    specialize (IH (fun j Hj => Hst j (proj2 (elem_of_cons _ _ _) (or_intror Hj)))).
    cbn [omap list_omap]. rewrite Hl. cbn [forallb].
    unfold no_recorded_issues at 1, issues_of. rewrite Hp, Hiss.
    destruct (polyline_issues (latlngs l)) as [| i rest] eqn:E.
    + cbn [andb].
      destruct (forallb no_recorded_issues (omap (fun id => heap w !! id) ids)).
      * intros j Hj. apply elem_of_cons in Hj. destruct Hj as [-> | Hj].
        -- exists l. split; [exact Hl | exact E].
        -- apply IH, Hj.
      * destruct IH as (j & lj & Hj & Hlj & Hbad).
        exists j, lj. split; [apply elem_of_cons; right; exact Hj |].
        split; assumption.
    + cbn [andb]. exists id, l. split; [apply elem_of_cons; left; reflexivity |].
      split; [exact Hl |]. rewrite E. discriminate.
Qed.

(** X8.  In a kept session (every state the page reaches is one) a
    click on the submit button sends a document exactly when the user
    confirms, the difficulty is not null, the group is not empty and no
    feature has an issue on record; what it sends is the document that
    the save button would write, and the session then counts as saved.
    In every other case nothing is sent and the flag is as it was. *)
Theorem submit_click_on_kept w confirmed date :
  kept w ->
  if submits confirmed w
  then requests (snd (submit_button_onclick confirmed date w))
       = requests w ++ [saved_document date w]
       /\ data_saved (snd (submit_button_onclick confirmed date w)) = true
  else requests (snd (submit_button_onclick confirmed date w)) = requests w
       /\ data_saved (snd (submit_button_onclick confirmed date w)) = data_saved w.
Proof.
  intros [Ha Hb].
  destruct (submit_button_onclick confirmed date w) as [r w'] eqn:Hrun.
  cbn [snd]. revert Hrun. unfold submit_button_onclick, submits.
  unfold get at 1, bind at 1.
  destruct (strictly_null (difficulty (meta w))) eqn:Hnull.
  { rewrite andb_false_r. cbn [andb]. intros [= _ <-]. split; reflexivity. }
  destruct (Nat.eqb_spec (length (drawn_items w)) 0) as [Hempty | Hnonempty].
  { rewrite andb_false_r. cbn [andb]. intros [= _ <-]. split; reflexivity. }
  cbn [negb]. rewrite !andb_true_r.
  pose proof (recorded_issues_found w (drawn_items w) Hb) as Hrec.
  fold (annotation_set w) in Hrec.
  destruct (forallb no_recorded_issues (annotation_set w)).
  - destruct (count_clean_features (drawn_items w) 0 w Hrec)
      as (w1 & Hcount & Hk & Hd & Hr & Hm & Hs).
    rewrite (bind_ok _ _ _ _ _ Hcount). cbn [Nat.ltb Nat.leb].
    rewrite andb_true_r.
    destruct confirmed; cbn [negb].
    + assert (Hres : resolves w).
      { intros id Hid. destruct (Hb id Hid) as (l & Hl & _). exists l. exact Hl. }
      assert (Hres1 : resolves w1).
      { intros id Hid. rewrite Hd in Hid. destruct (Hres id Hid) as [l Hl].
        destruct (Hk id l Hl) as (l' & Hl' & _). exists l'. exact Hl'. }
      rewrite (bind_ok _ _ _ _ _ (make_feature_save_json_run w1 date Hres1)).
      rewrite (saved_document_same w w1 date Hk Hd Hm Hres).
      unfold submit_digitized, modify, bind. intros [= _ <-].
      cbn [requests data_saved set_requests set_data_saved].
      rewrite Hr. split; reflexivity.
    + intros [= _ <-]. split; assumption.
  - rewrite andb_false_r.
    pose proof (count_lines_with_issues_spec (drawn_items w) 0 w) as Hcount.
    unfold bind at 1.
    destruct (count_lines_with_issues (drawn_items w) 0 w) as [[m | e] w1].
    + destruct Hcount as (Hr & Hs & _ & Hbad).
      specialize (Hbad Hrec).
      destruct (Nat.ltb_spec 0 m) as [_ | Hzero]; [| lia].
      intros [= _ <-]. split; assumption.
    + intros [= _ <-]. exact Hcount.
Qed.

(** The session of the example run, whose line doubles back, as an
    instance of X8: nothing is sent. *)
Lemma submit_click_on_kept_witness :
  kept (session example_page_edited)
  /\ submits true (session example_page_edited) = false
  /\ requests (snd (submit_button_onclick true "2025-04-05T10:00:00.000Z"
                      (session example_page_edited)))
     = requests (session example_page_edited).
Proof.
  assert (Hk : kept (session example_page_edited)).
  { apply reachable_keeps. unfold example_page_edited, example_page_drawn,
      example_page.
    apply reachable_handle; [apply reachable_handle |].
    - apply reachable_setup.
    - exact offered_make_color_selector.
    - intros change [<- | []]. apply list_elem_of_In. left. reflexivity. }
  split; [exact Hk |]. split; [reflexivity |].
  pose proof (submit_click_on_kept (session example_page_edited) true
                "2025-04-05T10:00:00.000Z" Hk) as H.
  change (submits true (session example_page_edited)) with false in H.
  exact (proj1 H).
Defined.

End Gate_On_Kept.

Section Roundtrip_On_Kept.

Lemma lookup_class_In tbl k cp :
  lookup_class tbl (Some k) = Some cp -> In (k, cp) tbl.
Proof.
  induction tbl as [| [key c] tbl IH]; [discriminate |].
  simpl. destruct (String.eqb_spec key k) as [-> | Hne].
  - intros [= <-]. left. reflexivity.
  - intros H. right. apply IH, H.
Qed.

(** The names of the classes tell the classes apart: the lookup by name
    finds the key of every class of the table. *)
Lemma kind_by_name_class cp :
  lookup_class get_layer_classes (Some (class_key cp)) = Some cp ->
  kind_by_name get_layer_classes (Some (class_name cp)) = Some (class_key cp).
Proof.
  intros H. apply lookup_class_In in H.
  unfold get_layer_classes, props in H. cbn [List.map] in H.
  destruct H as [H | [H | [H | [H | []]]]]; injection H as _ <-; reflexivity.
Qed.

(** Loading one line feature whose kind, given or found by name, is a
    class of the table. *)
Lemma load_feature_run f fp cp w :
  feature_properties f = Some fp ->
  lookup_class get_layer_classes
    (match kind fp with
     | Some k => Some k
     | None => kind_by_name get_layer_classes (name fp)
     end) = Some cp ->
  geometry_type f = "LineString" ->
  length (heap w) ∉ drawn_items w ->
  exists w',
    load_feature f w = (Ok Next, w')
    /\ heap w' = heap w
                 ++ [created
                       (List.map (fun pair => {| lat := snd pair;
                                                 lng := (fst pair * xscale (meta w))%Q |})
                                 (coordinates f))
                       (Some (class_key cp)) cp]
    /\ map_layers w' = add_id (length (heap w)) (map_layers w)
    /\ drawn_items w' = drawn_items w ++ [length (heap w)]
    /\ meta w' = meta w /\ data_saved w' = data_saved w
    /\ messages w' = messages w /\ requests w' = requests w.
Proof.
  intros Hfp Hk Hty Hfresh.
  destruct (load_feature_cases f w)
    as [Hrun | [[Hno _] | (fp' & k & cp' & w' & Hfp' & -> & Hk' & Hrun & Hh & Hm & Hd & Hrest)]].
  - exfalso. revert Hrun. unfold load_feature. rewrite Hfp, Hty. cbn [String.eqb Ascii.eqb Bool.eqb andb].
    unfold get at 1, bind at 1. cbv beta zeta.
    set (coords := List.map _ (coordinates f)).
    destruct (create_polyline_run w coords _ cp Hk) as (w' & Hc & _).
    rewrite (bind_ok _ _ _ _ _ Hc). unfold bind.
    destruct (drawn_items_addLayer _ w') as [[[] | e] w0] eqn:E;
      [discriminate | unfold drawn_items_addLayer, modify in E; discriminate].
  - rewrite Hty in Hno. discriminate.
  - rewrite Hfp in Hfp'. injection Hfp' as <-.
    rewrite Hk in Hk'. injection Hk' as <-.
    rewrite (lookup_class_key _ _ Hk) in Hh.
    exists w'. split; [exact Hrun |]. split; [exact Hh |]. split; [exact Hm |].
    split; [rewrite Hd; apply add_id_out, Hfresh | exact Hrest].
Qed.



Lemma accepted_empty data w :
  heap (accepted data w) = heap w
  /\ drawn_items (accepted data w) = []
  /\ xscale (meta (accepted data w)) = xscale (meta w)
  /\ comment (meta (accepted data w)) = doc_comment data
  /\ difficulty (meta (accepted data w)) = doc_difficulty data
  /\ messages (accepted data w) = messages w
  /\ (forall id, id ∈ map_layers (accepted data w) ->
        id ∈ map_layers w /\ id ∉ drawn_items w).
Proof.
  unfold accepted. cbn zeta. cbn [drawn_items set_meta].
  destruct (drawn_items w) as [| id ids] eqn:Hd.
  - cbn [length Nat.ltb Nat.leb]. repeat split; try assumption.
    apply not_elem_of_nil.
  - cbn [length Nat.ltb Nat.leb]. repeat split.
    + cbn in H. apply list_elem_of_In, filter_In in H. apply list_elem_of_In, H.
    + cbn in H. apply list_elem_of_In, filter_In in H. destruct H as [_ H].
      apply negb_true_iff, bool_decide_eq_false in H. exact H.
Qed.



End Roundtrip_On_Kept.

Section Within.

Variable R : World -> World -> Prop.
Hypothesis R_refl : forall w, R w w.
Hypothesis R_trans : forall w1 w2 w3, R w1 w2 -> R w2 w3 -> R w1 w3.

Lemma within_ret {A} (a : A) : within R (ret a).
Proof. intros w. apply R_refl. Qed.

Lemma within_throw {A} e : within R (@throw A e).
Proof. intros w. apply R_refl. Qed.

Lemma within_get : within R get.
Proof. intros w. apply R_refl. Qed.

Lemma within_bind {A B} (m : JS A) (f : A -> JS B) :
  within R m -> (forall a, within R (f a)) -> within R (bind m f).
Proof.
  intros Hm Hf w. specialize (Hm w). unfold bind.
  destruct (m w) as [[a | e] w1]; [| exact Hm].
  exact (R_trans _ _ _ Hm (Hf a w1)).
Qed.

Lemma within_try_catch {A} (body : JS A) handler :
  within R body -> (forall e, within R (handler e)) ->
  within R (try_catch body handler).
Proof.
  intros Hm Hf w. specialize (Hm w). unfold try_catch.
  destruct (body w) as [[a | e] w1]; [exact Hm |].
  exact (R_trans _ _ _ Hm (Hf e w1)).
Qed.

Lemma within_for_of {A} (xs : list A) body :
  (forall x, within R (body x)) -> within R (for_of xs body).
Proof.
  intros Hb. induction xs as [| x xs IH]; [apply within_ret |].
  apply within_bind; [apply Hb |]. intros []; [exact IH | apply within_ret].
Qed.

End Within.

Section Loading_Frame.

Lemma loading_frame_refl w : loading_frame w w.
Proof.
  split; [exists []; symmetry; apply app_nil_r |]. repeat split. lia.
Qed.

Lemma loading_frame_trans w1 w2 w3 :
  loading_frame w1 w2 -> loading_frame w2 w3 -> loading_frame w1 w3.
Proof.
  intros ([a1 H1] & A1 & B1 & C1 & D1 & E1 & F1 & G1)
         ([a2 H2] & A2 & B2 & C2 & D2 & E2 & F2 & G2).
  split; [exists (a1 ++ a2); rewrite H2, H1, app_assoc; reflexivity |].
  repeat split; try congruence. lia.
Qed.

Lemma loading_frame_message w msg :
  loading_frame w (set_messages (messages w ++ [msg]) w).
Proof.
  split; [exists [msg]; reflexivity |]. repeat split. cbn. lia.
Qed.

Lemma within_user_message msg fb : within loading_frame (user_message msg fb).
Proof. intros w. apply loading_frame_message. Qed.

Lemma within_load_feature f : within loading_frame (load_feature f).
Proof.
  intros w.
  destruct (load_feature_cases f w)
    as [Hrun | [[_ Hrun] | (fp & k & cp & w' & _ & _ & _ & Hrun & Hh & _ & _ & Hm & Hs & Hms & Hr)]];
    rewrite Hrun; cbn [snd].
  - apply loading_frame_refl.
  - apply loading_frame_message.
  - split; [exists []; rewrite Hms; symmetry; apply app_nil_r |].
    rewrite Hm, Hh, length_app. repeat split; try assumption. lia.
Qed.

Lemma within_load_digitized_inner data :
  within loading_frame (load_digitized_inner data).
Proof.
  pose proof loading_frame_refl as Hr. pose proof loading_frame_trans as Ht.
  unfold load_digitized_inner.
  apply (within_try_catch _ Ht); [| intros _; apply within_user_message].
  apply (within_bind _ Ht); [apply (within_get _ Hr) |]. intros w0.
  apply (within_bind _ Ht).
  - apply (within_for_of _ Hr Ht). intros [[[key found] expected] differs].
    destruct differs; [| apply (within_ret _ Hr)].
    apply (within_bind _ Ht);
      [apply within_user_message | intros _; apply (within_ret _ Hr)].
  - intros []; [| apply (within_ret _ Hr)].
    apply (within_bind _ Ht).
    { intros w. cbn. split; [exists []; symmetry; apply app_nil_r |].
      repeat split. apply Nat.le_refl. }
    intros _. apply (within_bind _ Ht); [apply (within_get _ Hr) |].
    intros w1. apply (within_bind _ Ht).
    { destruct (0 <? length (drawn_items w1))%nat; [| apply (within_ret _ Hr)].
      intros w. cbn. split; [exists []; symmetry; apply app_nil_r |].
      repeat split. apply Nat.le_refl. }
    intros _. apply (within_bind _ Ht).
    { apply (within_for_of _ Hr Ht). apply within_load_feature. }
    intros []; [| apply (within_ret _ Hr)].
    apply (within_bind _ Ht); [apply (within_get _ Hr) |].
    intros w2. apply within_user_message.
Qed.

Lemma load_digitized_inner_ends data w : fst (load_digitized_inner data w) = Ok tt.
Proof.
  unfold load_digitized_inner, try_catch.
  match goal with |- fst (match ?b with _ => _ end) = _ => destruct b as [[[] | e] w1] end;
    reflexivity.
Qed.

End Loading_Frame.

Section Example_Run.

Lemma example_page_edited_reachable : reachable example_page_edited.
Proof.
  unfold example_page_edited, example_page_drawn, example_page.
  apply reachable_handle; [apply reachable_handle |].
  - apply reachable_setup.
  - exact offered_make_color_selector.
  - intros change [<- | []]. apply list_elem_of_In. left. reflexivity.
Qed.




End Example_Run.

Section More_Load.


(** X10.  A line feature that has no kind but the name of a class of the
    table is loaded as a layer of that class, with the class's key as
    its kind. *)
Theorem load_feature_by_name f fp cp w :
  feature_properties f = Some fp ->
  kind fp = None ->
  name fp = Some (class_name cp) ->
  lookup_class get_layer_classes (Some (class_key cp)) = Some cp ->
  geometry_type f = "LineString" ->
  length (heap w) ∉ drawn_items w ->
  exists w',
    load_feature f w = (Ok Next, w')
    /\ heap w' = heap w
                 ++ [created
                       (List.map (fun pair => {| lat := snd pair;
                                                 lng := (fst pair * xscale (meta w))%Q |})
                                 (coordinates f))
                       (Some (class_key cp)) cp]
    /\ drawn_items w' = drawn_items w ++ [length (heap w)]
    /\ map_layers w' = add_id (length (heap w)) (map_layers w).
Proof.
  intros Hfp Hkind Hname Hc Hty Hfresh.
  destruct (load_feature_run f fp cp w Hfp) as (w' & Hrun & Hh & Hm & Hd & _);
    try assumption.
  { rewrite Hkind, Hname, (kind_by_name_class cp Hc). exact Hc. }
  exists w'. repeat split; assumption.
Qed.

(** A line that was saved with the name [Crevasse] only, loaded into a
    new session. *)
Lemma load_feature_by_name_witness :
  exists w',
    load_feature (legacy_feature [(0, 20); (5, 20)]%Q "Crevasse")
                 (new_session example_meta) = (Ok Next, w')
    /\ List.map kind_of (annotation_set w') = [Some "crevasse"]
    /\ List.map color_of (annotation_set w') = [Some "#62F700"].
Proof.
  destruct (load_feature_by_name
              (legacy_feature [(0, 20); (5, 20)]%Q "Crevasse")
              {| kind := None; color := None; name := Some "Crevasse";
                 issues := None |}
              {| class_name := "Crevasse"; class_color := "#62F700";
                 class_key := "crevasse" |}
              (new_session example_meta))
    as (w' & Hrun & Hh & Hd & _); try reflexivity.
  { apply not_elem_of_nil. }
  exists w'. split; [exact Hrun |].
  unfold annotation_set. rewrite Hd, Hh. split; reflexivity.
Defined.




End More_Load.

Section Load_Replaces.

Lemma grown_refl w : grown w w.
Proof.
  split; [reflexivity |]. split; [apply Nat.le_refl |].
  split; intros id H; left; exact H.
Qed.

Lemma grown_trans w1 w2 w3 : grown w1 w2 -> grown w2 w3 -> grown w1 w3.
Proof.
  intros (A1 & B1 & C1 & D1) (A2 & B2 & C2 & D2).
  split; [congruence |]. split; [lia |]. split; intros id H.
  - destruct (C2 id H) as [H2 | H2]; [apply C1, H2 | right; lia].
  - destruct (D2 id H) as [H2 | H2]; [apply D1, H2 | right; lia].
Qed.

Lemma grown_message w msg : grown w (set_messages (messages w ++ [msg]) w).
Proof.
  split; [reflexivity |]. split; [apply Nat.le_refl |].
  split; intros id H; left; exact H.
Qed.

Lemma within_grown_load_feature f : within grown (load_feature f).
Proof.
  intros w.
  destruct (load_feature_cases f w)
    as [Hrun | [[_ Hrun] | (fp & k & cp & w' & _ & _ & _ & Hrun & Hh & Hm & Hd & Hme & _)]];
    rewrite Hrun; cbn [snd].
  - apply grown_refl.
  - apply grown_message.
  - split; [exact Hme |]. rewrite Hh, length_app. split; [lia |].
    split; intros id H.
    + rewrite Hd in H. apply elem_of_add_id in H.
      destruct H as [-> | H]; [right; apply Nat.le_refl | left; exact H].
    + rewrite Hm in H. apply elem_of_add_id in H.
      destruct H as [-> | H]; [right; apply Nat.le_refl | left; exact H].
Qed.

Lemma grown_loaded outcome w :
  grown w (snd outcome) -> grown w (snd (loaded outcome)).
Proof. destruct outcome as [[[] | e] w']; intros H; exact H. Qed.

Lemma loading_frame_loaded outcome w :
  loading_frame w (snd outcome) -> loading_frame w (snd (loaded outcome)).
Proof.
  destruct outcome as [[[] | e] w']; intros H; try exact H;
    exact (loading_frame_trans _ _ _ H (loading_frame_message w' _)).
Qed.

(** X12.  A document that is accepted replaces the session's features,
    however its loading ends: every layer that the group had has left
    the group and the map, and the comment and the difficulty are the
    document's.  The flag of saved data is as it was. *)
Theorem load_digitized_inner_replaces data w :
  matches data w ->
  resolves w ->
  exists w',
    load_digitized_inner data w = (Ok tt, w')
    /\ comment (meta w') = doc_comment data
    /\ difficulty (meta w') = doc_difficulty data
    /\ data_saved w' = data_saved w
    /\ forall id, id ∈ drawn_items w ->
         (id ∉ drawn_items w') /\ (id ∉ map_layers w').
Proof.
  intros Hm Hres.
  exists (snd (load_digitized_inner data w)).
  split.
  { pose proof (load_digitized_inner_ends data w) as He.
    destruct (load_digitized_inner data w) as [r w']. cbn in He. subst r.
    reflexivity. }
  pose proof (within_load_digitized_inner data w) as (_ & Hs & _).
  rewrite (load_digitized_inner_accepted data w Hm).
  destruct (accepted_empty data w) as (Hh & Hd & _ & Hc & Hdi & _ & Hmap).
  pose proof (grown_loaded _ _
                (within_for_of grown grown_refl grown_trans (features data)
                   load_feature within_grown_load_feature (accepted data w)))
    as (Hme & _ & Hgd & Hgm).
  rewrite Hme. split; [exact Hc |]. split; [exact Hdi |].
  split; [rewrite <- (load_digitized_inner_accepted data w Hm); exact Hs |].
  intros id Hid. destruct (Hres id Hid) as [l Hl].
  apply lookup_lt_Some in Hl. split; intros H.
  - destruct (Hgd id H) as [H0 | H0].
    + rewrite Hd in H0. apply elem_of_nil in H0. exact H0.
    + rewrite Hh in H0. lia.
  - destruct (Hgm id H) as [H0 | H0].
    + apply Hmap in H0. destruct H0 as [_ H0]. exact (H0 Hid).
    + rewrite Hh in H0. lia.
Qed.

(** The document with a line of unknown kind, loaded into the session
    of Scenario D: the line of Scenario D is gone, and the difficulty is
    the document's. *)
Lemma load_digitized_inner_replaces_witness :
  matches unknown_kind_document scenario_D
  /\ resolves scenario_D
  /\ 0%nat ∈ drawn_items scenario_D
  /\ exists w',
       load_digitized_inner unknown_kind_document scenario_D = (Ok tt, w')
       /\ difficulty (meta w') = JString "hard"
       /\ (0%nat ∉ drawn_items w') /\ (0%nat ∉ map_layers w').
Proof.
  assert (Hm : matches unknown_kind_document scenario_D)
    by (repeat split; reflexivity).
  assert (H0 : 0%nat ∈ drawn_items scenario_D)
    by (apply list_elem_of_In; left; reflexivity).
  assert (Hres : resolves scenario_D).
  { intros id Hid. apply list_elem_of_In in Hid. destruct Hid as [<- | []].
    eexists. reflexivity. }
  split; [exact Hm |]. split; [exact Hres |]. split; [exact H0 |].
  destruct (load_digitized_inner_replaces unknown_kind_document scenario_D Hm Hres)
    as (w' & Hrun & _ & Hd & _ & Hgone).
  exists w'. split; [exact Hrun |]. split; [exact Hd |]. exact (Hgone 0%nat H0).
Defined.

End Load_Replaces.

Section Load_Latest.

Lemma load_latest_document latest w :
  exists w1,
    load_digitized_inner latest w = (Ok tt, w1)
    /\ load_latest (LatestDocument latest) w
       = (Ok tt, set_messages (messages w1 ++ [latest_loaded_message w1]) w1).
Proof.
  exists (snd (load_digitized_inner latest w)).
  pose proof (load_digitized_inner_ends latest w) as He.
  unfold load_latest, try_catch. unfold bind at 1.
  destruct (load_digitized_inner latest w) as [r w1]. cbn in He. subst r.
  split; reflexivity.
Qed.

(** X13.  [load_latest] leaves the session as it was when the fetch
    fails or the server has no submission; when it has one, the
    document is loaded and one more message follows whatever the
    loading logged, with the number of lines that the group then has:
    also after a document that was rejected or that broke off. *)
Theorem load_latest_outcomes fetched w :
  match fetched with
  | LatestDocument latest =>
      exists w1,
        load_digitized_inner latest w = (Ok tt, w1)
        /\ load_latest fetched w
           = (Ok tt, set_messages (messages w1 ++ [latest_loaded_message w1]) w1)
  | _ => load_latest fetched w = (Ok tt, w)
  end.
Proof.
  destruct fetched as [| | latest]; try reflexivity.
  apply load_latest_document.
Qed.

Lemma shown_last (d : JsVal * string) added msg :
  List.fold_left (fun (d : JsVal * string) m =>
                    (message m, message_color (feedback m)))
                 (added ++ [msg]) d
  = (message msg, message_color (feedback msg)).
Proof. rewrite fold_left_app. reflexivity. Qed.

Lemma in_session_last {A} (m : JS A) p added msg :
  messages (snd (m (session p))) = messages (session p) ++ added ++ [msg] ->
  response_text (snd (in_session m p)) = message msg
  /\ response_color (snd (in_session m p)) = message_color (feedback msg).
Proof.
  unfold in_session. destruct (m (session p)) as [r w']. cbn [snd].
  intros ->. rewrite drop_app_length, shown_last. split; reflexivity.
Qed.

(** X14.  When the server has a latest submission, the page opens with
    the line [Loaded the last submission (n line(s))] in the neutral
    color, [n] being the number of lines of the group: whatever the
    loading of the submission reported before is overwritten. *)
Theorem setup_map_latest_text page_radar_key fetched radios latest text text_color :
  response_text
    (setup_map page_radar_key fetched radios (LatestDocument latest) text text_color)
  = message (latest_loaded_message
               (session (setup_map page_radar_key fetched radios
                          (LatestDocument latest) text text_color)))
  /\ response_color
       (setup_map page_radar_key fetched radios (LatestDocument latest)
          text text_color)
     = "#333".
Proof.
  unfold setup_map. cbv zeta.
  set (p0 := {| session := new_session (get_metadata page_radar_key fetched);
                difficulty_radios := radios; response_text := text;
                response_color := text_color; downloads := [] |}).
  destruct (load_latest_document latest (session p0))
    as (w1 & Hload & Hrun).
  pose proof (within_load_digitized_inner latest (session p0)) as ([added Hadd] & _).
  rewrite Hload in Hadd. cbn [snd] in Hadd.
  destruct (in_session_last (load_latest (LatestDocument latest)) p0 added
              (latest_loaded_message w1)) as [Ht Hc].
  { rewrite Hrun. cbn [snd messages set_messages]. rewrite Hadd, app_assoc.
    reflexivity. }
  pose proof (in_session_session (load_latest (LatestDocument latest)) p0) as Hs.
  destruct (setup_difficulty _ _) as [m radios1]. cbn [response_text response_color session].
  rewrite Ht, Hc. split; [| reflexivity].
  unfold latest_loaded_message. cbn [message drawn_items set_meta].
  rewrite Hs, Hrun. reflexivity.
Qed.

(** X15.  The change listener of the load button marks the data as not
    saved for every file event, also when no file was chosen or the
    file could not be read or was rejected; it sends nothing, and when
    no file was chosen it does nothing else. *)
Theorem load_button_change_unsaved file w :
  data_saved (snd (load_button_change file w)) = false
  /\ requests (snd (load_button_change file w)) = requests w
  /\ load_button_change NoFile w = (Ok tt, set_data_saved false w).
Proof.
  split; [| split; [| reflexivity]].
  - destruct file as [| | | data]; try reflexivity.
    unfold load_button_change, load_digitized. unfold modify at 1, bind at 1.
    pose proof (within_load_digitized_inner data (set_data_saved false w))
      as (_ & H & _).
    exact H.
  - destruct file as [| | | data]; try reflexivity.
    unfold load_button_change, load_digitized. unfold modify at 1, bind at 1.
    pose proof (within_load_digitized_inner data (set_data_saved false w))
      as (_ & _ & H & _).
    exact H.
Qed.

End Load_Latest.

Section More_Save.

(** X16.  The save button, in a session whose group resolves: with an
    empty group nothing is downloaded and the response line reads
    [Save failed: project is empty], in the color it had; otherwise the
    document of the session is downloaded and the data are marked as
    saved.  Neither the difficulty nor the issues of the lines are
    looked at, and no line is validated. *)
Theorem save_button_onclick_outcomes date p :
  resolves (session p) ->
  save_button_onclick date p
  = (Ok tt,
     if (length (drawn_items (session p)) =? 0)%nat
     then {| session := session p; difficulty_radios := difficulty_radios p;
             response_text := JString "Save failed: project is empty";
             response_color := response_color p;
             downloads := downloads p |}
     else {| session := set_data_saved true (session p);
             difficulty_radios := difficulty_radios p;
             response_text := response_text p;
             response_color := response_color p;
             downloads :=
               downloads p
               ++ [{| download_name :=
                        save_filename (saved_document date (session p));
                      download_body := saved_document date (session p) |}] |}).
Proof.
  intros Hres. unfold save_button_onclick.
  destruct (length (drawn_items (session p)) =? 0)%nat; [reflexivity |].
  rewrite (make_feature_save_json_run (session p) date Hres). reflexivity.
Qed.

(** The example run after the edit, as an instance of X16: its line
    doubles back and no difficulty is chosen, so nothing can be
    submitted, and the save goes through. *)
Lemma save_button_onclick_outcomes_witness :
  resolves (session example_page_edited)
  /\ submits true (session example_page_edited) = false
  /\ List.map download_name
       (downloads (snd (save_button_onclick "2025-04-05T10:00:00.000Z"
                          example_page_edited)))
     = ["digitized_amundsenisen-profile-2025-1-2025_04_05T10_00_00.000Z.json"]
  /\ data_saved (session (snd (save_button_onclick "2025-04-05T10:00:00.000Z"
                                 example_page_edited))) = true.
Proof.
  assert (Hres : resolves (session example_page_edited)).
  { intros id Hid.
    destruct (proj2 (reachable_keeps _ example_page_edited_reachable) id Hid)
      as (l & Hl & _).
    exists l. exact Hl. }
  split; [exact Hres |]. split; [reflexivity |].
  rewrite (save_button_onclick_outcomes "2025-04-05T10:00:00.000Z"
             example_page_edited Hres).
  split; reflexivity.
Defined.

Lemma replaceAll_chars a b s :
  list_ascii_of_string (replaceAll a b s)
  = List.map (fun c => if Ascii.eqb c a then b else c) (list_ascii_of_string s).
Proof.
  induction s as [| c s IH]; [reflexivity |].
  cbn [replaceAll list_ascii_of_string List.map]. rewrite IH. reflexivity.
Qed.

(** X17.  The file name of a saved document is [digitized_], the radar
    key, a hyphen, the date and [.json], where the date has an
    underscore for every colon and for every hyphen of the document's
    date: the first replacement turns colons into hyphens, and the
    second turns all hyphens into underscores. *)
Theorem save_filename_date output :
  exists date_str,
    save_filename output
    = ("digitized_" ++ doc_radar_key output ++ "-" ++ date_str ++ ".json")%string
    /\ list_ascii_of_string date_str
       = List.map underscored (list_ascii_of_string (date_modified output)).
Proof.
  eexists. split; [reflexivity |].
  rewrite !replaceAll_chars, List.map_map. apply List.map_ext.
  intros c. unfold underscored.
  destruct (Ascii.eqb_spec c ":") as [-> | Hne]; [reflexivity |].
  cbn [orb]. reflexivity.
Qed.

End More_Save.

Section More_Draw.

(** X18.  A line that is drawn with a class of the table selected
    becomes a layer of that class, with the issues of its vertices on
    record, and is in the group afterwards; the data are marked as not
    saved.  A line with issues raises the alert and is kept all the
    same. *)
Theorem on_created_adds w coords draw_color selector k :
  first_checked selector = Some k ->
  registered (Some k) ->
  exists cp w',
    lookup_class get_layer_classes (Some k) = Some cp
    /\ on_created coords draw_color selector w = (Ok tt, w')
    /\ heap w' = heap w ++ [created coords (Some k) cp]
    /\ length (heap w) ∈ drawn_items w'
    /\ (forall id, id ∈ drawn_items w -> id ∈ drawn_items w')
    /\ alerts w'
       = alerts w
         ++ (if (0 <? length (polyline_issues coords))%nat
             then [issues_alert (polyline_issues coords)] else [])
    /\ data_saved w' = false.
Proof.
  intros Hsel [cp Hk]. exists cp. eexists.
  split; [exact Hk |].
  split; [apply (on_created_run w coords draw_color selector k cp Hsel Hk) |].
  unfold drawn_items_addLayer, modify. cbn [snd].
  unfold validate_alerts. cbn [latlngs]. rewrite andb_true_r.
  match goal with |- context [decide ?P] => destruct (decide P) as [Hin | Hout] end;
    cbn.
  - repeat split; try reflexivity; [exact Hin | intros id H; exact H].
  - repeat split; try reflexivity.
    + apply elem_of_app. right. apply list_elem_of_singleton. reflexivity.
    + intros id H. apply elem_of_app. left. exact H.
Qed.

(** A line that doubles back, drawn on the example page. *)
Lemma on_created_adds_witness :
  first_checked make_color_selector = Some "water_table"
  /\ registered (Some "water_table")
  /\ exists w',
       on_created [point 0 0; point 5 0; point 3 0] None make_color_selector
         (session example_page) = (Ok tt, w')
       /\ List.map issues_of (annotation_set w') = [Some [overhang_message 2]]
       /\ length (alerts w') = 1%nat.
Proof.
  assert (Hsel : first_checked make_color_selector = Some "water_table")
    by reflexivity.
  assert (Hreg : registered (Some "water_table")) by (eexists; reflexivity).
  split; [exact Hsel |]. split; [exact Hreg |].
  destruct (on_created_adds (session example_page)
              [point 0 0; point 5 0; point 3 0] None make_color_selector
              "water_table" Hsel Hreg)
    as (cp & w' & _ & Hrun & _).
  exists w'. split; [exact Hrun |].
  replace w' with (snd (on_created [point 0 0; point 5 0; point 3 0] None
                          make_color_selector (session example_page)))
    by (rewrite Hrun; reflexivity).
  split; vm_compute; reflexivity.
Defined.

(** X19.  An edit that moves the vertices of one layer validates that
    layer again: the layer has the new vertices, also when they double
    back, its recorded issues are those of the new vertices, and its
    kind, color and name are as they were; the alert is raised when
    there are issues, and the data are marked as not saved.  Nothing
    else of the session changes. *)
Theorem edit_layers_revalidates w id l p vs :
  heap w !! id = Some l ->
  properties l = Some p ->
  exists w',
    edit_layers [(id, vs)] w = (Ok tt, w')
    /\ heap w'
       = <[id := set_properties
                   (Some (set_issues (Some (polyline_issues vs)) p))
                   (validated (set_latlngs vs l))]> (heap w)
    /\ alerts w' = alerts w ++ validate_alerts (set_latlngs vs l) false
    /\ data_saved w' = false
    /\ drawn_items w' = drawn_items w /\ map_layers w' = map_layers w
    /\ meta w' = meta w /\ messages w' = messages w
    /\ requests w' = requests w.
Proof.
  intros H Hp. unfold edit_layers. cbn [for_each List.map fst].
  pose proof (lookup_updated _ _ _ (set_latlngs vs l) H) as H1.
  set (w1 := set_heap (<[id := set_latlngs vs l]> (heap w)) w).
  change (<[id := set_latlngs vs l]> (heap w)) with (heap w1) in H1.
  assert (Hmove : bind (update_layer id (set_latlngs vs)) (fun _ => ret tt) w
                  = (Ok tt, w1))
    by (rewrite (bind_ok _ _ _ _ _ (update_layer_run w id l _ H)); reflexivity).
  rewrite (bind_ok _ _ _ _ _ Hmove). unfold on_edited. cbn [for_each].
  assert (Hloop :
    bind (bind (validate_polyline id false)
               (fun found => update_properties id (set_issues (Some found))))
         (fun _ => ret tt) w1
    = (Ok tt,
       set_heap
         (<[id := set_properties
                    (Some (set_issues (Some (polyline_issues vs)) p))
                    (validated (set_latlngs vs l))]>
            (heap (set_alerts (alerts w1 ++ validate_alerts (set_latlngs vs l) false)
                     (set_heap (<[id := validated (set_latlngs vs l)]> (heap w1)) w1))))
         (set_alerts (alerts w1 ++ validate_alerts (set_latlngs vs l) false)
            (set_heap (<[id := validated (set_latlngs vs l)]> (heap w1)) w1)))).
  { erewrite bind_ok; [reflexivity |].
    rewrite (bind_ok _ _ _ _ _ (validate_polyline_run w1 id _ false H1)).
    cbn [latlngs set_latlngs].
    apply update_properties_run.
    - cbn [heap set_alerts set_heap]. apply (lookup_updated _ _ _ _ H1).
    - rewrite validated_properties. exact Hp. }
  rewrite (bind_ok _ _ _ _ _ Hloop).
  eexists. split; [reflexivity |].
  cbn. rewrite !list_insert_insert_eq. repeat split; reflexivity.
Qed.

(** The line of Scenario A with its last vertex moved back past the one
    before it. *)
Lemma edit_layers_revalidates_witness :
  exists l p w',
    heap scenario_A !! 0%nat = Some l
    /\ properties l = Some p
    /\ issues p = Some []
    /\ edit_layers [(0%nat, [point 0 0; point 5 0; point 3 0])] scenario_A
       = (Ok tt, w')
    /\ List.map latlngs (annotation_set w') = [[point 0 0; point 5 0; point 3 0]]
    /\ List.map issues_of (annotation_set w') = [Some [overhang_message 2]]
    /\ List.map kind_of (annotation_set w') = List.map kind_of (annotation_set scenario_A).
Proof.
  eexists _, _.
  destruct (edit_layers_revalidates scenario_A 0 _ _
              [point 0 0; point 5 0; point 3 0] eq_refl eq_refl)
    as (w' & Hrun & Hh & _ & _ & Hd & _).
  exists w'. split; [reflexivity |]. split; [reflexivity |].
  split; [reflexivity |]. split; [exact Hrun |].
  unfold annotation_set. rewrite Hd, Hh. repeat split; vm_compute; reflexivity.
Defined.

End More_Draw.

Section More_Delete.

Lemma remove_all_run layers : forall w,
  exists w',
    for_each layers drawn_items_removeLayer w = (Ok tt, w')
    /\ heap w' = heap w
    /\ (forall j, j ∈ drawn_items w' <-> j ∈ drawn_items w /\ ~ In j layers)
    /\ (forall j, j ∈ map_layers w'
                  <-> j ∈ map_layers w /\ ~ (In j layers /\ j ∈ drawn_items w))
    /\ meta w' = meta w /\ messages w' = messages w
    /\ requests w' = requests w /\ alerts w' = alerts w.
Proof.
  induction layers as [| id layers IH]; intros w.
  - exists w. split; [reflexivity |]. split; [reflexivity |].
    split; [intros j; simpl; tauto |]. split; [intros j; simpl; tauto |].
    repeat split.
  - cbn [for_each]. unfold drawn_items_removeLayer at 1, modify at 1, bind at 1.
    destruct (decide (id ∈ drawn_items w)) as [Hin | Hout].
    + destruct (IH (set_map_layers (remove_id id (map_layers w))
                      (set_drawn_items (remove_id id (drawn_items w)) w)))
        as (w' & Hrun & Hh & Hd & Hm & Hrest).
      exists w'. split; [exact Hrun |]. split; [exact Hh |].
      cbn [drawn_items map_layers set_map_layers set_drawn_items] in Hd, Hm.
      split; [| split; [| exact Hrest]]; intros j.
      * rewrite Hd, remove_id_spec. cbn [In].
        destruct (decide (j = id)) as [-> | Hne]; intuition congruence.
      * rewrite Hm, !remove_id_spec. cbn [In].
        destruct (decide (j = id)) as [-> | Hne]; intuition congruence.
    + destruct (IH w) as (w' & Hrun & Hh & Hd & Hm & Hrest).
      exists w'. split; [exact Hrun |]. split; [exact Hh |].
      split; [| split; [| exact Hrest]]; intros j.
      * rewrite Hd. cbn [In].
        destruct (decide (j = id)) as [-> | Hne]; intuition congruence.
      * rewrite Hm. cbn [In].
        destruct (decide (j = id)) as [-> | Hne]; intuition congruence.
Qed.

Lemma unmark_all_run layers : forall w,
  (forall id, In id layers -> is_Some (heap w !! id)) ->
  exists w',
    for_each layers
      (fun layer =>
         l <- get_layer layer ;;
         match issue_markers l with
         | Some _ => update_layer layer (set_issue_markers [])
         | None => ret tt
         end) w = (Ok tt, w')
    /\ features_kept w w'
    /\ drawn_items w' = drawn_items w /\ map_layers w' = map_layers w
    /\ meta w' = meta w /\ messages w' = messages w
    /\ requests w' = requests w /\ alerts w' = alerts w.
Proof.
  induction layers as [| id layers IH]; intros w Hres.
  - exists w. split; [reflexivity |]. split; [apply features_kept_refl |].
    repeat split.
  - destruct (Hres id (or_introl eq_refl)) as [l Hl].
    cbn [for_each].
    assert (Hstep : exists w1,
      bind (get_layer id)
           (fun l => match issue_markers l with
                     | Some _ => update_layer id (set_issue_markers [])
                     | None => ret tt
                     end) w = (Ok tt, w1)
      /\ features_kept w w1
      /\ length (heap w1) = length (heap w)
      /\ drawn_items w1 = drawn_items w /\ map_layers w1 = map_layers w
      /\ meta w1 = meta w /\ messages w1 = messages w
      /\ requests w1 = requests w /\ alerts w1 = alerts w).
    { rewrite (bind_ok _ _ _ _ _ (get_layer_run w id l Hl)).
      destruct (issue_markers l).
      - rewrite (update_layer_run w id l _ Hl). eexists. split; [reflexivity |].
        split; [| cbn; rewrite length_insert; repeat split].
        intros j x Hx. cbn [heap set_heap].
        destruct (decide (j = id)) as [-> | Hne].
        + rewrite Hl in Hx. injection Hx as <-.
          exists (set_issue_markers [] l).
          split; [apply (lookup_updated _ _ _ _ Hl) |]. split; reflexivity.
        + exists x. rewrite list_lookup_insert_ne by congruence.
          split; [exact Hx |]. split; reflexivity.
      - exists w. split; [reflexivity |]. split; [apply features_kept_refl |].
        repeat split. }
    destruct Hstep as (w1 & Hrun1 & Hk1 & Hlen & Hd1 & Hm1 & Hme1 & Hms1 & Hr1 & Ha1).
    destruct (IH w1) as (w' & Hrun & Hk & Hd & Hm & Hme & Hms & Hr & Ha).
    { intros j Hj. destruct (Hres j (or_intror Hj)) as [x Hx].
      destruct (Hk1 j x Hx) as (x' & Hx' & _). exists x'. exact Hx'. }
    exists w'. split; [rewrite (bind_ok _ _ _ _ _ Hrun1); exact Hrun |].
    split; [exact (features_kept_trans _ _ _ Hk1 Hk) |].
    repeat split; congruence.
Qed.

(** X20.  A deletion of layers that exist takes exactly these layers
    out of the group and off the map; the layers that stay, and the
    vertices and properties of every layer, are as they were, and the
    data are marked as not saved. *)
Theorem delete_layers_removes w layers :
  (forall id, In id layers -> id ∈ drawn_items w) ->
  resolves w ->
  exists w',
    delete_layers layers w = (Ok tt, w')
    /\ (forall j, j ∈ drawn_items w' <-> j ∈ drawn_items w /\ ~ In j layers)
    /\ (forall j, j ∈ map_layers w' <-> j ∈ map_layers w /\ ~ In j layers)
    /\ features_kept w w'
    /\ data_saved w' = false
    /\ meta w' = meta w /\ messages w' = messages w /\ requests w' = requests w.
Proof.
  intros Hin Hres. unfold delete_layers.
  destruct (remove_all_run layers w) as (w1 & Hrun1 & Hh1 & Hd1 & Hm1 & Hme1 & Hms1 & Hr1 & _).
  rewrite (bind_ok _ _ _ _ _ Hrun1). unfold on_deleted.
  destruct (unmark_all_run layers w1)
    as (w2 & Hrun2 & Hk2 & Hd2 & Hm2 & Hme2 & Hms2 & Hr2 & _).
  { intros id Hid. rewrite Hh1. apply Hres, Hin, Hid. }
  rewrite (bind_ok _ _ _ _ _ Hrun2).
  eexists. split; [reflexivity |].
  cbn [drawn_items map_layers set_data_saved data_saved meta messages requests].
  split; [intros j; rewrite Hd2; apply Hd1 |].
  split.
  { intros j. rewrite Hm2, Hm1. split; intros [Hj Hn]; (split; [exact Hj |]).
    - intros Hl. apply Hn. split; [exact Hl | apply Hin, Hl].
    - intros [Hl _]. exact (Hn Hl). }
  split.
  { intros id l Hl. rewrite <- Hh1 in Hl.
    destruct (Hk2 id l Hl) as (l' & Hl' & Hv & Hp).
    exists l'. split; [exact Hl' |]. split; assumption. }
  repeat split; congruence.
Qed.

(** The line of Scenario D, deleted. *)
Lemma delete_layers_removes_witness :
  (forall id, In id [0%nat] -> id ∈ drawn_items scenario_D)
  /\ resolves scenario_D
  /\ exists w',
       delete_layers [0%nat] scenario_D = (Ok tt, w')
       /\ drawn_items w' = [] /\ map_layers w' = [].
Proof.
  assert (Hin : forall id, In id [0%nat] -> id ∈ drawn_items scenario_D).
  { intros id [<- | []]. apply list_elem_of_In. left. reflexivity. }
  assert (Hres : resolves scenario_D).
  { intros id Hid. apply list_elem_of_In in Hid. destruct Hid as [<- | []].
    eexists. reflexivity. }
  split; [exact Hin |]. split; [exact Hres |].
  destruct (delete_layers_removes scenario_D [0%nat] Hin Hres)
    as (w' & Hrun & _).
  exists w'. split; [exact Hrun |].
  replace w' with (snd (delete_layers [0%nat] scenario_D))
    by (rewrite Hrun; reflexivity).
  split; reflexivity.
Defined.

End More_Delete.

Section Radar_Keys.

Variable sep : ascii.

Lemma split_on_parts s : split_on sep s <> [].
Proof.
  destruct s as [| c s]; [discriminate |]. cbn [split_on].
  destruct (Ascii.eqb c sep); [discriminate |].
  destruct (split_on sep s); discriminate.
Qed.

Lemma split_on_clean s :
  Forall (fun part => ~ In sep (list_ascii_of_string part)) (split_on sep s).
Proof.
  induction s as [| c s IH]; [repeat constructor; intros [] |].
  cbn [split_on]. destruct (Ascii.eqb_spec c sep) as [-> | Hne].
  - constructor; [intros [] | exact IH].
  - destruct (split_on sep s) as [| part parts].
    + repeat constructor. intros [H | []]. exact (Hne H).
    + inversion IH as [| ? ? Hpart Hparts]; subst. constructor; [| exact Hparts].
      intros [H | H]; [exact (Hne H) | exact (Hpart H)].
Qed.

Lemma split_on_before part s :
  ~ In sep (list_ascii_of_string part) ->
  split_on sep (part ++ String sep s) = part :: split_on sep s.
Proof.
  induction part as [| c part IH]; intros Hfree.
  - cbn [String.append split_on]. rewrite Ascii.eqb_refl. reflexivity.
  - cbn [String.append split_on].
    destruct (Ascii.eqb_spec c sep) as [-> | Hne];
      [exfalso; apply Hfree; left; reflexivity |].
    rewrite IH by (intros H; apply Hfree; right; exact H). reflexivity.
Qed.

Lemma split_on_whole part :
  ~ In sep (list_ascii_of_string part) -> split_on sep part = [part].
Proof.
  induction part as [| c part IH]; intros Hfree; [reflexivity |].
  cbn [split_on].
  destruct (Ascii.eqb_spec c sep) as [-> | Hne];
    [exfalso; apply Hfree; left; reflexivity |].
  rewrite IH by (intros H; apply Hfree; right; exact H). reflexivity.
Qed.

Lemma split_on_join parts :
  parts <> [] ->
  Forall (fun part => ~ In sep (list_ascii_of_string part)) parts ->
  split_on sep (join (String sep EmptyString) parts) = parts.
Proof.
  induction parts as [| part parts IH]; intros Hne Hfree; [contradiction |].
  inversion Hfree as [| ? ? Hpart Hparts]; subst.
  destruct parts as [| next parts]; [apply split_on_whole, Hpart |].
  change (join (String sep EmptyString) (part :: next :: parts))
    with (part ++ String sep (join (String sep EmptyString) (next :: parts)))%string.
  rewrite (split_on_before _ _ Hpart), IH; [reflexivity | discriminate | exact Hparts].
Qed.

End Radar_Keys.

Section Neighbours.

Lemma nth_error_firstn_lt {A} (xs : list A) : forall n i,
  (i < n)%nat -> nth_error (firstn n xs) i = nth_error xs i.
Proof.
  induction xs as [| x xs IH]; intros n i Hi.
  - rewrite firstn_nil. reflexivity.
  - destruct n as [| n]; [lia |]. destruct i as [| i]; [reflexivity |].
    cbn [firstn nth_error]. apply IH. lia.
Qed.

Lemma series_of_parts a b :
  series_of a = series_of b ->
  firstn 3 (split_on "-" a) = firstn 3 (split_on "-" b).
Proof.
  unfold series_of. intros H.
  assert (Hparts : forall s,
            split_on "-" (join "-" (firstn 3 (split_on "-" s)))
            = firstn 3 (split_on "-" s)).
  { intros s. apply (split_on_join "-").
    - pose proof (split_on_parts "-" s) as Hne.
      destruct (split_on "-" s); [contradiction | discriminate].
    - apply Forall_take, split_on_clean. }
  rewrite <- (Hparts a), <- (Hparts b), H. reflexivity.
Qed.

(** X21.  The radargrams that the overview of the digitizing page keeps
    from the list of all radargrams belong to the location of the
    page's radargram: a key that passes the test has the location key
    that the overview map derives from the page's key. *)
Theorem is_neighbour_location own other :
  is_neighbour own other = true ->
  other <> own /\ location_key other = location_key own.
Proof.
  unfold is_neighbour. intros H. apply andb_true_iff in H. destruct H as [Hne Hs].
  split.
  - intros ->. rewrite String.eqb_refl in Hne. discriminate.
  - apply String.eqb_eq, series_of_parts in Hs.
    unfold location_key, part_text. cbv zeta.
    rewrite <- (nth_error_firstn_lt (split_on "-" other) 3 0),
            <- (nth_error_firstn_lt (split_on "-" other) 3 2),
            <- (nth_error_firstn_lt (split_on "-" own) 3 0),
            <- (nth_error_firstn_lt (split_on "-" own) 3 2), Hs by lia.
    reflexivity.
Qed.

(** Two profiles of the same series. *)
Lemma is_neighbour_location_witness :
  is_neighbour "amundsenisen-profile-2025-1" "amundsenisen-profile-2025-12" = true
  /\ location_key "amundsenisen-profile-2025-12" = "amundsenisen_2025"
  /\ location_key "amundsenisen-profile-2025-12"
     = location_key "amundsenisen-profile-2025-1".
Proof.
  assert (H : is_neighbour "amundsenisen-profile-2025-1"
                "amundsenisen-profile-2025-12" = true) by reflexivity.
  split; [exact H |]. split; [reflexivity |].
  exact (proj2 (is_neighbour_location _ _ H)).
Defined.

End Neighbours.

Section More_Operators.

(** X22.  A line of the group that runs from the left of the cut to the
    right of it is split into two new layers of its kind: its part on
    the left followed by the cut point, and the cut point followed by
    its part on the right.  Both are in the group; the line itself
    leaves the map and stays in the group, and the flag of saved data
    is as it was. *)
Theorem split_polyline_between w id l p x_coord y_coord before after :
  is_feature w id l p ->
  id ∈ map_layers w -> id ∈ drawn_items w ->
  latlngs l = before ++ after ->
  before <> [] -> after <> [] ->
  (forall v, In v before -> (lng v < x_coord)%Q) ->
  (forall v, In v after -> (x_coord < lng v)%Q) ->
  exists w' a b,
    split_polyline id x_coord y_coord w = (Ok tt, w')
    /\ heap w' = heap w ++ [a; b]
    /\ latlngs a = before ++ [{| lat := y_coord; lng := x_coord |}]
    /\ latlngs b = {| lat := y_coord; lng := x_coord |} :: after
    /\ kind_of a = kind p /\ kind_of b = kind p
    /\ length (heap w) ∈ drawn_items w'
    /\ S (length (heap w)) ∈ drawn_items w'
    /\ id ∈ drawn_items w'
    /\ (id ∉ map_layers w')
    /\ data_saved w' = data_saved w.
Proof.
  intros Hf Hmap Hgroup Hl Hb Ha Hleft Hright.
  pose proof Hf as (H & Hp & [cp Hk]).
  destruct (split_polyline_run w id l p cp x_coord y_coord H Hp Hk Hmap)
    as (w' & Hrun & Hh & Hm & Hd & _ & Hs & _).
  destruct (split_coords_between x_coord y_coord before after Hb Ha Hleft Hright)
    as [H0 H1].
  exists w', (created (split_coords 0 x_coord y_coord (latlngs l)) (kind p) cp),
         (created (split_coords 1 x_coord y_coord (latlngs l)) (kind p) cp).
  rewrite !created_latlngs, !created_kind, Hl, H0, H1.
  split; [exact Hrun |]. split; [rewrite Hh, Hl, H0, H1; reflexivity |].
  repeat split.
  - rewrite Hd. apply elem_of_add_id. right. apply elem_of_add_id. left. reflexivity.
  - rewrite Hd. apply elem_of_add_id. left. reflexivity.
  - rewrite Hd. apply elem_of_add_id. right. apply elem_of_add_id. right.
    exact Hgroup.
  - rewrite Hm. intros Hin. apply remove_id_spec in Hin. destruct Hin as [_ Hne].
    apply Hne. reflexivity.
  - exact Hs.
Qed.

(** The line of Scenario D, cut at x = 3. *)
Lemma split_polyline_between_witness :
  is_feature scenario_D 0 parent_D props_D
  /\ exists w' a b,
       split_polyline 0 3 1 scenario_D = (Ok tt, w')
       /\ heap w' = heap scenario_D ++ [a; b]
       /\ latlngs a = [point 0 0; point 2 0; point 3 1]
       /\ latlngs b = [point 3 1; point 4 0; point 6 0]
       /\ 0%nat ∈ drawn_items w'.
Proof.
  assert (Hf : is_feature scenario_D 0 parent_D props_D).
  { split; [reflexivity |]. split; [reflexivity |]. eexists. reflexivity. }
  split; [exact Hf |].
  destruct (split_polyline_between scenario_D 0 parent_D props_D 3 1
              [point 0 0; point 2 0] [point 4 0; point 6 0] Hf)
    as (w' & a & b & Hrun & Hh & Ha & Hb & _ & _ & _ & _ & Hg & _).
  - apply list_elem_of_In. left. reflexivity.
  - apply list_elem_of_In. left. reflexivity.
  - reflexivity.
  - discriminate.
  - discriminate.
  - intros v [<- | [<- | []]]; reflexivity.
  - intros v [<- | [<- | []]]; reflexivity.
  - exists w', a, b. repeat split; assumption.
Defined.

(** X23.  When the features of an accepted document are loaded up to a
    feature that is not a line, the loading ends there with the message
    on a skipped feature as its last message: the features after it are
    not loaded, and no count of loaded lines is reported. *)
Theorem load_digitized_inner_stops_at_wrong_type data before f after fp w w1 :
  matches data w ->
  features data = before ++ f :: after ->
  for_of before load_feature (accepted data w) = (Ok Next, w1) ->
  feature_properties f = Some fp ->
  String.eqb (geometry_type f) "LineString" = false ->
  load_digitized_inner data w
  = (Ok tt, set_messages (messages w1 ++ [skipped_message]) w1).
Proof.
  intros Hm Hf Hbefore Hfp Hty.
  rewrite (load_digitized_inner_accepted data w Hm), Hf.
  rewrite (load_stops_at_wrong_type before f after _ w1 fp Hbefore Hfp Hty).
  reflexivity.
Qed.

(** The document with a line, a point and a line, loaded into the
    session of Scenario D. *)
Lemma load_digitized_inner_stops_at_wrong_type_witness :
  matches mixed_document scenario_D
  /\ exists w',
       load_digitized_inner mixed_document scenario_D = (Ok tt, w')
       /\ List.map latlngs (annotation_set w') = [[point 0 10; point 10 10]]
       /\ messages w' = [skipped_message].
Proof.
  assert (Hm : matches mixed_document scenario_D) by (repeat split; reflexivity).
  split; [exact Hm |].
  eexists. split.
  - apply (load_digitized_inner_stops_at_wrong_type mixed_document
             [line_feature [(0, 10); (5, 10)]%Q "water_table"]
             point_feature
             [line_feature [(0, 20); (5, 20)]%Q "crevasse"]
             {| kind := Some "crevasse"; color := None; name := None;
                issues := None |}
             scenario_D
             (snd (for_of [line_feature [(0, 10); (5, 10)]%Q "water_table"]
                     load_feature (accepted mixed_document scenario_D)))
             Hm eq_refl); [| reflexivity | reflexivity].
    vm_compute. reflexivity.
  - split; vm_compute; reflexivity.
Defined.

(** X24.  A line of two or more vertices whose first and last vertex
    have the same horizontal position is flagged whatever its vertices
    in between: the validator reports at least one issue and, unless
    told to skip it, raises the alert.  A line drawn straight down is
    such a line. *)
Theorem validate_polyline_no_direction w id l skip_alert :
  heap w !! id = Some l ->
  (2 <= length (latlngs l))%nat ->
  (lng (vertex (latlngs l) 0)
   == lng (vertex (latlngs l) (length (latlngs l) - 1)))%Q ->
  exists found w',
    validate_polyline id skip_alert w = (Ok found, w')
    /\ found <> []
    /\ (skip_alert = false -> alerts w' = alerts w ++ [issues_alert found]).
Proof.
  intros H Hlen Heq.
  pose proof (zero_displacement_flagged (latlngs l) Hlen Heq) as Hne.
  eexists _, _. split; [apply (validate_polyline_run w id l skip_alert H) |].
  split; [exact Hne |].
  intros ->. cbn [alerts set_alerts]. unfold validate_alerts.
  destruct (polyline_issues (latlngs l)) as [| i rest]; [contradiction |].
  reflexivity.
Qed.

(** A line drawn straight down. *)
Lemma validate_polyline_no_direction_witness :
  exists found w',
    validate_polyline 0 false
      (drawn example_meta [point 4 0; point 4 10] "crevasse") = (Ok found, w')
    /\ found = [overhang_message 1]
    /\ length (alerts w')
       = S (length (alerts (drawn example_meta [point 4 0; point 4 10]
                              "crevasse"))).
Proof.
  destruct (validate_polyline_no_direction
              (drawn example_meta [point 4 0; point 4 10] "crevasse") 0
              (created [point 4 0; point 4 10] (Some "crevasse")
                 {| class_name := "Crevasse"; class_color := "#62F700";
                    class_key := "crevasse" |})
              false)
    as (found & w' & Hrun & _ & _).
  - reflexivity.
  - cbn. lia.
  - reflexivity.
  - exists found, w'. split; [exact Hrun |].
    assert (E : (Ok found, w')
                = validate_polyline 0 false
                    (drawn example_meta [point 4 0; point 4 10] "crevasse"))
      by (symmetry; exact Hrun).
    split.
    + assert (E1 : Ok found = fst (validate_polyline 0 false
                                    (drawn example_meta [point 4 0; point 4 10]
                                       "crevasse")))
        by (rewrite <- E; reflexivity).
      vm_compute in E1. injection E1 as ->. reflexivity.
    + replace w' with (snd (validate_polyline 0 false
                              (drawn example_meta [point 4 0; point 4 10]
                                 "crevasse")))
        by (rewrite <- E; reflexivity).
      vm_compute. reflexivity.
Defined.

End More_Operators.
